(** * JanSevak admin dashboard: data-synchronisation and view-state layer

    A shallow embedding of the TypeScript sources of the dashboard front end:
    the API gateway ([services/api]), the fetch-state hooks, the heatmap view
    ([JharkhandHeatmap]), the statistics view ([StatisticsSection]) and the
    chat view ([ChatbotPage]).

    Conventions of the embedding:
    - a JavaScript string is a [string]; each [ascii] stands for the UTF-16
      code unit of the same number, so the embedding covers strings over the
      code units 0..255;
    - a JavaScript number is an IEEE 754 datum, [spec_float];
    - a value that arrives from [JSON.parse] is a [JsValue], whatever the
      TypeScript interface declares for it;
    - an [async] function is the function from the outcomes of the requests
      it awaits to the state updates it performs and the requests it sends;
    - a React render is the snapshot of the component state that the
      functions created by that render close over. *)

From Stdlib Require Import String Ascii List ZArith Bool Arith Lia.
From Stdlib Require Import Floats.SpecFloat.
Import ListNotations.
#[local] Set Warnings "-register-all".
Local Open Scope list_scope.
Local Open Scope string_scope.

(* ================================================================== *)
(** ** JavaScript strings *)
(* ================================================================== *)

Module JsString.

(** Code units that [String.prototype.trim] strips and that [\s] matches:
    TAB, LF, VT, FF, CR, SPACE and NBSP (the members below 256 of WhiteSpace
    and LineTerminator). *)
Definition is_space (c : ascii) : bool :=
  let n := nat_of_ascii c in
  ((n =? 9) || (n =? 10) || (n =? 11) || (n =? 12) || (n =? 13)
   || (n =? 32) || (n =? 160))%nat.

(** [\d] without the unicode flag: the ten ASCII digits. *)
Definition is_digit (c : ascii) : bool :=
  let n := nat_of_ascii c in ((48 <=? n) && (n <=? 57))%nat.

Definition LF : ascii := "010"%char.
Definition star : ascii := "*"%char.

Fixpoint all_chars (f : ascii -> bool) (s : string) : bool :=
  match s with
  | EmptyString => true
  | String c s' => f c && all_chars f s'
  end.

Definition isnt (x : ascii) (c : ascii) : bool := negb (Ascii.eqb c x).

Fixpoint trimStart (s : string) : string :=
  match s with
  | EmptyString => EmptyString
  | String c s' => if is_space c then trimStart s' else s
  end.

Fixpoint trimEnd (s : string) : string :=
  match s with
  | EmptyString => EmptyString
  | String c s' =>
      match trimEnd s' with
      | EmptyString => if is_space c then EmptyString else String c EmptyString
      | String d t => String c (String d t)
      end
  end.

(** [s.trim()] *)
Definition trim (s : string) : string := trimEnd (trimStart s).

(** [s.startsWith(p)] *)
Fixpoint startsWith (p s : string) : bool :=
  match p with
  | EmptyString => true
  | String a p' =>
      match s with
      | EmptyString => false
      | String b s' => Ascii.eqb a b && startsWith p' s'
      end
  end.

(** [s.includes(needle)] *)
Fixpoint includes (needle s : string) : bool :=
  startsWith needle s
  || match s with
     | EmptyString => false
     | String _ s' => includes needle s'
     end.

Fixpoint drop (n : nat) (s : string) : string :=
  match n with
  | O => s
  | S k => match s with
           | EmptyString => EmptyString
           | String _ s' => drop k s'
           end
  end.

(** [s.replace(pat, "")] for a string pattern: the first occurrence of
    [pat] is removed, the rest is kept. *)
Fixpoint removeFirst (pat s : string) : string :=
  if startsWith pat s then drop (String.length pat) s
  else match s with
       | EmptyString => EmptyString
       | String c s' => String c (removeFirst pat s')
       end.

(** [a] glued in front of the first piece of a list of pieces. *)
Definition prepend (a : string) (pieces : list string) : list string :=
  match pieces with
  | [] => [a]
  | h :: t => (a ++ h) :: t
  end.

(** [s.split(sep)] for a separator of one code unit. *)
Fixpoint splitChar (sep : ascii) (s : string) : list string :=
  match s with
  | EmptyString => [EmptyString]
  | String c s' =>
      if Ascii.eqb c sep then EmptyString :: splitChar sep s'
      else prepend (String c EmptyString) (splitChar sep s')
  end.

(** [list.join(sep)] *)
Fixpoint join (sep : string) (l : list string) : string :=
  match l with
  | [] => EmptyString
  | [x] => x
  | x :: rest => x ++ sep ++ join sep rest
  end.

(** [t] occurs in [s]. *)
Definition inside (t s : string) : Prop :=
  exists a b, s = a ++ t ++ b.

End JsString.

(* ================================================================== *)
(** ** JavaScript values *)
(* ================================================================== *)

Module Js.

Inductive JsValue : Type :=
| JsUndefined
| JsNull
| JsBool (b : bool)
| JsNumber (x : spec_float)
| JsString (s : string)
| JsArray (items : list JsValue)
| JsObject (props : list (string * JsValue)).

(** [isNaN(x)] on a number. *)
Definition isNaN (x : spec_float) : bool :=
  match x with
  | S754_nan => true
  | _ => false
  end.

(** ToBoolean: what [if (v)], [!v], [v && ...] and [v || ...] test. *)
Definition truthy (v : JsValue) : bool :=
  match v with
  | JsUndefined | JsNull => false
  | JsBool b => b
  | JsNumber (S754_zero _) | JsNumber S754_nan => false
  | JsNumber _ => true
  | JsString s => negb (s =? "")
  | JsArray _ | JsObject _ => true
  end.

(** ToBoolean of a string. *)
Definition nonEmpty (s : string) : bool := negb (s =? "").

Fixpoint lookup (name : string) (props : list (string * JsValue)) : JsValue :=
  match props with
  | [] => JsUndefined
  | (k, v) :: rest => if k =? name then v else lookup name rest
  end.

(** [v.name] for a data property [name]: reading a property of [null] or
    [undefined] throws a TypeError ([None]); an object gives the property or
    [undefined]; the other values of a JSON document have no such property. *)
Definition getProp (v : JsValue) (name : string) : option JsValue :=
  match v with
  | JsUndefined | JsNull => None
  | JsObject props => Some (lookup name props)
  | _ => Some JsUndefined
  end.

(** [v.name] once [v] is known to be neither [null] nor [undefined]. *)
Definition prop (v : JsValue) (name : string) : JsValue :=
  match getProp v name with
  | Some x => x
  | None => JsUndefined
  end.

(** [Array.isArray(v)], with the elements when it holds. *)
Definition asArray (v : JsValue) : option (list JsValue) :=
  match v with
  | JsArray items => Some items
  | _ => None
  end.

(** [items.filter(p)] for a callback that may throw. *)
Fixpoint filterThrowing (p : JsValue -> option bool) (items : list JsValue)
  : option (list JsValue) :=
  match items with
  | [] => Some []
  | x :: rest =>
      match p x with
      | None => None
      | Some keep =>
          match filterThrowing p rest with
          | None => None
          | Some kept => Some (if keep then x :: kept else kept)
          end
      end
  end.

(** Numbers used in examples. *)
Definition zero : spec_float := S754_zero false.
Definition negZero : spec_float := S754_zero true.
(** 77.25 = 309 * 2^-2 and 28.5 = 57 * 2^-1 *)
Definition num_77_25 : spec_float := S754_finite false 309 (-2).
Definition num_28_5 : spec_float := S754_finite false 57 (-1).

End Js.

(* ================================================================== *)
(** ** The API gateway ([services/api]) *)
(* ================================================================== *)

Module Api.
Import JsString Js.

(** The text of an error message.  Texts that the engine or a template
    literal produce are kept symbolic. *)
Inductive Message : Type :=
| MsgText (s : string)
| MsgHttpStatus (status : Z)      (* `HTTP error! status: ${status}` *)
| MsgOfValue (v : JsValue)        (* String(v) for a value that is no string *)
| MsgEngine (tag : string).       (* TypeError / SyntaxError text of the engine *)

(** What a [throw] carries: an [Error] instance with its message, or any
    other value. *)
Inductive Thrown : Type :=
| ThrownError (m : Message)
| ThrownValue (v : JsValue).

(** A settled promise. *)
Inductive Settled (A : Type) : Type :=
| Resolved (a : A)
| Rejected (e : Thrown).
Arguments Resolved {A} a.
Arguments Rejected {A} e.

(** What [response.json()] gives. *)
Inductive Body : Type :=
| JsonBody (data : JsValue)
| MalformedBody (m : Message).

(** What [fetch(url)] gives: a rejection (endpoint unreachable, connection
    refused, ...) or a response with its status and body. *)
Inductive FetchOutcome : Type :=
| NetworkError (m : Message)
| HttpResponse (status : Z) (body : Body).

(** [response.ok] *)
Definition ok (status : Z) : bool := ((200 <=? status) && (status <=? 299))%Z.

(** A computation that sends GET requests: the URLs requested, in order,
    and the result. *)
Definition Net (A : Type) : Type := (list string * A)%type.

Definition ret {A : Type} (a : A) : Net A := ([], a).

Definition requests {A : Type} (m : Net A) : list string := fst m.
Definition result {A : Type} (m : Net A) : A := snd m.

Definition bind {A B : Type} (m : Net A) (k : A -> Net B) : Net B :=
  ((requests m ++ requests (k (result m)))%list, result (k (result m))).

Module NetNotations.
Notation "x <- m ;; k" := (bind m (fun x => k))
  (at level 61, m at next level, right associativity).
End NetNotations.
Import NetNotations.

(** *** URLSearchParams *)

Definition hexDigit (n : nat) : ascii :=
  ascii_of_nat (if (n <? 10)%nat then 48 + n else 55 + n).

Definition percentByte (b : nat) : string :=
  String "%" (String (hexDigit (b / 16)) (String (hexDigit (b mod 16)) "")).

(** UTF-8 bytes of one code unit below 256. *)
Definition utf8 (c : ascii) : list nat :=
  let n := nat_of_ascii c in
  if (n <? 128)%nat then [n] else [192 + n / 64; 128 + n mod 64]%nat.

(** Bytes that the application/x-www-form-urlencoded serializer leaves as
    they are: [*], [-], [.], [_], digits and ASCII letters. *)
Definition keptByte (b : nat) : bool :=
  ((b =? 42) || (b =? 45) || (b =? 46) || (b =? 95)
   || ((48 <=? b) && (b <=? 57))
   || ((65 <=? b) && (b <=? 90))
   || ((97 <=? b) && (b <=? 122)))%nat.

Definition encodeByte (b : nat) : string :=
  if (b =? 32)%nat then "+"
  else if keptByte b then String (ascii_of_nat b) ""
  else percentByte b.

Fixpoint urlencode (s : string) : string :=
  match s with
  | EmptyString => EmptyString
  | String c s' =>
      String.concat "" (map encodeByte (utf8 c)) ++ urlencode s'
  end.

(** The entries of a [URLSearchParams], in insertion order. *)
Definition URLSearchParams : Type := list (string * string).

Definition append (name value : string) (params : URLSearchParams)
  : URLSearchParams := (params ++ [(name, value)])%list.

Definition encodePair (kv : string * string) : string :=
  urlencode (fst kv) ++ "=" ++ urlencode (snd kv).

(** [params.toString()] *)
Definition toString (params : URLSearchParams) : string :=
  join "&" (map encodePair params).

(** The optional argument of [getReportsByLocation]. *)
Record Filters : Type := {
  f_category : option string;
  f_priority : option string;
  f_department : option string;
  f_status : option string
}.

Definition noFilters : Filters :=
  {| f_category := None; f_priority := None;
     f_department := None; f_status := None |}.

(** [filters?.field] as a condition, for [filters] possibly [undefined]. *)
Definition chosen (filters : option Filters) (field : Filters -> option string)
  : option string :=
  match filters with
  | None => None
  | Some f =>
      match field f with
      | Some v => if nonEmpty v then Some v else None
      | None => None
      end
  end.

Definition appendIf (name : string) (v : option string)
  (params : URLSearchParams) : URLSearchParams :=
  match v with
  | Some value => append name value params
  | None => params
  end.

(** The parameters that [getReportsByLocation] builds. *)
Definition locationParams (filters : option Filters) : URLSearchParams :=
  let params := [] in
  let params := appendIf "category" (chosen filters f_category) params in
  let params := appendIf "priority" (chosen filters f_priority) params in
  let params := appendIf "department" (chosen filters f_department) params in
  let params := appendIf "status" (chosen filters f_status) params in
  params.

Definition queryString (params : URLSearchParams) : string :=
  if nonEmpty (toString params) then "?" ++ toString params else "".

Section Gateway.

(** [import.meta.env.VITE_API_BASE_URL] *)
Variable VITE_API_BASE_URL : option string.

(** The backend: the outcome of a GET request for a URL. *)
Variable backend : string -> FetchOutcome.

Definition API_BASE_URL : string :=
  match VITE_API_BASE_URL with
  | Some url => if nonEmpty url then url else "http://localhost:8000/api"
  | None => "http://localhost:8000/api"
  end.

Definition fetch (url : string) : Net FetchOutcome := ([url], backend url).

(** The envelope check of [fetchWithErrorHandling] on a parsed body. *)
Definition unwrapEnvelope (data : JsValue) : Settled JsValue :=
  match getProp data "success" with
  | None => Rejected (ThrownError (MsgEngine "TypeError"))
  | Some success =>
      if negb (truthy success) then
        let error := prop data "error" in
        Rejected (ThrownError
                    (if truthy error then
                       match error with
                       | JsString s => MsgText s
                       | v => MsgOfValue v
                       end
                     else MsgText "API request failed"))
      else Resolved (prop data "data")
  end.

(** [fetchWithErrorHandling(url)]: the [catch] logs and rethrows. *)
Definition fetchWithErrorHandling (url : string) : Net (Settled JsValue) :=
  response <- fetch url ;;
  ret match response with
      | NetworkError m => Rejected (ThrownError m)
      | HttpResponse status body =>
          if negb (ok status) then Rejected (ThrownError (MsgHttpStatus status))
          else match body with
               | MalformedBody m => Rejected (ThrownError m)
               | JsonBody data => unwrapEnvelope data
               end
      end.

Definition getAllReports : Net (Settled JsValue) :=
  fetchWithErrorHandling (API_BASE_URL ++ "/reports").

Definition getReportStats : Net (Settled JsValue) :=
  fetchWithErrorHandling (API_BASE_URL ++ "/reports/stats").

Definition getComprehensiveStats : Net (Settled JsValue) :=
  fetchWithErrorHandling (API_BASE_URL ++ "/reports/stats").

Definition locationUrl (filters : option Filters) : string :=
  API_BASE_URL ++ "/reports/by-location"
               ++ queryString (locationParams filters).

(** [getReportsByLocation(filters)] *)
Definition getReportsByLocation (filters : option Filters)
  : Net (Settled (list JsValue)) :=
  r <- fetchWithErrorHandling (locationUrl filters) ;;
  ret match r with
      | Resolved data =>
          match asArray data with
          | None => Resolved []
          | Some items => Resolved items
          end
      | Rejected _ => Resolved []
      end.

Definition getFilterOptions : Net (Settled JsValue) :=
  fetchWithErrorHandling (API_BASE_URL ++ "/filter-options").

Definition healthUrl : string := removeFirst "/api" API_BASE_URL ++ "/health".

(** [checkConnection()] *)
Definition checkConnection : Net (Settled bool) :=
  response <- fetch healthUrl ;;
  ret match response with
      | HttpResponse status _ => Resolved (ok status)
      | NetworkError _ => Resolved false
      end.

End Gateway.

End Api.

(* ================================================================== *)
(** ** Fetch-state hooks and the table view *)
(* ================================================================== *)

(** [err instanceof Error ? err.message : fallback] *)
Definition errorMessageOr (fallback : string) (err : Api.Thrown) : Api.Message :=
  match err with
  | Api.ThrownError m => m
  | Api.ThrownValue _ => Api.MsgText fallback
  end.

Module useReports.
Import Js Api Api.NetNotations.

Record State : Type := {
  reports : JsValue;
  loading : bool;
  error : option Message
}.

(** The [useState] initial values. *)
Definition initial : State :=
  {| reports := JsArray []; loading := true; error := None |}.

Definition setReports (v : JsValue) (st : State) : State :=
  {| reports := v; loading := loading st; error := error st |}.
Definition setLoading (b : bool) (st : State) : State :=
  {| reports := reports st; loading := b; error := error st |}.
Definition setError (e : option Message) (st : State) : State :=
  {| reports := reports st; loading := loading st; error := e |}.

Section Hook.
Variable VITE_API_BASE_URL : option string.
Variable backend : string -> FetchOutcome.

Definition fetchReports (st : State) : Net State :=
  let st := setLoading true st in
  let st := setError None st in
  r <- getAllReports VITE_API_BASE_URL backend ;;
  let st :=
    match r with
    | Resolved data => setReports data st
    | Rejected err =>
        setError (Some (errorMessageOr "Failed to fetch reports" err)) st
    end in
  ret (setLoading false st).
End Hook.

End useReports.

Module useReportStats.
Import Js Api Api.NetNotations.

Record State : Type := {
  stats : JsValue;
  loading : bool;
  error : option Message
}.

Definition initial : State :=
  {| stats := JsNull; loading := true; error := None |}.

Definition setStats (v : JsValue) (st : State) : State :=
  {| stats := v; loading := loading st; error := error st |}.
Definition setLoading (b : bool) (st : State) : State :=
  {| stats := stats st; loading := b; error := error st |}.
Definition setError (e : option Message) (st : State) : State :=
  {| stats := stats st; loading := loading st; error := e |}.

Section Hook.
Variable VITE_API_BASE_URL : option string.
Variable backend : string -> FetchOutcome.

Definition fetchStats (st : State) : Net State :=
  let st := setLoading true st in
  let st := setError None st in
  r <- getReportStats VITE_API_BASE_URL backend ;;
  let st :=
    match r with
    | Resolved data => setStats data st
    | Rejected err =>
        setError (Some (errorMessageOr "Failed to fetch statistics" err)) st
    end in
  ret (setLoading false st).
End Hook.

End useReportStats.

Module ComplaintsTable.
Import Js Api Api.NetNotations.

Record State : Type := {
  reports : JsValue;
  loading : bool;
  error : string
}.

Definition initial : State :=
  {| reports := JsArray []; loading := true; error := "" |}.

Definition setReports (v : JsValue) (st : State) : State :=
  {| reports := v; loading := loading st; error := error st |}.
Definition setLoading (b : bool) (st : State) : State :=
  {| reports := reports st; loading := b; error := error st |}.
Definition setError (e : string) (st : State) : State :=
  {| reports := reports st; loading := loading st; error := e |}.

Section View.
Variable VITE_API_BASE_URL : option string.
Variable backend : string -> FetchOutcome.

Definition fetchReports (st : State) : Net State :=
  let st := setLoading true st in
  let st := setError "" st in
  r <- getAllReports VITE_API_BASE_URL backend ;;
  let st :=
    match r with
    | Resolved data => setReports data st
    | Rejected _ => setError "Failed to fetch complaints. Please try again." st
    end in
  ret (setLoading false st).
End View.

End ComplaintsTable.

(* ================================================================== *)
(** ** The heatmap view ([JharkhandHeatmap]) *)
(* ================================================================== *)

Module JharkhandHeatmap.
Import JsString Js Api Api.NetNotations.

Record State : Type := {
  locations : list JsValue;
  loading : bool;
  isConnected : bool;
  filterOptions : JsValue;
  selectedCategory : string;
  selectedPriority : string;
  selectedDepartment : string;
  selectedStatus : string
}.

(** The [useState] initial values. *)
Definition initial : State :=
  {| locations := []; loading := true; isConnected := false;
     filterOptions := JsNull;
     selectedCategory := ""; selectedPriority := "";
     selectedDepartment := ""; selectedStatus := "" |}.

Definition setLocations (l : list JsValue) (st : State) : State :=
  {| locations := l; loading := loading st; isConnected := isConnected st;
     filterOptions := filterOptions st;
     selectedCategory := selectedCategory st;
     selectedPriority := selectedPriority st;
     selectedDepartment := selectedDepartment st;
     selectedStatus := selectedStatus st |}.

Definition setLoading (b : bool) (st : State) : State :=
  {| locations := locations st; loading := b; isConnected := isConnected st;
     filterOptions := filterOptions st;
     selectedCategory := selectedCategory st;
     selectedPriority := selectedPriority st;
     selectedDepartment := selectedDepartment st;
     selectedStatus := selectedStatus st |}.

Definition setIsConnected (b : bool) (st : State) : State :=
  {| locations := locations st; loading := loading st; isConnected := b;
     filterOptions := filterOptions st;
     selectedCategory := selectedCategory st;
     selectedPriority := selectedPriority st;
     selectedDepartment := selectedDepartment st;
     selectedStatus := selectedStatus st |}.

Definition setFilterOptions (v : JsValue) (st : State) : State :=
  {| locations := locations st; loading := loading st;
     isConnected := isConnected st; filterOptions := v;
     selectedCategory := selectedCategory st;
     selectedPriority := selectedPriority st;
     selectedDepartment := selectedDepartment st;
     selectedStatus := selectedStatus st |}.

Definition setSelectedCategory (v : string) (st : State) : State :=
  {| locations := locations st; loading := loading st;
     isConnected := isConnected st; filterOptions := filterOptions st;
     selectedCategory := v;
     selectedPriority := selectedPriority st;
     selectedDepartment := selectedDepartment st;
     selectedStatus := selectedStatus st |}.

Definition setSelectedPriority (v : string) (st : State) : State :=
  {| locations := locations st; loading := loading st;
     isConnected := isConnected st; filterOptions := filterOptions st;
     selectedCategory := selectedCategory st;
     selectedPriority := v;
     selectedDepartment := selectedDepartment st;
     selectedStatus := selectedStatus st |}.

Definition setSelectedDepartment (v : string) (st : State) : State :=
  {| locations := locations st; loading := loading st;
     isConnected := isConnected st; filterOptions := filterOptions st;
     selectedCategory := selectedCategory st;
     selectedPriority := selectedPriority st;
     selectedDepartment := v;
     selectedStatus := selectedStatus st |}.

Definition setSelectedStatus (v : string) (st : State) : State :=
  {| locations := locations st; loading := loading st;
     isConnected := isConnected st; filterOptions := filterOptions st;
     selectedCategory := selectedCategory st;
     selectedPriority := selectedPriority st;
     selectedDepartment := selectedDepartment st;
     selectedStatus := v |}.

(** The callback of [reportLocations.filter]: [loc.lat && loc.lng &&
    typeof loc.lat === "number" && typeof loc.lng === "number" &&
    !isNaN(loc.lat) && !isNaN(loc.lng)], on the two property values.  The
    [typeof] tests are the match on [JsNumber]; [&&] evaluates [isNaN] only
    behind them. *)
Definition coordinatesPass (lat lng : JsValue) : bool :=
  truthy lat && truthy lng
  && match lat, lng with
     | JsNumber x, JsNumber y => negb (isNaN x) && negb (isNaN y)
     | _, _ => false
     end.

(** The same callback on an element of the fetched array; reading [loc.lat]
    throws when the element is [null] or [undefined]. *)
Definition validLocation (loc : JsValue) : option bool :=
  match getProp loc "lat", getProp loc "lng" with
  | Some lat, Some lng => Some (coordinatesPass lat lng)
  | _, _ => None
  end.

Definition ifSelected (v : string) : option string :=
  if nonEmpty v then Some v else None.

(** The [filters] object that [loadReportLocations] builds from the state
    of the render it belongs to. *)
Definition buildFilters (render : State) (applyFilters : bool) : Filters :=
  if applyFilters then
    {| f_category := ifSelected (selectedCategory render);
       f_priority := ifSelected (selectedPriority render);
       f_department := ifSelected (selectedDepartment render);
       f_status := ifSelected (selectedStatus render) |}
  else noFilters.

Definition count (v : option string) : nat :=
  match v with Some _ => 1 | None => 0 end.

(** [Object.keys(filters).length] *)
Definition keyCount (f : Filters) : nat :=
  count (f_category f) + count (f_priority f)
  + count (f_department f) + count (f_status f).

(** [Object.keys(filters).length > 0 ? filters : undefined] *)
Definition filtersArgument (f : Filters) : option Filters :=
  if (0 <? keyCount f)%nat then Some f else None.

Section View.
Variable VITE_API_BASE_URL : option string.
Variable backend : string -> FetchOutcome.

(** The [try] block of [loadReportLocations]: the state when the block
    ends, and what it threw, if anything.  [render] is the state of the
    render whose [loadReportLocations] this is; [st] is the component
    state that the setters update. *)
Definition loadReportLocations_try (render : State) (applyFilters : bool)
  (st : State) : Net (State * option Thrown) :=
  let st := setLoading true st in
  c <- checkConnection VITE_API_BASE_URL backend ;;
  match c with
  | Rejected e => ret (st, Some e)
  | Resolved connected =>
      let st := setIsConnected connected st in
      if connected then
        st <- (if negb (truthy (filterOptions render)) then
                 o <- getFilterOptions VITE_API_BASE_URL backend ;;
                 ret match o with
                     | Resolved options => setFilterOptions options st
                     | Rejected _ => st
                     end
               else ret st) ;;
        let filters := buildFilters render applyFilters in
        r <- getReportsByLocation VITE_API_BASE_URL backend
               (filtersArgument filters) ;;
        match r with
        | Rejected e => ret (st, Some e)
        | Resolved reportLocations =>
            if (0 <? List.length reportLocations)%nat then
              match filterThrowing validLocation reportLocations with
              | Some validLocations =>
                  ret (setLocations validLocations st, None)
              | None => ret (st, Some (ThrownError (MsgEngine "TypeError")))
              end
            else ret (setLocations [] st, None)
        end
      else ret (st, None)
  end.

(** [loadReportLocations(applyFilters = false)] with its [catch] and
    [finally]. *)
Definition loadReportLocations (render : State) (applyFilters : bool)
  (st : State) : Net State :=
  out <- loadReportLocations_try render applyFilters st ;;
  let st :=
    match snd out with
    | Some _ => setLocations [] (fst out)
    | None => fst out
    end in
  ret (setLoading false st).

(** The two effects of the first render, in source order: the mount
    effect calls [loadReportLocations()] and installs the interval; the
    filter effect calls [loadReportLocations(true)] when [isConnected]. *)
Definition mount (render : State) : Net State :=
  st <- loadReportLocations render false render ;;
  if isConnected render then loadReportLocations render true st
  else ret st.

Definition sameSelection (a b : State) : bool :=
  (selectedCategory a =? selectedCategory b)
  && (selectedPriority a =? selectedPriority b)
  && (selectedDepartment a =? selectedDepartment b)
  && (selectedStatus a =? selectedStatus b).

Definition clearFilters (st : State) : State :=
  setSelectedStatus ""
    (setSelectedDepartment ""
       (setSelectedPriority "" (setSelectedCategory "" st))).

(** The filter effect after a render with state [st]; [before] is the
    state of the previous render.  The effect runs when one of its four
    dependencies changed, and its [loadReportLocations] is the one of the
    new render. *)
Definition filterEffect (before st : State) : Net State :=
  if sameSelection before st then ret st
  else if isConnected st then loadReportLocations st true st
  else ret st.

(** [refreshLocations], the click handler of the current render; the
    button is disabled while [loading]. *)
Definition refreshLocations (st : State) : Net State :=
  if loading st then ret st else loadReportLocations st true st.

(** The interval callback [() => loadReportLocations(true)]: the mount
    effect runs once (dependency list []), so its [loadReportLocations]
    is the one of the first render. *)
Definition tick (firstRender st : State) : Net State :=
  loadReportLocations firstRender true st.

End View.

(** A mounted view: the first render, which the interval callback closes
    over, and the current state. *)
Record Instance : Type := {
  firstRender : State;
  current : State
}.

Inductive Event : Type :=
| SelectCategory (v : string)
| SelectPriority (v : string)
| SelectDepartment (v : string)
| SelectStatus (v : string)
| ClearFilters
| Refresh
| Tick.

(** One event, with the backend as it answers while the event is handled.
    A call of [loadReportLocations] runs to its end before the next event
    is handled. *)
Definition handle (VITE_API_BASE_URL : option string) (i : Instance)
  (be : (string -> FetchOutcome) * Event) : Net Instance :=
  let backend := fst be in
  let st := current i in
  st' <- match snd be with
         | SelectCategory v =>
             filterEffect VITE_API_BASE_URL backend st (setSelectedCategory v st)
         | SelectPriority v =>
             filterEffect VITE_API_BASE_URL backend st (setSelectedPriority v st)
         | SelectDepartment v =>
             filterEffect VITE_API_BASE_URL backend st
                          (setSelectedDepartment v st)
         | SelectStatus v =>
             filterEffect VITE_API_BASE_URL backend st (setSelectedStatus v st)
         | ClearFilters =>
             filterEffect VITE_API_BASE_URL backend st (clearFilters st)
         | Refresh => refreshLocations VITE_API_BASE_URL backend st
         | Tick => tick VITE_API_BASE_URL backend (firstRender i) st
         end ;;
  ret {| firstRender := firstRender i; current := st' |}.

Fixpoint run (VITE_API_BASE_URL : option string) (i : Instance)
  (events : list ((string -> FetchOutcome) * Event)) : Net Instance :=
  match events with
  | [] => ret i
  | e :: rest =>
      i' <- handle VITE_API_BASE_URL i e ;; run VITE_API_BASE_URL i' rest
  end.

(** Mounting the component with [render] as its first render. *)
Definition mounted (VITE_API_BASE_URL : option string)
  (backend : string -> FetchOutcome) (render : State) : Net Instance :=
  st <- mount VITE_API_BASE_URL backend render ;;
  ret {| firstRender := render; current := st |}.

(** The markers: one GeoJSON feature per element of [locations], with its
    coordinates [[loc.lng, loc.lat]] ([MapboxMap]). *)
Definition markers (st : State) : list (JsValue * JsValue * JsValue) :=
  map (fun loc => (prop loc "lng", prop loc "lat", loc)) (locations st).

End JharkhandHeatmap.

(* ================================================================== *)
(** ** The statistics view ([StatisticsSection]) *)
(* ================================================================== *)

Module StatisticsSection.
Import Js Api.

Inductive ChangeType : Type := increase | decrease.

(** [value: number | string]; the numbers of this view are whole. *)
Inductive CardValue : Type :=
| NumberValue (n : Z)
| StringValue (s : string).

Record StatCard : Type := {
  value : CardValue;
  change : string;
  change_type : ChangeType
}.

Record Cards : Type := {
  total_complaints : StatCard;
  resolved_this_month : StatCard;
  pending_review : StatCard;
  avg_resolution_time : StatCard
}.

Record MonthlyData : Type := { month : string; complaints : Z }.

Record CategoryData : Type := {
  name : string;
  share : Z;          (* the field [value] of [CategoryData] *)
  color : string
}.

Record ComprehensiveStats : Type := {
  cards : Cards;
  monthly_data : list MonthlyData;
  category_data : list CategoryData;
  by_status : list (string * Z);
  by_priority : list (string * Z);
  by_department : list (string * Z);
  total_reports : Z
}.

Record State : Type := {
  stats : option ComprehensiveStats;
  loading : bool;
  error : option string
}.

Definition initial : State :=
  {| stats := None; loading := true; error := None |}.

Definition setStats (v : option ComprehensiveStats) (st : State) : State :=
  {| stats := v; loading := loading st; error := error st |}.
Definition setLoading (b : bool) (st : State) : State :=
  {| stats := stats st; loading := b; error := error st |}.
Definition setError (e : option string) (st : State) : State :=
  {| stats := stats st; loading := loading st; error := e |}.

(** The literal passed to [setStats] in the [catch] block. *)
Definition fallbackStats : ComprehensiveStats :=
  {| cards :=
       {| total_complaints :=
            {| value := NumberValue 0; change := "+0%";
               change_type := increase |};
          resolved_this_month :=
            {| value := NumberValue 0; change := "+0%";
               change_type := increase |};
          pending_review :=
            {| value := NumberValue 0; change := "-0%";
               change_type := decrease |};
          avg_resolution_time :=
            {| value := StringValue "0.0 days"; change := "-0%";
               change_type := decrease |} |};
     monthly_data :=
       [ {| month := "Jan"; complaints := 0 |};
         {| month := "Feb"; complaints := 0 |};
         {| month := "Mar"; complaints := 0 |};
         {| month := "Apr"; complaints := 0 |};
         {| month := "May"; complaints := 0 |};
         {| month := "Jun"; complaints := 0 |} ];
     category_data :=
       [ {| name := "No Data"; share := 100; color := "#3B82F6" |} ];
     by_status := [];
     by_priority := [];
     by_department := [];
     total_reports := 0 |}.

(** [fetchStats] of the mount effect; [outcome] is what
    [apiService.getComprehensiveStats()] settled to.  The gateway resolves
    to whatever the [data] property of the envelope holds: [Some data] is
    an object, read at the declared type; [None] is a value that [!stats]
    takes for absent ([undefined] when the envelope has no [data],
    [null]).  [setStats(data)] stores it as it is. *)
Definition fetchStats (outcome : Settled (option ComprehensiveStats))
  (st : State) : State :=
  let st := setLoading true st in
  let st :=
    match outcome with
    | Resolved data =>
        let st := setStats data st in
        setError None st
    | Rejected _ =>
        let st := setError (Some "Failed to load statistics") st in
        (* Fallback to mock data *)
        setStats (Some fallbackStats) st
    end in
  setLoading false st.

Record StatsCardView : Type := {
  title : string;
  shownValue : CardValue;
  shownChange : string;
  changeType : ChangeType
}.

Definition cardView (t : string) (c : StatCard) : StatsCardView :=
  {| title := t; shownValue := value c; shownChange := change c;
     changeType := change_type c |}.

(** What the component returns. *)
Inductive View : Type :=
| Skeleton
| ErrorPanel (message : option string)
| Dashboard (statsCards : list StatsCardView)
            (barChart : list MonthlyData)
            (pieChart : list CategoryData).

Definition truthyError (e : option string) : bool :=
  match e with
  | Some s => nonEmpty s
  | None => false
  end.

(** [if (loading) ...; if (error || !stats) ...; ...] *)
Definition render (st : State) : View :=
  if loading st then Skeleton
  else
    match stats st with
    | None => ErrorPanel (error st)
    | Some s =>
        if truthyError (error st) then ErrorPanel (error st)
        else
          Dashboard
            [ cardView "Total Complaints" (total_complaints (cards s));
              cardView "Resolved This Month" (resolved_this_month (cards s));
              cardView "Pending Review" (pending_review (cards s));
              cardView "Average Resolution Time"
                       (avg_resolution_time (cards s)) ]
            (monthly_data s)
            (category_data s)
    end.

(** The view after the mount effect has run to its end. *)
Definition mountedView (outcome : Settled (option ComprehensiveStats))
  : View :=
  render (fetchStats outcome initial).

(** The dashboard the claim describes: the four cards and the charts of
    [fallbackStats]. *)
Definition placeholderDashboard : View :=
  Dashboard
    [ cardView "Total Complaints" (total_complaints (cards fallbackStats));
      cardView "Resolved This Month" (resolved_this_month (cards fallbackStats));
      cardView "Pending Review" (pending_review (cards fallbackStats));
      cardView "Average Resolution Time"
               (avg_resolution_time (cards fallbackStats)) ]
    (monthly_data fallbackStats)
    (category_data fallbackStats).

End StatisticsSection.

(* ================================================================== *)
(** ** The chat view ([ChatbotPage]) *)
(* ================================================================== *)

Module ChatbotPage.
Import JsString Js.

Inductive Sender : Type := user | bot.

Record ChatMessage : Type := {
  id : Z;              (* the number whose decimal string is the id *)
  text : string;
  sender : Sender;
  timestamp : Z
}.

Record State : Type := {
  messages : list ChatMessage;
  inputMessage : string;
  isLoading : bool
}.

Definition greeting : string :=
  "Hello! I'm your complaint data assistant. I can help you analyze complaint patterns, statistics, and answer questions about the complaint database. What would you like to know?".

(** The [useState] initial values; [t0] is the clock at the first render. *)
Definition initial (t0 : Z) : State :=
  {| messages := [ {| id := 1; text := greeting; sender := bot;
                      timestamp := t0 |} ];
     inputMessage := "";
     isLoading := false |}.

(** The body of the POST to [/api/chatbot/message]. *)
Record ChatRequest : Type := {
  message : string;
  chat_history : list (string * Sender)
}.

(** How the request of [sendMessage] ends: a 2xx response whose JSON body
    carries the reply text, or anything that lands in the [catch] block
    (rejected fetch, other status, unreadable body). *)
Inductive ChatOutcome : Type :=
| Reply (response : string)
| Failure.

(** [sendMessage] up to its [await]: the new state and the request sent,
    if any.  [now] is [Date.now()]. *)
Definition sendMessage (now : Z) (st : State) : State * option ChatRequest :=
  if negb (nonEmpty (trim (inputMessage st))) || isLoading st then (st, None)
  else
    let userMessage :=
      {| id := now; text := inputMessage st; sender := user;
         timestamp := now |} in
    ({| messages := (messages st ++ [userMessage])%list;
        inputMessage := "";
        isLoading := true |},
     Some {| message := inputMessage st;
             chat_history :=
               map (fun msg => (text msg, sender msg)) (messages st) |}).

(** [sendMessage] after its [await]: the reply or the apology is appended
    and [finally] clears [isLoading]. *)
Definition sendMessage_settled (now : Z) (outcome : ChatOutcome) (st : State)
  : State :=
  let botText :=
    match outcome with
    | Reply response => response
    | Failure => "Sorry, I encountered an error. Please try again."
    end in
  {| messages :=
       (messages st ++ [ {| id := now + 1; text := botText; sender := bot;
                            timestamp := now |} ])%list;
     inputMessage := inputMessage st;
     isLoading := false |}.

(** The view together with the requests that have been sent and not yet
    answered. *)
Record World : Type := {
  view : State;
  outstanding : list ChatRequest
}.

Inductive Event : Type :=
| TypeInput (s : string)          (* onChange of the textarea, quick question *)
| Submit (now : Z)                (* Send button, Enter key *)
| Settle (now : Z) (outcome : ChatOutcome).

Definition setInputMessage (s : string) (st : State) : State :=
  {| messages := messages st; inputMessage := s; isLoading := isLoading st |}.

Definition step (w : World) (e : Event) : World :=
  match e with
  | TypeInput s =>
      {| view := setInputMessage s (view w); outstanding := outstanding w |}
  | Submit now =>
      let (st, sent) := sendMessage now (view w) in
      {| view := st;
         outstanding :=
           match sent with
           | Some r => (outstanding w ++ [r])%list
           | None => outstanding w
           end |}
  | Settle now outcome =>
      match outstanding w with
      | [] => w                       (* nothing to settle *)
      | _ :: rest =>
          {| view := sendMessage_settled now outcome (view w);
             outstanding := rest |}
      end
  end.

Definition start (t0 : Z) : World :=
  {| view := initial t0; outstanding := [] |}.

Inductive reachable (t0 : Z) : World -> Prop :=
| reach_start : reachable t0 (start t0)
| reach_step : forall w e, reachable t0 w -> reachable t0 (step w e).

(** *** formatComplaintText *)

(** The [complaintData] object: a field is [None] while no line has set
    it. *)
Record ComplaintData : Type := {
  reportId : option string;
  category : option string;
  priority : option string;
  description : option string;
  status : option string;
  createdAt : option string
}.

Definition noData : ComplaintData :=
  {| reportId := None; category := None; priority := None;
     description := None; status := None; createdAt := None |}.

Inductive Label : Type :=
| ReportId | Category | Priority | Description | Status | CreatedAt.

(** The marker that the parser looks for, for each field. *)
Definition marker (l : Label) : string :=
  match l with
  | ReportId => "**Report ID:**"
  | Category => "**Category:**"
  | Priority => "**Priority:**"
  | Description => "**Description:**"
  | Status => "**Status:**"
  | CreatedAt => "**Created At:**"
  end.

Definition field (l : Label) (d : ComplaintData) : option string :=
  match l with
  | ReportId => reportId d
  | Category => category d
  | Priority => priority d
  | Description => description d
  | Status => status d
  | CreatedAt => createdAt d
  end.

(** [complaintData.<field> = v] *)
Definition assign (l : Label) (v : string) (d : ComplaintData) : ComplaintData :=
  match l with
  | ReportId =>
      {| reportId := Some v; category := category d; priority := priority d;
         description := description d; status := status d;
         createdAt := createdAt d |}
  | Category =>
      {| reportId := reportId d; category := Some v; priority := priority d;
         description := description d; status := status d;
         createdAt := createdAt d |}
  | Priority =>
      {| reportId := reportId d; category := category d; priority := Some v;
         description := description d; status := status d;
         createdAt := createdAt d |}
  | Description =>
      {| reportId := reportId d; category := category d; priority := priority d;
         description := Some v; status := status d;
         createdAt := createdAt d |}
  | Status =>
      {| reportId := reportId d; category := category d; priority := priority d;
         description := description d; status := Some v;
         createdAt := createdAt d |}
  | CreatedAt =>
      {| reportId := reportId d; category := category d; priority := priority d;
         description := description d; status := status d;
         createdAt := Some v |}
  end.

(** [line.replace(/^\*\s*/, "")] *)
Definition stripBullet (line : string) : string :=
  match line with
  | String c rest => if Ascii.eqb c star then trimStart rest else line
  | EmptyString => EmptyString
  end.

(** The first marker, in the order of the [else if] chain, that the
    cleaned line includes. *)
Definition labelOf (cleanLine : string) : option Label :=
  if includes (marker ReportId) cleanLine then Some ReportId
  else if includes (marker Category) cleanLine then Some Category
  else if includes (marker Priority) cleanLine then Some Priority
  else if includes (marker Description) cleanLine then Some Description
  else if includes (marker Status) cleanLine then Some Status
  else if includes (marker CreatedAt) cleanLine then Some CreatedAt
  else None.

(** The callback of [lines.forEach]. *)
Definition parseLine (d : ComplaintData) (line : string) : ComplaintData :=
  let cleanLine := trim (stripBullet line) in
  match labelOf cleanLine with
  | Some l => assign l (trim (removeFirst (marker l) cleanLine)) d
  | None => d
  end.

(** [complaint.trim().split("\n").filter((line) => line.trim())] *)
Definition linesOf (complaint : string) : list string :=
  filter (fun line => nonEmpty (trim line)) (splitChar LF (trim complaint)).

Definition parseComplaint (complaint : string) : ComplaintData :=
  fold_left parseLine (linesOf complaint) noData.

Fixpoint digitRun (s : string) : nat :=
  match s with
  | EmptyString => 0
  | String c s' => if is_digit c then S (digitRun s') else 0
  end.

(** A match of [/\*\*Complaint \d+:\*\*/] at the start of [s]: its
    length. *)
Definition matchHeading (s : string) : option nat :=
  if startsWith "**Complaint " s then
    let rest := drop 12 s in
    let n := digitRun rest in
    if (0 <? n)%nat && startsWith ":**" (drop n rest)
    then Some (12 + n + 3)%nat
    else None
  else None.

(** [text.split(/\*\*Complaint \d+:\*\*/)], scanning from the left;
    [skip] code units of a match are still to be passed over. *)
Fixpoint splitHeading_from (skip : nat) (s : string) : list string :=
  match s with
  | EmptyString => [EmptyString]
  | String c s' =>
      match skip with
      | S k => splitHeading_from k s'
      | O =>
          match matchHeading s with
          | Some n => EmptyString :: splitHeading_from (pred n) s'
          | None => prepend (String c EmptyString) (splitHeading_from 0 s')
          end
      end
  end.

Definition splitHeading (s : string) : list string := splitHeading_from 0 s.

(** What [formatComplaintText] returns: the text itself, or the element
    tree of a listing, kept as its data: the intro, the [complaintData] of
    each card and whether the tip box is there. *)
Inductive Formatted : Type :=
| Text (s : string)
| Listing (intro : string) (complaints : list ComplaintData) (tip : bool).

Definition formatComplaintText (text : string) : Formatted :=
  if includes "**Complaint" text && includes "Report ID:" text then
    let parts := splitHeading text in
    let intro := trim (hd "" parts) in
    let complaints := tl parts in
    Listing intro (map parseComplaint complaints)
            (includes "For more details" text)
  else Text text.

(** [complaintData.<field> && ...]: the field is rendered when it is set
    and not the empty string. *)
Definition shown (v : option string) : option string :=
  match v with
  | Some s => if nonEmpty s then Some s else None
  | None => None
  end.

(** What a card shows of each field. *)
Definition cardOf (d : ComplaintData) : ComplaintData :=
  {| reportId := shown (reportId d); category := shown (category d);
     priority := shown (priority d); description := shown (description d);
     status := shown (status d); createdAt := shown (createdAt d) |}.

(** The content of a bot bubble. *)
Inductive Bubble : Type :=
| Preformatted (s : string)     (* <p className="whitespace-pre-wrap font-mono"> *)
| Cards (intro : option string) (cards : list ComplaintData) (tip : bool).

(** [typeof formatComplaintText(message.text) === "string" ? <p ...> : ...] *)
Definition botBubble (text : string) : Bubble :=
  match formatComplaintText text with
  | Text s => Preformatted s
  | Listing intro complaints tip =>
      Cards (if nonEmpty intro then Some intro else None)
            (map cardOf complaints) tip
  end.

(** *** Replies in the listing format

    A heading [**Complaint N:**] on a line of its own, followed by one
    bulleted line [* **Label:** value] per field. *)

Definition NL : string := String LF EmptyString.

Definition labelText (l : Label) : string :=
  match l with
  | ReportId => "Report ID"
  | Category => "Category"
  | Priority => "Priority"
  | Description => "Description"
  | Status => "Status"
  | CreatedAt => "Created At"
  end.

Definition bullet (l : Label) : string := "* **" ++ labelText l ++ ":** ".

Definition bareLine (f : Label * string) : string := bullet (fst f) ++ snd f.

Definition fieldLine (f : Label * string) : string := bareLine f ++ NL.

Definition fieldLines (fields : list (Label * string)) : string :=
  String.concat "" (map fieldLine fields).

Definition heading (n : string) : string := "**Complaint " ++ n ++ ":**".

Definition complaintSection (n : string) (fields : list (Label * string))
  : string :=
  heading n ++ NL ++ fieldLines fields.

(** A field value as a reply carries it: not empty, on one line, without
    asterisks and without white space at either end. *)
Definition plainValue (v : string) : Prop :=
  v <> "" /\ trim v = v
  /\ all_chars (isnt star) v = true /\ all_chars (isnt LF) v = true.

Definition number (n : string) : Prop :=
  n <> "" /\ all_chars is_digit n = true.

(** The [complaintData] that a list of labelled values amounts to; a later
    line for the same label overrides an earlier one. *)
Definition dataOf (fields : list (Label * string)) : ComplaintData :=
  fold_left (fun d f => assign (fst f) (snd f) d) fields noData.

(** A stretch of text that holds no part of a heading match: splitting a
    text that starts with it splits what follows and keeps the stretch in
    front of the first piece. *)
Definition inert (a : string) : Prop :=
  forall r, splitHeading_from 0 (a ++ r)
            = prepend a (splitHeading_from 0 r).


End ChatbotPage.

(* ================================================================== *)
(** ** Vocabulary of the properties *)
(* ================================================================== *)

Module Properties.
Import JsString Js Api JharkhandHeatmap.

(** The health endpoint answers with a 2xx status. *)
Definition healthy (env : option string) (backend : string -> FetchOutcome)
  : Prop :=
  exists status body,
    backend (healthUrl env) = HttpResponse status body /\ ok status = true.

(** The by-location request for [filters] is answered with a 2xx status
    and an envelope that unwraps to the array [items]. *)
Definition answers (env : option string) (backend : string -> FetchOutcome)
  (filters : option Filters) (items : list JsValue) : Prop :=
  exists status data,
    backend (locationUrl env filters) = HttpResponse status (JsonBody data)
    /\ ok status = true
    /\ unwrapEnvelope data = Resolved (JsArray items).

(** The ways a gateway request fails or comes back malformed. *)
Inductive failureMode : FetchOutcome -> Prop :=
| network_rejection : forall m, failureMode (NetworkError m)
| transport_status : forall status body,
    ok status = false -> failureMode (HttpResponse status body)
| unreadable_body : forall status m,
    failureMode (HttpResponse status (MalformedBody m))
| rejected_envelope : forall status data e,
    unwrapEnvelope data = Rejected e ->
    failureMode (HttpResponse status (JsonBody data))
| payload_not_array : forall status data payload,
    unwrapEnvelope data = Resolved payload -> asArray payload = None ->
    failureMode (HttpResponse status (JsonBody data)).

(** [{success: true, data: payload}] and [{success: false, error: text}] *)
Definition successEnvelope (payload : JsValue) : JsValue :=
  JsObject [("success", JsBool true); ("data", payload)].
Definition failureEnvelope (text : string) : JsValue :=
  JsObject [("success", JsBool false); ("error", JsString text)].

(** The four filter dimensions of a render with their selected values, in
    the order of the query string. *)
Definition dimensions (render : State) : list (string * string) :=
  [ ("category", selectedCategory render);
    ("priority", selectedPriority render);
    ("department", selectedDepartment render);
    ("status", selectedStatus render) ].

Definition activeDimensions (render : State) : list (string * string) :=
  filter (fun kv => nonEmpty (snd kv)) (dimensions render).

(** [loc.lat] and [loc.lng], [undefined] when the read throws. *)
Definition latOf (loc : JsValue) : JsValue := prop loc "lat".
Definition lngOf (loc : JsValue) : JsValue := prop loc "lng".

(** A coordinate that is missing, not a number, or NaN. *)
Definition badCoordinate (v : JsValue) : Prop :=
  match v with
  | JsNumber x => isNaN x = true
  | _ => True
  end.

(** A coordinate that is the number 0 (or -0). *)
Definition zeroCoordinate (v : JsValue) : Prop :=
  exists s, v = JsNumber (S754_zero s).

(** A coordinate that is a number, neither NaN nor zero. *)
Definition nonZeroNumber (v : JsValue) : Prop :=
  exists x, v = JsNumber x /\ isNaN x = false /\ forall s, x <> S754_zero s.

(** A location object whose two coordinates are such numbers. *)
Definition plotted (loc : JsValue) : Prop :=
  (exists props, loc = JsObject props)
  /\ nonZeroNumber (latOf loc) /\ nonZeroNumber (lngOf loc).

(** A location record as the backend sends it. *)
Definition location (lat lng : JsValue) (name : string) : JsValue :=
  JsObject [("lng", lng); ("lat", lat); ("name", JsString name);
            ("info", JsString "")].

(** A backend that answers every request with the same outcome, except the
    health endpoint, which it answers with [health]. *)
Definition backendWith (env : option string) (health other : FetchOutcome)
  : string -> FetchOutcome :=
  fun url => if url =? healthUrl env then health else other.

Definition up : FetchOutcome := HttpResponse 200 (JsonBody JsNull).
Definition down : FetchOutcome := NetworkError (MsgEngine "Failed to fetch").

Definition serves (payload : JsValue) : FetchOutcome :=
  HttpResponse 200 (JsonBody (successEnvelope payload)).

(** What the fetched array leaves in [locations]: the elements that pass
    the filter, or nothing when the callback threw. *)
Definition kept (items : list JsValue) : list JsValue :=
  match filterThrowing validLocation items with
  | Some valid => valid
  | None => []
  end.

(** Every element of [locations] has passed the coordinate filter. *)
Definition filtered (st : State) : Prop :=
  Forall (fun loc => validLocation loc = Some true) (locations st).

(** The request for the filter options, sent by a [loadReportLocations]
    whose render has none yet. *)
Definition filterOptionsRequest (env : option string) (render : State)
  : list string :=
  if truthy (filterOptions render) then []
  else [API_BASE_URL env ++ "/filter-options"].

(** The query string for a list of active dimensions. *)
Definition queryOf (active : list (string * string)) : string :=
  match active with
  | [] => ""
  | _ :: _ => "?" ++ join "&" (map encodePair active)
  end.

(** What follows an encoded value in a query string: nothing, or the [&]
    before the next parameter. *)
Definition boundary (r : string) : Prop :=
  r = "" \/ exists r', r = String "&" r'.

(** The first render with the four selection fields holding the given
    values. *)
Definition firstRenderWith (c p d s : string) : State :=
  setSelectedStatus s
    (setSelectedDepartment d
       (setSelectedPriority p (setSelectedCategory c initial))).

(** A location inside the bounds of the map. *)
Definition pin : JsValue :=
  location (JsNumber num_28_5) (JsNumber num_77_25) "Pothole".

End Properties.

(* ================================================================== *)
(** ** The application shell ([App], [Navigation]) *)
(* ================================================================== *)

Module App.

Section Shell.

(** The [Complaint] objects that the views hand to [onComplaintClick]. *)
Variable Complaint : Type.

Record State : Type := {
  activeTab : string;
  selectedComplaint : option Complaint
}.

(** The [useState] initial values. *)
Definition initial : State :=
  {| activeTab := "home"; selectedComplaint := None |}.

Definition handleComplaintClick (complaint : Complaint) (st : State) : State :=
  {| activeTab := activeTab st; selectedComplaint := Some complaint |}.

Definition handleBackToDashboard (st : State) : State :=
  {| activeTab := "home"; selectedComplaint := None |}.

Definition handleTabChange (tab : string) (st : State) : State :=
  {| activeTab := tab; selectedComplaint := None |}.

(** What [renderContent] returns. *)
Inductive Content : Type :=
| Details (complaint : Complaint)
| HomePage
| MapPage
| ComplaintsPage
| ChatbotPage
| ResourcesPage
| PageNotFound.

Definition renderContent (st : State) : Content :=
  match selectedComplaint st with
  | Some complaint => Details complaint
  | None =>
      if activeTab st =? "home" then HomePage
      else if activeTab st =? "map" then MapPage
      else if activeTab st =? "complaints" then ComplaintsPage
      else if activeTab st =? "chatbot" then ChatbotPage
      else if activeTab st =? "resources" then ResourcesPage
      else PageNotFound
  end.

(** [navItems] of [Navigation]: id and label. *)
Definition navItems : list (string * string) :=
  [ ("home", "Home"); ("map", "Map"); ("complaints", "Complaints");
    ("chatbot", "Chatbot"); ("resources", "Resources") ].

(** What the operator can do: click the [n]-th navigation button, use
    "View Full Details" / "View" on a complaint of the page shown, or go
    back from the details. *)
Inductive Event : Type :=
| NavClick (n : nat)
| ComplaintClick (complaint : Complaint)
| Back.

(** The pages that hold a view with an [onComplaintClick]: the heatmap on
    the home and map pages, the table on the complaints page. *)
Definition offersComplaints (c : Content) : bool :=
  match c with
  | HomePage | MapPage | ComplaintsPage => true
  | _ => false
  end.

Definition step (st : State) (e : Event) : State :=
  match e with
  | NavClick n =>
      match nth_error navItems n with
      | Some item => handleTabChange (fst item) st
      | None => st
      end
  | ComplaintClick complaint =>
      if offersComplaints (renderContent st)
      then handleComplaintClick complaint st else st
  | Back =>
      match renderContent st with
      | Details _ => handleBackToDashboard st
      | _ => st
      end
  end.

Definition run (st : State) (events : list Event) : State :=
  fold_left step events st.

(** The page of a navigation id. *)
Definition pageOf (tab : string) : Content :=
  renderContent {| activeTab := tab; selectedComplaint := None |}.

End Shell.

Arguments activeTab {Complaint}.
Arguments selectedComplaint {Complaint}.
Arguments handleComplaintClick {Complaint}.
Arguments handleBackToDashboard {Complaint}.
Arguments handleTabChange {Complaint}.
Arguments renderContent {Complaint}.
Arguments offersComplaints {Complaint}.
Arguments step {Complaint}.
Arguments run {Complaint}.
Arguments Details {Complaint} complaint.
Arguments HomePage {Complaint}.
Arguments MapPage {Complaint}.
Arguments ComplaintsPage {Complaint}.
Arguments ChatbotPage {Complaint}.
Arguments ResourcesPage {Complaint}.
Arguments PageNotFound {Complaint}.
Arguments NavClick {Complaint} n.
Arguments ComplaintClick {Complaint} complaint.
Arguments Back {Complaint}.

End App.

(* ================================================================== *)
(** ** The details page ([ComplaintDetails]) *)
(* ================================================================== *)

Module ComplaintDetails.
Import Js.

(** The [src] of the evidence image, shown when [complaint.imagePath] is
    truthy; otherwise the page says "No image available". *)
Definition evidenceImage (imagePath : option string) : option string :=
  match imagePath with
  | Some f =>
      if nonEmpty f then Some ("http://localhost:8000/api/uploads/" ++ f)
      else None
  | None => None
  end.

End ComplaintDetails.

(* ================================================================== *)
(** ** The rows of the table view ([ComplaintsTable]) *)
(* ================================================================== *)

Module ComplaintRows.
Import JsString Js Api.

(** A [Report] as the interface declares it, with the fields the table
    reads. *)
Record Report : Type := {
  report_id : string;
  citizen_phone : string;
  description : string;
  image_path : option string;
  category : string;
  priority : string;
  status : string;
  location_lat : spec_float;
  location_lon : spec_float;
  address_extracted : option string;
  created_at : string
}.

(** The text of the location cell: the address, or the template
    [`${location_lat}, ${location_lon}`]. *)
Inductive LocationText : Type :=
| Address (text : string)
| Coordinates (lat lon : spec_float).

Record Complaint : Type := {
  id : string;
  title : string;
  full_description : string;     (* the field [description] *)
  location : LocationText;
  severity : string;
  submittedDate : string;
  complaint_status : string;     (* the field [status] *)
  complaint_category : string;   (* the field [category] *)
  submittedBy : string;
  imagePath : option string
}.

(** [s.substring(0, n)] *)
Fixpoint take (n : nat) (s : string) : string :=
  match n with
  | O => EmptyString
  | S k => match s with
           | EmptyString => EmptyString
           | String c s' => String c (take k s')
           end
  end.

(** [/[/\\]/]: a forward slash or a backslash. *)
Definition isSeparator (c : ascii) : bool :=
  Ascii.eqb c "/" || Ascii.eqb c "\".

(** A code unit that is no separator. *)
Definition plain (c : ascii) : bool := negb (isSeparator c).

(** [s.split(re)] for a class [re] of single code units. *)
Fixpoint splitWhere (sep : ascii -> bool) (s : string) : list string :=
  match s with
  | EmptyString => [EmptyString]
  | String c s' =>
      if sep c then EmptyString :: splitWhere sep s'
      else prepend (String c EmptyString) (splitWhere sep s')
  end.

(** [pieces.pop()] *)
Definition pop (pieces : list string) : option string :=
  match rev pieces with
  | [] => None
  | x :: _ => Some x
  end.

(** [report.image_path ? report.image_path.split(/[/\\]/).pop()
    : undefined] *)
Definition fileName (image_path : option string) : option string :=
  match image_path with
  | Some path =>
      if nonEmpty path then pop (splitWhere isSeparator path) else None
  | None => None
  end.

Definition titleOf (description : string) : string :=
  if (50 <? String.length description)%nat
  then take 50 description ++ "..."
  else description.

(** The callback of [reports.map]. *)
Definition toComplaint (report : Report) : Complaint :=
  {| id := report_id report;
     title := titleOf (description report);
     full_description := description report;
     location :=
       match address_extracted report with
       | Some a =>
           if nonEmpty a then Address a
           else Coordinates (location_lat report) (location_lon report)
       | None => Coordinates (location_lat report) (location_lon report)
       end;
     severity := priority report;
     submittedDate := created_at report;
     complaint_status := status report;
     complaint_category := category report;
     submittedBy := citizen_phone report;
     imagePath := fileName (image_path report) |}.

Definition complaints (reports : list Report) : list Complaint :=
  map toComplaint reports.

End ComplaintRows.

(* ================================================================== *)
(** ** [useBackendConnection] *)
(* ================================================================== *)

Module useBackendConnection.
Import Js Api Api.NetNotations.

Record State : Type := {
  isConnected : bool;
  checking : bool
}.

Definition initial : State := {| isConnected := false; checking := true |}.

Section Hook.
Variable VITE_API_BASE_URL : option string.
Variable backend : string -> FetchOutcome.

Definition checkConnection (st : State) : Net State :=
  let st := {| isConnected := isConnected st; checking := true |} in
  c <- Api.checkConnection VITE_API_BASE_URL backend ;;
  let st :=
    match c with
    | Resolved connected =>
        {| isConnected := connected; checking := checking st |}
    | Rejected _ => {| isConnected := false; checking := checking st |}
    end in
  ret {| isConnected := isConnected st; checking := false |}.

End Hook.

(** The health endpoint answers with a 2xx status. *)
Definition answersHealth (VITE_API_BASE_URL : option string)
  (backend : string -> FetchOutcome) : bool :=
  match backend (healthUrl VITE_API_BASE_URL) with
  | HttpResponse status _ => ok status
  | NetworkError _ => false
  end.

(** The mount effect and the ticks of the 60000 ms interval, each with the
    backend as it answers then. *)
Fixpoint checks (VITE_API_BASE_URL : option string) (st : State)
  (backends : list (string -> FetchOutcome)) : Net State :=
  match backends with
  | [] => ret st
  | backend :: rest =>
      st' <- checkConnection VITE_API_BASE_URL backend st ;;
      checks VITE_API_BASE_URL st' rest
  end.

End useBackendConnection.

(* ================================================================== *)
(** ** More of the heatmap view, the map and the chat view *)
(* ================================================================== *)

Module HeatmapPopup.
Import Js.

(** A [Location] as the interface declares it. *)
Record Location : Type := {
  lng : spec_float;
  lat : spec_float;
  name : string;
  info : string;
  category : option string;
  priority : option string;
  department : option string;
  status : option string;
  report_id : option string;
  description : option string;
  created_at : option string;
  phone_number : option string;
  resolution_days : option spec_float
}.

(** The [Complaint] that the popup hands to [onComplaintClick]; the
    location text is the template [`${location.lat}, ${location.lng}`]. *)
Record Complaint : Type := {
  id : string;
  title : string;
  location : spec_float * spec_float;
  severity : string;
  complaint_description : option string;   (* the field [description] *)
  submittedDate : option string;
  complaint_category : option string;      (* the field [category] *)
  complaint_status : option string;        (* the field [status] *)
  submittedBy : option string;
  imagePath : option string
}.

(** [handleViewFullDetails(location)] with the [onComplaintClick] that
    [App] passes: the complaint handed over, if any. *)
Definition handleViewFullDetails (l : Location) : option Complaint :=
  match report_id l with
  | Some rid =>
      if nonEmpty rid then
        Some {| id := rid;
                title := name l;
                location := (lat l, lng l);
                severity :=
                  match priority l with
                  | Some p => if nonEmpty p then p else "medium"
                  | None => "medium"
                  end;
                complaint_description := description l;
                submittedDate := created_at l;
                complaint_category := category l;
                complaint_status := status l;
                submittedBy := phone_number l;
                imagePath := Some (rid ++ ".jpg") |}
      else None
  | None => None
  end.

End HeatmapPopup.

Module HeatmapBar.
Import JsString Js Api JharkhandHeatmap.

(** The state that a change of the filter controls asks for: the four
    selects and "Clear All Filters". *)
Definition selection (e : Event) (st : State) : option State :=
  match e with
  | SelectCategory v => Some (setSelectedCategory v st)
  | SelectPriority v => Some (setSelectedPriority v st)
  | SelectDepartment v => Some (setSelectedDepartment v st)
  | SelectStatus v => Some (setSelectedStatus v st)
  | ClearFilters => Some (clearFilters st)
  | Refresh | Tick => None
  end.

(** [s.replace(/_/g, " ")] *)
Fixpoint underscoresToSpaces (s : string) : string :=
  match s with
  | EmptyString => EmptyString
  | String c s' =>
      String (if Ascii.eqb c "_" then " "%char else c) (underscoresToSpaces s')
  end.

(** The chips under "Active filters:", label and text, in source order. *)
Definition chip (label value shownValue : string) : list (string * string) :=
  if nonEmpty value then [(label, shownValue)] else [].

Definition activeFilterChips (st : State) : list (string * string) :=
  (chip "Category" (selectedCategory st)
        (underscoresToSpaces (selectedCategory st))
   ++ chip "Priority" (selectedPriority st) (selectedPriority st)
   ++ chip "Department" (selectedDepartment st) (selectedDepartment st)
   ++ chip "Status" (selectedStatus st) (selectedStatus st))%list.

(** The filter controls are rendered when [filterOptions && isConnected];
    the chips inside them when one of the four fields is truthy. *)
Definition filterBarShown (st : State) : bool :=
  truthy (filterOptions st) && isConnected st.

Definition chipsShown (st : State) : list (string * string) :=
  if filterBarShown st then activeFilterChips st else [].

(** The query parameter that a chip label stands for. *)
Definition parameterOf (label : string) : string :=
  if label =? "Category" then "category"
  else if label =? "Priority" then "priority"
  else if label =? "Department" then "department"
  else "status".

End HeatmapBar.

Module MapboxMap.
Import JsString Js.

(** [loc.report_id === properties.report_id] for a clicked feature whose
    [report_id] is the string [reportId]; reading [loc.report_id] throws
    when [loc] is [null] or [undefined]. *)
Definition sameReport (reportId : string) (loc : JsValue) : option bool :=
  match getProp loc "report_id" with
  | None => None
  | Some (JsString s) => Some (s =? reportId)
  | Some _ => Some false
  end.

(** [locations.find(p)] for a callback that may throw: the outer [None]
    is the throw, the inner one [undefined]. *)
Fixpoint findThrowing (p : JsValue -> option bool) (items : list JsValue)
  : option (option JsValue) :=
  match items with
  | [] => Some None
  | x :: rest =>
      match p x with
      | None => None
      | Some true => Some (Some x)
      | Some false => findThrowing p rest
      end
  end.

(** The click handler of the marker layer, for a feature with the string
    [reportId]: the location handed to [onMarkerClick], if any. *)
Definition clickedLocation (locations : list JsValue) (reportId : string)
  : option (option JsValue) :=
  findThrowing (sameReport reportId) locations.

(** The report ids of a list of locations. *)
Definition reportIds (locations : list JsValue) : list JsValue :=
  map (fun loc => prop loc "report_id") locations.

End MapboxMap.

Module ChatTranscript.
Import JsString Js ChatbotPage.

Definition runEvents (w : World) (events : list Event) : World :=
  fold_left step events w.

(** The senders of a transcript of [k] completed exchanges after the
    greeting, with one more user message when a request is pending. *)
Fixpoint exchanges (k : nat) : list Sender :=
  match k with
  | O => []
  | S k' => user :: bot :: exchanges k'
  end.

Definition turns (k : nat) (pending : bool) : list Sender :=
  (bot :: exchanges k ++ (if pending then [user] else []))%list.

Definition apology : string :=
  "Sorry, I encountered an error. Please try again.".

Definition replyText (outcome : ChatOutcome) : string :=
  match outcome with
  | Reply response => response
  | Failure => apology
  end.

(** A reply in the listing format with any number of sections. *)
Definition sectionsText (sections : list (string * list (Label * string)))
  : string :=
  String.concat ""
    (map (fun s => complaintSection (fst s) (snd s)) sections).

(** A section as a reply carries it: a number in the heading and plain
    values on the lines. *)
Definition wellFormed (s : string * list (Label * string)) : Prop :=
  number (fst s) /\ Forall (fun f => plainValue (snd f)) (snd s).

(** No code unit of the text is a digit. *)
Definition digitless (text : string) : bool :=
  all_chars (fun c => negb (is_digit c)) text.

End ChatTranscript.

Module QueryText.
Import JsString Js Api.

Definition hexValue (c : ascii) : nat :=
  let n := nat_of_ascii c in
  if (n <? 58)%nat then n - 48 else n - 55.

(** Reading back the encoding of one code unit from the front of an
    encoded text. *)
Definition decodeOne (s : string) : option (ascii * string) :=
  match s with
  | EmptyString => None
  | String "+" r => Some (" "%char, r)
  | String "%" (String h1 (String h2 r)) =>
      let b := 16 * hexValue h1 + hexValue h2 in
      if (b <? 128)%nat then Some (ascii_of_nat b, r)
      else
        match r with
        | String "%" (String h3 (String h4 r')) =>
            let b' := 16 * hexValue h3 + hexValue h4 in
            Some (ascii_of_nat ((b - 192) * 64 + (b' - 128)), r')
        | _ => None
        end
  | String c r => Some (c, r)
  end.

(** The encoding of one code unit. *)
Definition encodeOne (c : ascii) : string :=
  String.concat "" (map encodeByte (utf8 c)).

End QueryText.

(* ================================================================== *)
(** * Properties *)
(* ================================================================== *)

(** ** Strings *)

Section StringFacts.
Import JsString.

Lemma append_assoc (a b c : string) : (a ++ b) ++ c = a ++ b ++ c.
Proof. induction a as [| x a IH]; simpl; [reflexivity | now rewrite IH]. Qed.

Lemma append_empty_r (a : string) : a ++ "" = a.
Proof. induction a as [| x a IH]; simpl; [reflexivity | now rewrite IH]. Qed.

Lemma length_append (a b : string) :
  String.length (a ++ b) = String.length a + String.length b.
Proof. induction a as [| x a IH]; simpl; [reflexivity | now rewrite IH]. Qed.

Lemma all_chars_app (f : ascii -> bool) (a b : string) :
  all_chars f (a ++ b) = all_chars f a && all_chars f b.
Proof.
  induction a as [| x a IH]; simpl; [reflexivity|].
  rewrite IH. apply andb_assoc.
Qed.

Lemma all_chars_inside (f : ascii -> bool) (t s : string) :
  inside t s -> all_chars f s = true -> all_chars f t = true.
Proof.
  intros (a & b & ->) H. rewrite !all_chars_app in H.
  apply andb_true_iff in H. destruct H as [_ H].
  apply andb_true_iff in H. apply H.
Qed.

Lemma isnt_eqb (x c : ascii) : isnt x c = true -> Ascii.eqb x c = false.
Proof.
  unfold isnt. rewrite Ascii.eqb_sym. intros H.
  apply negb_true_iff in H. exact H.
Qed.

(** *** inside *)

Lemma inside_refl (s : string) : inside s s.
Proof. exists "", "". simpl. now rewrite append_empty_r. Qed.

Lemma inside_trans (a b c : string) : inside a b -> inside b c -> inside a c.
Proof.
  intros (x & y & ->) (u & v & ->).
  exists (u ++ x), (y ++ v). now rewrite !append_assoc.
Qed.

Lemma inside_app_l (t a b : string) : inside t a -> inside t (a ++ b).
Proof.
  intros (x & y & ->). exists x, (y ++ b). now rewrite !append_assoc.
Qed.

Lemma inside_app_r (t a b : string) : inside t b -> inside t (a ++ b).
Proof.
  intros (x & y & ->). exists (a ++ x), y. now rewrite !append_assoc.
Qed.

Lemma inside_cons (t : string) (c : ascii) (s : string) :
  inside t s -> inside t (String c s).
Proof. apply (inside_app_r t (String c "") s). Qed.

(** *** startsWith and includes *)

Lemma startsWith_app (p s r : string) :
  startsWith p s = true -> startsWith p (s ++ r) = true.
Proof.
  revert s. induction p as [| a p IH]; intros s H; [reflexivity|].
  destruct s as [| b s]; [discriminate|]. simpl in *.
  apply andb_true_iff in H. destruct H as [H1 H2].
  rewrite H1. simpl. apply IH. exact H2.
Qed.

Lemma startsWith_self (p r : string) : startsWith p (p ++ r) = true.
Proof.
  induction p as [| a p IH]; simpl; [reflexivity|].
  rewrite Ascii.eqb_refl. exact IH.
Qed.

Lemma includes_unfold (p s : string) :
  includes p s
  = startsWith p s
    || match s with
       | EmptyString => false
       | String _ s' => includes p s'
       end.
Proof. destruct s; reflexivity. Qed.

Lemma includes_app_l (p s r : string) :
  includes p s = true -> includes p (s ++ r) = true.
Proof.
  induction s as [| c s IH]; intros H.
  - rewrite includes_unfold in H. rewrite orb_false_r in H.
    destruct p; [|discriminate].
    rewrite includes_unfold. reflexivity.
  - rewrite includes_unfold in H.
    rewrite includes_unfold.
    apply orb_true_iff in H. destruct H as [H | H].
    + rewrite (startsWith_app p (String c s) r H). reflexivity.
    + cbn [String.append]. rewrite (IH H). apply orb_true_r.
Qed.

Lemma includes_app_r (p a s : string) :
  includes p s = true -> includes p (a ++ s) = true.
Proof.
  intros H. induction a as [| c a IH]; [exact H|].
  simpl String.append. rewrite includes_unfold, IH. apply orb_true_r.
Qed.

Lemma includes_inside (p t s : string) :
  inside t s -> includes p t = true -> includes p s = true.
Proof.
  intros (a & b & ->) H.
  apply includes_app_r, includes_app_l. exact H.
Qed.

Lemma includes_self (p a b : string) : includes p (a ++ p ++ b) = true.
Proof.
  apply includes_app_r. rewrite includes_unfold, startsWith_self. reflexivity.
Qed.

(** A needle that starts with a character does not occur in a text
    without that character. *)
Lemma includes_absent (x : ascii) (p v : string) :
  all_chars (isnt x) v = true -> includes (String x p) v = false.
Proof.
  induction v as [| c v IH]; intros H; [reflexivity|].
  simpl in H. apply andb_true_iff in H. destruct H as [Hc Hv].
  rewrite includes_unfold. cbn [startsWith].
  rewrite (isnt_eqb x c Hc), (IH Hv). reflexivity.
Qed.

(** *** trim *)

Lemma trimStart_inside (s : string) : inside (trimStart s) s.
Proof.
  induction s as [| c s IH]; simpl.
  - apply inside_refl.
  - destruct (is_space c); [apply inside_cons, IH | apply inside_refl].
Qed.

Lemma trimEnd_prefix (s : string) : exists b, s = trimEnd s ++ b.
Proof.
  induction s as [| c s [b IH]]; simpl.
  - exists "". reflexivity.
  - destruct (trimEnd s) as [| d t] eqn:E.
    + destruct (is_space c).
      * exists (String c s). reflexivity.
      * exists s. reflexivity.
    + exists b. simpl in IH. simpl. now rewrite <- IH.
Qed.

Lemma trimEnd_inside (s : string) : inside (trimEnd s) s.
Proof.
  destruct (trimEnd_prefix s) as [b H]. exists "", b. exact H.
Qed.

Lemma trim_inside (s : string) : inside (trim s) s.
Proof.
  unfold trim. eapply inside_trans;
    [apply trimEnd_inside | apply trimStart_inside].
Qed.

Lemma trimEnd_cons (c : ascii) (s : string) :
  is_space c = false -> trimEnd (String c s) = String c (trimEnd s).
Proof.
  intros H. simpl. destruct (trimEnd s); [rewrite H|]; reflexivity.
Qed.

Lemma trimEnd_app (a b : string) :
  trimEnd b <> "" -> trimEnd (a ++ b) = a ++ trimEnd b.
Proof.
  intros H. induction a as [| c a IH]; [reflexivity|].
  simpl. rewrite IH.
  destruct (a ++ trimEnd b) eqn:E; [|reflexivity].
  destruct a; simpl in E; [contradiction | discriminate].
Qed.

Lemma trimEnd_app_blank (a b : string) :
  trimEnd b = "" -> trimEnd (a ++ b) = trimEnd a.
Proof.
  intros H. induction a as [| c a IH]; [exact H|].
  simpl. rewrite IH. reflexivity.
Qed.

Lemma trimEnd_space_end (v : string) (c : ascii) :
  is_space c = true -> trimEnd (v ++ String c "") = trimEnd v.
Proof.
  intros H. induction v as [| x v IH]; simpl.
  - rewrite H. reflexivity.
  - rewrite IH. reflexivity.
Qed.

Lemma trimStart_length (s : string) :
  String.length (trimStart s) <= String.length s.
Proof.
  induction s as [| c s IH]; simpl; [lia|].
  destruct (is_space c); simpl; lia.
Qed.

Lemma trimEnd_length (s : string) :
  String.length (trimEnd s) <= String.length s.
Proof.
  induction s as [| c s IH]; simpl; [lia|].
  destruct (trimEnd s); [destruct (is_space c)|]; simpl in *; lia.
Qed.

(** A trimmed, non-empty text starts and ends with something else than
    white space. *)
Lemma trim_fixed (v : string) :
  trim v = v -> v <> "" ->
  trimStart v = v /\ trimEnd v = v
  /\ exists c rest, v = String c rest /\ is_space c = false.
Proof.
  intros H Hne. destruct v as [| c rest]; [contradiction|].
  destruct (is_space c) eqn:E.
  - exfalso. unfold trim in H. simpl in H. rewrite E in H.
    pose proof (trimEnd_length (trimStart rest)).
    pose proof (trimStart_length rest).
    rewrite H in H0. simpl in H0. lia.
  - assert (S : trimStart (String c rest) = String c rest)
      by (simpl; rewrite E; reflexivity).
    split; [exact S|]. split.
    + unfold trim in H. rewrite S in H. exact H.
    + eauto.
Qed.

(** *** split *)

Lemma prepend_prepend (a b : string) (l : list string) :
  prepend a (prepend b l) = prepend (a ++ b) l.
Proof.
  destruct l as [| h t]; simpl; [reflexivity|].
  now rewrite append_assoc.
Qed.

Lemma splitChar_line (sep : ascii) (a r : string) :
  all_chars (isnt sep) a = true ->
  splitChar sep (a ++ String sep r) = a :: splitChar sep r.
Proof.
  induction a as [| c a IH]; intros H; simpl.
  - rewrite Ascii.eqb_refl. reflexivity.
  - simpl in H. apply andb_true_iff in H. destruct H as [Hc Ha].
    unfold isnt in Hc. apply negb_true_iff in Hc. rewrite Hc.
    rewrite (IH Ha). reflexivity.
Qed.

Lemma splitChar_last (sep : ascii) (a : string) :
  all_chars (isnt sep) a = true -> splitChar sep a = [a].
Proof.
  induction a as [| c a IH]; intros H; simpl; [reflexivity|].
  simpl in H. apply andb_true_iff in H. destruct H as [Hc Ha].
  unfold isnt in Hc. apply negb_true_iff in Hc. rewrite Hc.
  rewrite (IH Ha). reflexivity.
Qed.

Lemma splitChar_head (sep : ascii) (s h : string) (t : list string) :
  splitChar sep s = h :: t -> exists b, s = h ++ b.
Proof.
  revert h t. induction s as [| c s IH]; intros h t H; simpl in H.
  - injection H as <- <-. exists "". reflexivity.
  - destruct (Ascii.eqb c sep).
    + injection H as <- <-. exists (String c s). reflexivity.
    + destruct (splitChar sep s) as [| h' t'] eqn:E; simpl in H.
      * injection H as <- <-. exists s. reflexivity.
      * injection H as <- <-.
        destruct (IH h' t' eq_refl) as [b Hb].
        exists b. simpl. now rewrite <- Hb.
Qed.

Lemma splitChar_inside (sep : ascii) (s piece : string) :
  In piece (splitChar sep s) -> inside piece s.
Proof.
  revert piece. induction s as [| c s IH]; intros piece H; simpl in H.
  - destruct H as [<- | []]. apply inside_refl.
  - destruct (Ascii.eqb c sep).
    + destruct H as [<- | H].
      * exists "", (String c s). reflexivity.
      * apply inside_cons, IH, H.
    + destruct (splitChar sep s) as [| h t] eqn:E; simpl in H.
      * destruct H as [<- | []]. exists "", s. reflexivity.
      * destruct H as [<- | H].
        -- destruct (splitChar_head sep s h t E) as [b Hb].
           exists "", b. simpl. now rewrite <- Hb.
        -- apply inside_cons, IH. right. exact H.
Qed.

End StringFacts.

(** ** The [Net] computations *)

Section NetFacts.
Import Api.

Lemma result_bind {A B : Type} (m : Net A) (k : A -> Net B) :
  result (bind m k) = result (k (result m)).
Proof. reflexivity. Qed.

Lemma requests_bind {A B : Type} (m : Net A) (k : A -> Net B) :
  requests (bind m k) = (requests m ++ requests (k (result m)))%list.
Proof. reflexivity. Qed.

Lemma result_ret {A : Type} (a : A) : result (ret a) = a.
Proof. reflexivity. Qed.

Lemma requests_ret {A : Type} (a : A) : requests (ret a) = [].
Proof. reflexivity. Qed.

End NetFacts.

(** ** The gateway *)

Section GatewayFacts.
Import JsString Js Api Properties.

Variable env : option string.
Variable backend : string -> FetchOutcome.

Lemma checkConnection_result :
  result (checkConnection env backend)
  = Resolved match backend (healthUrl env) with
             | HttpResponse status _ => ok status
             | NetworkError _ => false
             end.
Proof.
  unfold checkConnection. rewrite result_bind. unfold fetch. simpl.
  destruct (backend (healthUrl env)); reflexivity.
Qed.

Lemma checkConnection_requests :
  requests (checkConnection env backend) = [healthUrl env].
Proof. reflexivity. Qed.

Lemma checkConnection_healthy :
  healthy env backend -> result (checkConnection env backend) = Resolved true.
Proof.
  intros (status & body & Hb & Hok).
  rewrite checkConnection_result, Hb, Hok. reflexivity.
Qed.

Lemma fetchWithErrorHandling_requests (url : string) :
  requests (fetchWithErrorHandling backend url) = [url].
Proof. reflexivity. Qed.

Lemma fetchWithErrorHandling_failure (url : string) :
  (forall m, backend url = NetworkError m ->
     result (fetchWithErrorHandling backend url) = Rejected (ThrownError m))
  /\ (forall status body, backend url = HttpResponse status body ->
        ok status = false ->
        result (fetchWithErrorHandling backend url)
        = Rejected (ThrownError (MsgHttpStatus status)))
  /\ (forall status data, backend url = HttpResponse status (JsonBody data) ->
        ok status = true ->
        result (fetchWithErrorHandling backend url) = unwrapEnvelope data).
Proof.
  unfold fetchWithErrorHandling, fetch, bind, ret, result; simpl.
  repeat split; intros.
  - rewrite H. reflexivity.
  - rewrite H, H0. reflexivity.
  - rewrite H, H0. reflexivity.
Qed.

Lemma getReportsByLocation_requests (filters : option Filters) :
  requests (getReportsByLocation env backend filters)
  = [locationUrl env filters].
Proof. reflexivity. Qed.

Lemma getReportsByLocation_resolves (filters : option Filters) :
  exists items,
    result (getReportsByLocation env backend filters) = Resolved items.
Proof.
  unfold getReportsByLocation. rewrite result_bind.
  destruct (result (fetchWithErrorHandling backend (locationUrl env filters)))
    as [data | e]; simpl.
  - destruct (asArray data); eauto.
  - eauto.
Qed.

Lemma getReportsByLocation_failure (filters : option Filters) :
  failureMode (backend (locationUrl env filters)) ->
  result (getReportsByLocation env backend filters) = Resolved [].
Proof.
  intros H.
  unfold getReportsByLocation, fetchWithErrorHandling, fetch, bind, ret, result.
  simpl.
  inversion H as [m Hm | status body Hok Hm | status m Hm
                 | status data e He Hm | status data payload Hp Ha Hm];
    clear H.
  - reflexivity.
  - rewrite Hok. reflexivity.
  - destruct (ok status); reflexivity.
  - destruct (ok status); simpl; [rewrite He|]; reflexivity.
  - destruct (ok status); simpl; [rewrite Hp, Ha|]; reflexivity.
Qed.

Lemma getReportsByLocation_answers (filters : option Filters)
  (items : list JsValue) :
  answers env backend filters items ->
  result (getReportsByLocation env backend filters) = Resolved items.
Proof.
  intros (status & data & Hb & Hok & Hd).
  unfold getReportsByLocation, fetchWithErrorHandling, fetch, bind, ret, result.
  simpl. rewrite Hb, Hok. simpl. rewrite Hd. reflexivity.
Qed.

End GatewayFacts.

(** C8. The health probe never rejects: whatever the backend does, it
    sends one request to the health endpoint and resolves to a boolean;
    the boolean is [true] exactly when the endpoint answered with a 2xx
    status, so an unreachable endpoint, a rejected request and any other
    status all give [false]. *)
Theorem checkConnection_never_rejects :
  forall (env : option string) (backend : string -> Api.FetchOutcome),
    Api.requests (Api.checkConnection env backend) = [Api.healthUrl env]
    /\ exists connected : bool,
         Api.result (Api.checkConnection env backend) = Api.Resolved connected
         /\ (connected = true <->
             exists status body,
               backend (Api.healthUrl env) = Api.HttpResponse status body
               /\ (200 <= status <= 299)%Z).
Proof.
  intros env backend. split; [reflexivity|].
  rewrite checkConnection_result.
  eexists; split; [reflexivity|].
  destruct (backend (Api.healthUrl env)) as [m | status body].
  - split; [discriminate|]. intros (s & b & H & _). discriminate.
  - unfold Api.ok. split.
    + intros H. exists status, body. split; [reflexivity|].
      apply andb_true_iff in H. destruct H as [H1 H2].
      apply Z.leb_le in H1. apply Z.leb_le in H2. lia.
    + intros (s & b & H & Hr). injection H as <- <-.
      apply andb_true_iff. split; apply Z.leb_le; lia.
Qed.



(** ** The statistics view *)

(** C4. When [getComprehensiveStats] rejects, [fetchStats] stores the
    placeholder dataset and the error text together; the component tests
    the error first, so the view after mount is the error panel with its
    retry button and not the dashboard of four zero-valued cards and the
    single 100% category, which only a state without the error text would
    render. *)
Theorem failed_statistics_fetch_renders_error_panel :
  forall e : Api.Thrown,
    let st := StatisticsSection.fetchStats (Api.Rejected e)
                StatisticsSection.initial in
    StatisticsSection.stats st = Some StatisticsSection.fallbackStats
    /\ StatisticsSection.error st = Some "Failed to load statistics"
    /\ StatisticsSection.render st
       = StatisticsSection.ErrorPanel (Some "Failed to load statistics")
    /\ StatisticsSection.render st <> StatisticsSection.placeholderDashboard
    /\ StatisticsSection.render (StatisticsSection.setError None st)
       = StatisticsSection.placeholderDashboard.
Proof.
  intros e st. subst st. cbn.
  repeat split; try reflexivity. discriminate.
Qed.

(** The placeholder has the shape that the claim describes. *)
Lemma fallbackStats_shape :
  map StatisticsSection.shownValue
      match StatisticsSection.placeholderDashboard with
      | StatisticsSection.Dashboard c _ _ => c
      | _ => []
      end
  = [ StatisticsSection.NumberValue 0; StatisticsSection.NumberValue 0;
      StatisticsSection.NumberValue 0;
      StatisticsSection.StringValue "0.0 days" ]
  /\ map StatisticsSection.share
         (StatisticsSection.category_data StatisticsSection.fallbackStats)
     = [100%Z].
Proof. split; reflexivity. Qed.

(** ** The chat view: sending *)

Section ChatFacts.
Import JsString Js ChatbotPage.

Lemma sendMessage_guard (now : Z) (st : State) :
  trim (inputMessage st) = "" \/ isLoading st = true ->
  sendMessage now st = (st, None).
Proof.
  intros H. unfold sendMessage.
  destruct H as [H | H]; rewrite H; simpl.
  - reflexivity.
  - rewrite orb_true_r. reflexivity.
Qed.

Lemma sendMessage_sends (now : Z) (st : State) :
  trim (inputMessage st) <> "" -> isLoading st = false ->
  exists r, sendMessage now st
            = ({| messages := (messages st
                               ++ [ {| id := now; text := inputMessage st;
                                       sender := user; timestamp := now |} ])%list;
                  inputMessage := "";
                  isLoading := true |}, Some r)
            /\ message r = inputMessage st.
Proof.
  intros Hin Hl. unfold sendMessage. rewrite Hl.
  destruct (trim (inputMessage st)) eqn:E; [contradiction|].
  simpl. eexists. split; reflexivity.
Qed.

(** Single flight: in every reachable world the loading flag is set
    exactly while a request is outstanding, and at most one is. *)
Lemma single_flight (t0 : Z) (w : World) :
  reachable t0 w ->
  (isLoading (view w) = true /\ exists r, outstanding w = [r])
  \/ (isLoading (view w) = false /\ outstanding w = []).
Proof.
  induction 1 as [| w e Hr IH].
  - right. split; reflexivity.
  - destruct e as [s | now | now outcome]; simpl.
    + exact IH.
    + destruct IH as [[Hl (r & Ho)] | [Hl Ho]].
      * rewrite (sendMessage_guard now (view w)) by (right; exact Hl).
        simpl. left. eauto.
      * unfold sendMessage. rewrite Hl, orb_false_r.
        destruct (nonEmpty (trim (inputMessage (view w)))); simpl.
        -- left. rewrite Ho. simpl. split; [reflexivity | eauto].
        -- right. split; assumption.
    + destruct IH as [[Hl (r & Ho)] | [Hl Ho]]; rewrite Ho; simpl.
      * right. split; reflexivity.
      * right. split; assumption.
Qed.

End ChatFacts.

(** C7. Submitting a chat message is a no-op when the input is empty or
    only white space, and when a previous request is still outstanding:
    [sendMessage] returns the state as it was and sends nothing, so the
    transcript, the input and the set of outstanding requests are the same
    after the submission. *)
Theorem blank_or_concurrent_submit_is_noop :
  forall (t0 now : Z) (w : ChatbotPage.World),
    ChatbotPage.reachable t0 w ->
    JsString.trim (ChatbotPage.inputMessage (ChatbotPage.view w)) = ""
    \/ ChatbotPage.outstanding w <> [] ->
    ChatbotPage.sendMessage now (ChatbotPage.view w)
    = (ChatbotPage.view w, None)
    /\ ChatbotPage.step w (ChatbotPage.Submit now) = w.
Proof.
  intros t0 now w Hr H.
  assert (G : ChatbotPage.sendMessage now (ChatbotPage.view w)
              = (ChatbotPage.view w, None)).
  { apply sendMessage_guard. destruct H as [H | H]; [left; exact H|].
    destruct (single_flight t0 w Hr) as [[Hl _] | [_ Ho]].
    - right; exact Hl.
    - contradiction. }
  split; [exact G|].
  simpl. rewrite G. destruct w; reflexivity.
Qed.

(** A second submission while the first is in flight. *)
Lemma blank_or_concurrent_submit_is_noop_witness :
  let w := ChatbotPage.step
             (ChatbotPage.step
                (ChatbotPage.step (ChatbotPage.start 0)
                   (ChatbotPage.TypeInput "How many complaints?"))
                (ChatbotPage.Submit 10))
             (ChatbotPage.TypeInput "And by category?") in
  ChatbotPage.reachable 0 w
  /\ ChatbotPage.outstanding w <> []
  /\ ChatbotPage.step w (ChatbotPage.Submit 20) = w.
Proof.
  intros w.
  assert (R : ChatbotPage.reachable 0 w).
  { subst w. repeat apply ChatbotPage.reach_step. apply ChatbotPage.reach_start. }
  assert (O : ChatbotPage.outstanding w <> []).
  { subst w. vm_compute. discriminate. }
  split; [exact R|]. split; [exact O|].
  exact (proj2 (blank_or_concurrent_submit_is_noop 0 20 w R (or_intror O))).
Defined.

(** ** The heatmap view: one run of [loadReportLocations] *)

Section HeatmapFacts.
Import JsString Js Api JharkhandHeatmap Properties.

Variable env : option string.
Variable backend : string -> FetchOutcome.

Lemma loadReportLocations_disconnected (render st : State) (apply : bool) :
  result (checkConnection env backend) = Resolved false ->
  requests (loadReportLocations env backend render apply st) = [healthUrl env]
  /\ result (loadReportLocations env backend render apply st)
     = setLoading false (setIsConnected false (setLoading true st)).
Proof.
  intros H. unfold loadReportLocations, loadReportLocations_try.
  cbn [bind ret fst snd result requests]. rewrite H.
  split; reflexivity.
Qed.

Lemma loadReportLocations_connected (render st : State) (apply : bool) :
  healthy env backend ->
  let filters := filtersArgument (buildFilters render apply) in
  requests (loadReportLocations env backend render apply st)
  = (healthUrl env :: filterOptionsRequest env render
       ++ [locationUrl env filters])%list
  /\ exists items,
       result (getReportsByLocation env backend filters) = Resolved items
       /\ locations (result (loadReportLocations env backend render apply st))
          = kept items
       /\ isConnected (result (loadReportLocations env backend render apply st))
          = true
       /\ loading (result (loadReportLocations env backend render apply st))
          = false.
Proof.
  intros H filters.
  destruct (getReportsByLocation_resolves env backend filters) as [items Hi].
  pose proof (checkConnection_healthy env backend H) as Hc.
  unfold loadReportLocations, loadReportLocations_try, filterOptionsRequest.
  cbv zeta. fold filters.
  cbn [bind ret fst snd result requests]. rewrite Hc.
  cbn [bind ret fst snd result requests]. rewrite Hi.
  split.
  - destruct (truthy (filterOptions render)); cbn [negb];
      (destruct items as [| x rest];
       [| change (0 <? Datatypes.length (x :: rest))%nat with true;
          cbv iota;
          destruct (filterThrowing validLocation (x :: rest))]);
      reflexivity.
  - exists items. split; [reflexivity|]. unfold kept.
    destruct (truthy (filterOptions render)); cbn [negb];
      (destruct items as [| x rest];
       [| change (0 <? Datatypes.length (x :: rest))%nat with true;
          cbv iota;
          destruct (filterThrowing validLocation (x :: rest))]);
      cbn [bind ret fst snd result requests];
      try destruct (result (getFilterOptions env backend));
      repeat split.
Qed.

End HeatmapFacts.

(** ** The heatmap view: the query string *)

Section QueryFacts.
Import JsString Js Api JharkhandHeatmap Properties.

Lemma nonEmpty_middle (a b : string) (c : ascii) :
  nonEmpty (a ++ String c b) = true.
Proof. destruct a; reflexivity. Qed.

Lemma toString_cons_nonEmpty (p : string * string) (ps : URLSearchParams) :
  nonEmpty (toString (p :: ps)) = true.
Proof.
  unfold toString. destruct ps as [| q qs]; cbn [map join].
  - unfold encodePair. apply nonEmpty_middle.
  - unfold encodePair at 1.
    change (String.append (urlencode (fst p) ++ "=" ++ urlencode (snd p)))
      with (String.append (urlencode (fst p) ++ String "=" (urlencode (snd p)))).
    destruct (urlencode (fst p)); reflexivity.
Qed.

Lemma queryString_queryOf (params : URLSearchParams) :
  queryString params = queryOf params.
Proof.
  destruct params as [| p ps]; [reflexivity|].
  unfold queryString. rewrite toString_cons_nonEmpty. reflexivity.
Qed.

Lemma locationParams_active (render : State) :
  locationParams (filtersArgument (buildFilters render true))
  = activeDimensions render.
Proof.
  destruct render as [l lo co fo c p d s].
  unfold activeDimensions, dimensions, buildFilters, filtersArgument,
    locationParams, keyCount, ifSelected.
  cbn [selectedCategory selectedPriority selectedDepartment selectedStatus].
  destruct c, p, d, s; reflexivity.
Qed.

Lemma locationParams_unfiltered (render : State) :
  locationParams (filtersArgument (buildFilters render false)) = [].
Proof. reflexivity. Qed.

Lemma locationUrl_unfiltered (env : option string) (render : State) :
  locationUrl env (filtersArgument (buildFilters render false))
  = API_BASE_URL env ++ "/reports/by-location".
Proof.
  unfold locationUrl. rewrite locationParams_unfiltered. reflexivity.
Qed.

Lemma activeDimensions_values (render : State) (name value : string) :
  In (name, value) (activeDimensions render) -> value <> "".
Proof.
  unfold activeDimensions. intros H. apply filter_In in H.
  destruct H as [_ H]. cbn in H. intros ->. discriminate.
Qed.

Lemma activeDimensions_names (render : State) (name value : string) :
  In (name, value) (dimensions render) ->
  (In name (map fst (activeDimensions render)) <-> value <> "").
Proof.
  destruct render as [l lo co fo c p d s].
  unfold activeDimensions, dimensions.
  cbn [selectedCategory selectedPriority selectedDepartment selectedStatus].
  intros H. cbn [In] in H.
  destruct H as [H | [H | [H | [H | []]]]]; injection H as <- <-;
    destruct c, p, d, s; cbn; split; intros G;
    try discriminate; try tauto;
    repeat match goal with
           | H : _ \/ _ |- _ => destruct H
           | H : _ = _ |- _ => discriminate H
           end; try contradiction; congruence.
Qed.

End QueryFacts.


(** ** The heatmap view: the query string, read as text *)

Section QueryTextFacts.
Import JsString Js Api JharkhandHeatmap Properties.

Lemma startsWith_all_chars (f : ascii -> bool) (p v : string) :
  startsWith p v = true -> all_chars f v = true -> all_chars f p = true.
Proof.
  revert v. induction p as [| a p IH]; intros v H Hv; [reflexivity|].
  destruct v as [| b v]; [discriminate|].
  cbn [startsWith] in H. apply andb_true_iff in H. destruct H as [Hab Hp].
  apply Ascii.eqb_eq in Hab. subst b.
  cbn [all_chars] in *. apply andb_true_iff in Hv. destruct Hv as [Ha Hv].
  rewrite Ha. exact (IH v Hp Hv).
Qed.

Lemma includes_all_chars (f : ascii -> bool) (p v : string) :
  includes p v = true -> all_chars f v = true -> all_chars f p = true.
Proof.
  induction v as [| c v IH]; intros H Hv; rewrite includes_unfold in H.
  - rewrite orb_false_r in H. exact (startsWith_all_chars f p "" H Hv).
  - apply orb_true_iff in H. destruct H as [H | H].
    + exact (startsWith_all_chars f p _ H Hv).
    + cbn [all_chars] in Hv. apply andb_true_iff in Hv. apply IH; tauto.
Qed.

(** A needle that holds a character does not occur in a text without
    it. *)
Lemma includes_without (x : ascii) (p v : string) :
  all_chars (isnt x) v = true -> all_chars (isnt x) p = false ->
  includes p v = false.
Proof.
  intros Hv Hp. destruct (includes p v) eqn:E; [|reflexivity].
  rewrite (includes_all_chars _ p v E Hv) in Hp. discriminate.
Qed.

Lemma encodeChar_no_equals (c : ascii) :
  all_chars (isnt "=") (String.concat "" (map encodeByte (utf8 c))) = true.
Proof.
  destruct c as [[] [] [] [] [] [] [] []]; vm_compute; reflexivity.
Qed.

(** The encoding of a value holds no [=]. *)
Lemma urlencode_no_equals (v : string) :
  all_chars (isnt "=") (urlencode v) = true.
Proof.
  induction v as [| c v IH]; [reflexivity|].
  cbn [urlencode]. now rewrite all_chars_app, encodeChar_no_equals, IH.
Qed.

(** A parameter name followed by [=] cannot start inside an encoded value
    and end behind it. *)
Lemma startsWith_straddle (n x r : string) (c : ascii) :
  all_chars (isnt "=") (String c x) = true ->
  all_chars (isnt "&") n = true -> boundary r ->
  startsWith (n ++ "=") (String c x ++ r) = false.
Proof.
  revert c x. induction n as [| a n IH]; intros c x Hx Hn Hr.
  - cbn [String.append startsWith]. cbn [all_chars] in Hx.
    apply andb_true_iff in Hx. destruct Hx as [Hc _].
    unfold isnt in Hc. apply negb_true_iff in Hc.
    rewrite Ascii.eqb_sym, Hc. reflexivity.
  - cbn [String.append startsWith].
    cbn [all_chars] in Hx, Hn.
    apply andb_true_iff in Hx. destruct Hx as [_ Hx].
    apply andb_true_iff in Hn. destruct Hn as [Ha Hn].
    destruct x as [| d x].
    + cbn [String.append].
      destruct Hr as [-> | [r' ->]].
      * destruct n; rewrite andb_false_r; reflexivity.
      * destruct n as [| b n].
        -- cbn [String.append startsWith].
           change (Ascii.eqb "=" "&") with false.
           rewrite andb_false_r. reflexivity.
        -- cbn [String.append startsWith].
           cbn [all_chars] in Hn. apply andb_true_iff in Hn.
           destruct Hn as [Hb _].
           unfold isnt in Hb. apply negb_true_iff in Hb.
           rewrite Hb. rewrite andb_false_r. reflexivity.
    + rewrite (IH d x Hx Hn Hr). apply andb_false_r.
Qed.

Lemma includes_past_value (P n x r : string) :
  P = n ++ "=" ->
  all_chars (isnt "=") x = true ->
  all_chars (isnt "&") n = true -> boundary r ->
  includes P (x ++ r) = includes P r.
Proof.
  intros -> Hx Hn Hr. induction x as [| c x IH]; [reflexivity|].
  rewrite includes_unfold.
  rewrite (startsWith_straddle n x r c Hx Hn Hr).
  cbn [String.append orb]. apply IH.
  cbn [all_chars] in Hx. apply andb_true_iff in Hx. apply Hx.
Qed.

Lemma boundary_amp (r : string) : boundary (String "&" r).
Proof. right. eexists. reflexivity. Qed.

Ltac name_before_equals P :=
  lazymatch P with
  | "category=" => constr:("category")
  | "priority=" => constr:("priority")
  | "department=" => constr:("department")
  | "status=" => constr:("status")
  end.

(** Passing over the encoded values of a query string while looking for
    a parameter name. *)
Ltac over_values :=
  repeat
    (cbn [includes startsWith Ascii.eqb Bool.eqb andb orb];
     match goal with
     | He : all_chars (isnt "=") ?e = true
       |- context [includes ?P (?e ++ ?r)] =>
         let n := name_before_equals P in
         rewrite (includes_past_value P n e r eq_refl He eq_refl
                    (boundary_amp _))
     | He : all_chars (isnt "=") ?e = true
       |- context [includes ?P ?e] =>
         rewrite (includes_without "=" P e He eq_refl)
     end);
  cbn [includes startsWith Ascii.eqb Bool.eqb andb orb].

(** The text of the query string names a dimension, followed by [=],
    exactly when the dimension holds a value. *)
Lemma queryOf_names (render : State) (name value : string) :
  In (name, value) (dimensions render) ->
  (includes (name ++ "=") (queryOf (activeDimensions render)) = true
   <-> value <> "").
Proof.
  destruct render as [l lo co fo c p d s].
  unfold activeDimensions, dimensions.
  cbn [selectedCategory selectedPriority selectedDepartment selectedStatus].
  intros H. cbn [In] in H.
  assert (E : forall v, exists e,
               urlencode v = e /\ all_chars (isnt "=") e = true)
    by (intros v; eexists; split; [reflexivity | apply urlencode_no_equals]).
  destruct H as [H | [H | [H | [H | []]]]]; injection H as <- <-;
    destruct c as [| ca c], p as [| pa p], d as [| da d], s as [| sa s];
    cbn [filter nonEmpty snd String.eqb negb queryOf map join];
    unfold encodePair; cbn [fst snd];
    change (urlencode "category") with "category";
    change (urlencode "priority") with "priority";
    change (urlencode "department") with "department";
    change (urlencode "status") with "status";
    repeat match goal with
           | |- context [urlencode (String ?a ?v)] =>
               let e := fresh "e" in
               let He := fresh "He" in
               destruct (E (String a v)) as (e & -> & He)
           end;
    clear E;
    rewrite ?append_assoc; cbn [String.append];
    over_values;
    (split; [intros G; try discriminate G; discriminate
            | intros G; try reflexivity; exfalso; apply G; reflexivity]).
Qed.

End QueryTextFacts.
(** C1. A filtered location fetch ([loadReportLocations(true)] with the
    backend reachable) sends one by-location request whose parameters are
    exactly the dimensions of its render that hold a non-empty value, in
    the order category, priority, department, status, all in the one query
    string; a dimension without a value contributes no parameter, no
    parameter has an empty value, and with no active dimension the URL has
    no query string at all.  Read as text, the query string holds the
    name of a dimension followed by [=] exactly when the dimension has a
    value. *)
Theorem filtered_fetch_sends_active_dimensions :
  forall (env : option string) (backend : string -> Api.FetchOutcome)
         (render st : JharkhandHeatmap.State),
    Properties.healthy env backend ->
    let params :=
      Api.locationParams
        (JharkhandHeatmap.filtersArgument
           (JharkhandHeatmap.buildFilters render true)) in
    params = Properties.activeDimensions render
    /\ Api.requests
         (JharkhandHeatmap.loadReportLocations env backend render true st)
       = (Api.healthUrl env
            :: Properties.filterOptionsRequest env render
            ++ [(Api.API_BASE_URL env ++ "/reports/by-location"
                   ++ Properties.queryOf
                        (Properties.activeDimensions render))%string])%list
    /\ (forall name value, In (name, value) params -> value <> "")
    /\ (forall name value,
           In (name, value) (Properties.dimensions render) ->
           (In name (map fst params) <-> value <> ""))
    /\ (forall name value,
           In (name, value) (Properties.dimensions render) ->
           (JsString.includes (name ++ "=")
              (Properties.queryOf (Properties.activeDimensions render))
            = true
            <-> value <> "")).
Proof.
  intros env backend render st H params.
  assert (P : params = Properties.activeDimensions render)
    by apply locationParams_active.
  split; [exact P|]. split; [|split; [|split]].
  - destruct (loadReportLocations_connected env backend render st true H)
      as [R _].
    rewrite R. unfold Api.locationUrl. fold params.
    rewrite queryString_queryOf, P. reflexivity.
  - rewrite P. apply activeDimensions_values.
  - rewrite P. apply activeDimensions_names.
  - apply queryOf_names.
Qed.

(** Category and status selected, priority and department not. *)
Lemma filtered_fetch_sends_active_dimensions_witness :
  let backend :=
    Properties.backendWith None Properties.up
      (Properties.serves (Js.JsArray [])) in
  let render :=
    Properties.firstRenderWith "water_sanitation" "" "" "in_progress" in
  Properties.healthy None backend
  /\ Api.requests
       (JharkhandHeatmap.loadReportLocations None backend render true render)
     = [ "http://localhost:8000/health";
         "http://localhost:8000/api/filter-options";
         "http://localhost:8000/api/reports/by-location?category=water_sanitation&status=in_progress" ].
Proof.
  intros backend render.
  assert (H : Properties.healthy None backend).
  { exists 200%Z, (Api.JsonBody Js.JsNull). split; reflexivity. }
  split; [exact H|].
  destruct (filtered_fetch_sends_active_dimensions None backend render render H)
    as (_ & R & _).
  rewrite R. reflexivity.
Defined.

(** ** The heatmap view: mount, filter changes, refresh and the interval *)

Section LifecycleFacts.
Import JsString Js Api JharkhandHeatmap Properties.

Variable env : option string.
Variable backend : string -> FetchOutcome.

(** The requests of a [loadReportLocations] depend on the render it
    belongs to and not on the component state when it runs. *)
Lemma loadReportLocations_requests_by_render
  (render st st' : State) (apply : bool) :
  requests (loadReportLocations env backend render apply st)
  = requests (loadReportLocations env backend render apply st').
Proof.
  unfold loadReportLocations, loadReportLocations_try.
  cbn [bind ret fst snd result requests].
  destruct (result (checkConnection env backend)) as [[|] | e];
    cbn [bind ret fst snd result requests]; try reflexivity.
  destruct (result (getReportsByLocation env backend
                      (filtersArgument (buildFilters render apply))))
    as [items | e]; cbn [bind ret fst snd result requests].
  - destruct (0 <? Datatypes.length items)%nat;
      try destruct (filterThrowing validLocation items);
      destruct (negb (truthy (filterOptions render))); reflexivity.
  - destruct (negb (truthy (filterOptions render))); reflexivity.
Qed.

Lemma checkConnection_true (H : result (checkConnection env backend)
                                 = Resolved true) :
  healthy env backend.
Proof.
  rewrite checkConnection_result in H.
  destruct (backend (healthUrl env)) as [m | status body] eqn:B;
    [discriminate|].
  exists status, body. split; [exact B | congruence].
Qed.

(** The mount effect of a first render sends no filter parameter, whatever
    the four selection fields hold: its requests are the health probe and,
    when the probe succeeds, the filter options and the bare by-location
    URL. *)
Lemma mount_fetch_is_unfiltered (c p d s : string) :
  requests (mount env backend (firstRenderWith c p d s)) = [healthUrl env]
  \/ requests (mount env backend (firstRenderWith c p d s))
     = [ healthUrl env;
         API_BASE_URL env ++ "/filter-options";
         API_BASE_URL env ++ "/reports/by-location" ].
Proof.
  unfold mount.
  change (isConnected (firstRenderWith c p d s)) with false. cbv iota.
  rewrite requests_bind, requests_ret, app_nil_r.
  destruct (result (checkConnection env backend)) as [[|] | e] eqn:E.
  - right.
    pose proof (checkConnection_true E) as H.
    destruct (loadReportLocations_connected env backend
                (firstRenderWith c p d s) (firstRenderWith c p d s) false H)
      as [R _].
    rewrite R, locationUrl_unfiltered. reflexivity.
  - left.
    apply (loadReportLocations_disconnected env backend _ _ false E).
  - rewrite checkConnection_result in E. discriminate.
Qed.

(** The interval callback sends what the first render's
    [loadReportLocations(true)] sends, whatever the current state is. *)
Lemma tick_requests_by_first_render (first st : State) :
  requests (tick env backend first st)
  = requests (loadReportLocations env backend first true first).
Proof. apply loadReportLocations_requests_by_render. Qed.

(** With the first render of the component, whose selection fields are
    empty, the interval callback never sends a filter parameter. *)
Lemma tick_is_unfiltered (st : State) :
  healthy env backend ->
  requests (tick env backend initial st)
  = [ healthUrl env;
      API_BASE_URL env ++ "/filter-options";
      API_BASE_URL env ++ "/reports/by-location" ].
Proof.
  intros H. unfold tick.
  destruct (loadReportLocations_connected env backend initial st true H)
    as [R _].
  rewrite R. reflexivity.
Qed.

End LifecycleFacts.

(** C2. The view is mounted against a reachable backend, the operator
    then selects the category [water_sanitation], and the interval fires.
    The mount fetch and the fetches of the filter change and of a manual
    refresh behave as the claim says; the fetch of the interval does not
    carry the selected category: it is the [loadReportLocations] of the
    first render, whose selection fields are empty. *)
Theorem interval_fetch_ignores_current_filters :
  let backend :=
    Properties.backendWith None Properties.up
      (Properties.serves (Js.JsArray [Properties.pin])) in
  let mounting :=
    JharkhandHeatmap.mounted None backend JharkhandHeatmap.initial in
  let selecting :=
    JharkhandHeatmap.handle None (Api.result mounting)
      (backend, JharkhandHeatmap.SelectCategory "water_sanitation") in
  let ticking :=
    JharkhandHeatmap.handle None (Api.result selecting)
      (backend, JharkhandHeatmap.Tick) in
  let refreshing :=
    JharkhandHeatmap.handle None (Api.result selecting)
      (backend, JharkhandHeatmap.Refresh) in
  Api.requests mounting
  = [ "http://localhost:8000/health";
      "http://localhost:8000/api/filter-options";
      "http://localhost:8000/api/reports/by-location" ]
  /\ Api.requests selecting
     = [ "http://localhost:8000/health";
         "http://localhost:8000/api/reports/by-location?category=water_sanitation" ]
  /\ Api.requests refreshing
     = [ "http://localhost:8000/health";
         "http://localhost:8000/api/reports/by-location?category=water_sanitation" ]
  /\ JharkhandHeatmap.selectedCategory
       (JharkhandHeatmap.current (Api.result selecting)) = "water_sanitation"
  /\ Api.requests ticking
     = [ "http://localhost:8000/health";
         "http://localhost:8000/api/filter-options";
         "http://localhost:8000/api/reports/by-location" ]
  /\ JharkhandHeatmap.selectedCategory
       (JharkhandHeatmap.current (Api.result ticking)) = "water_sanitation".
Proof. vm_compute. repeat split. Qed.

(** ** The heatmap view: coordinates *)

Section CoordinateFacts.
Import JsString Js Api JharkhandHeatmap Properties.

Lemma filterThrowing_app (p : JsValue -> option bool) (a b : list JsValue) :
  filterThrowing p (a ++ b)
  = match filterThrowing p a, filterThrowing p b with
    | Some x, Some y => Some (x ++ y)%list
    | _, _ => None
    end.
Proof.
  induction a as [| x a IH]; simpl.
  - destruct (filterThrowing p b); reflexivity.
  - destruct (p x) as [keep|]; [|reflexivity].
    rewrite IH.
    destruct (filterThrowing p a); [|reflexivity].
    destruct (filterThrowing p b); [|reflexivity].
    destruct keep; reflexivity.
Qed.

Lemma filterThrowing_all (p : JsValue -> option bool) (l : list JsValue) :
  Forall (fun x => p x = Some true) l -> filterThrowing p l = Some l.
Proof.
  induction 1 as [| x l Hx _ IH]; simpl; [reflexivity|].
  rewrite Hx, IH. reflexivity.
Qed.

Lemma filterThrowing_In (p : JsValue -> option bool) (l kept : list JsValue)
  (x : JsValue) :
  filterThrowing p l = Some kept -> In x kept -> p x = Some true /\ In x l.
Proof.
  revert kept. induction l as [| y l IH]; simpl; intros kept H Hin.
  - injection H as <-. contradiction.
  - destruct (p y) as [keep|] eqn:Py; [|discriminate].
    destruct (filterThrowing p l) as [k|]; [|discriminate].
    injection H as <-.
    destruct keep.
    + destruct Hin as [<- | Hin]; [tauto|].
      destruct (IH k eq_refl Hin). tauto.
    + destruct (IH k eq_refl Hin). tauto.
Qed.

Lemma kept_In (items : list JsValue) (loc : JsValue) :
  In loc (kept items) -> validLocation loc = Some true.
Proof.
  unfold kept. destruct (filterThrowing validLocation items) eqn:E.
  - intros H. apply (filterThrowing_In _ _ _ _ E H).
  - contradiction.
Qed.

(** The filter tests the two coordinates for truthiness first. *)
Lemma coordinatesPass_truthy (lat lng : JsValue) :
  coordinatesPass lat lng = true -> truthy lat = true /\ truthy lng = true.
Proof.
  unfold coordinatesPass. intros H.
  apply andb_true_iff in H. destruct H as [H _].
  apply andb_true_iff in H. exact H.
Qed.

Lemma coordinatesPass_numbers (lat lng : JsValue) :
  coordinatesPass lat lng = true <-> nonZeroNumber lat /\ nonZeroNumber lng.
Proof.
  unfold coordinatesPass, nonZeroNumber. split.
  - intros H.
    destruct lat as [| | | x | | |]; try (rewrite ?andb_false_r in H; discriminate);
    destruct lng as [| | | y | | |]; try (rewrite ?andb_false_r in H; discriminate).
    destruct x, y; try discriminate; split; eexists;
      (split; [reflexivity | split; [reflexivity | discriminate]]).
  - intros [(x & -> & Hx & Zx) (y & -> & Hy & Zy)].
    destruct x; try discriminate; try (exfalso; eapply Zx; reflexivity);
    destruct y; try discriminate; try (exfalso; eapply Zy; reflexivity);
    reflexivity.
Qed.

Lemma validLocation_true (loc : JsValue) :
  validLocation loc = Some true ->
  nonZeroNumber (latOf loc) /\ nonZeroNumber (lngOf loc).
Proof.
  unfold validLocation, latOf, lngOf, prop.
  destruct (getProp loc "lat") as [lat|]; [|discriminate].
  destruct (getProp loc "lng") as [lng|]; [|discriminate].
  intros H. injection H as H. apply coordinatesPass_numbers. exact H.
Qed.

Lemma validLocation_plotted (loc : JsValue) :
  plotted loc -> validLocation loc = Some true.
Proof.
  intros [[props ->] [Hlat Hlng]].
  unfold validLocation, latOf, lngOf, prop in *. cbn [getProp] in *.
  f_equal. apply coordinatesPass_numbers. split; assumption.
Qed.

Lemma validLocation_nan_lat (loc : JsValue) :
  latOf loc = JsNumber S754_nan -> validLocation loc = Some false.
Proof.
  unfold validLocation, latOf, prop.
  destruct loc; cbn [getProp]; try discriminate.
  intros ->. reflexivity.
Qed.

Lemma nonZeroNumber_not_bad (v : JsValue) :
  nonZeroNumber v -> ~ badCoordinate v.
Proof.
  intros (x & -> & Hx & _) H. cbn in H. congruence.
Qed.

Lemma nonZeroNumber_not_zero (v : JsValue) :
  nonZeroNumber v -> ~ zeroCoordinate v.
Proof.
  intros (x & -> & _ & Hz) [s H]. injection H as ->. eapply Hz. reflexivity.
Qed.

Lemma markers_length (st : State) :
  Datatypes.length (markers st) = Datatypes.length (locations st).
Proof. unfold markers. apply length_map. Qed.

Lemma markers_locations (st : State) :
  map snd (markers st) = locations st.
Proof.
  unfold markers. rewrite map_map. cbn [snd]. apply map_id.
Qed.

End CoordinateFacts.

(** ** The heatmap view: what [locations] holds in every reachable state *)

Section InvariantFacts.
Import JsString Js Api JharkhandHeatmap Properties.

Variable env : option string.

Lemma loadReportLocations_filtered (backend : string -> FetchOutcome)
  (render st : State) (apply : bool) :
  filtered st ->
  filtered (result (loadReportLocations env backend render apply st)).
Proof.
  intros F. unfold filtered.
  destruct (result (checkConnection env backend)) as [[|] | e] eqn:E.
  - destruct (loadReportLocations_connected env backend render st apply
                (checkConnection_true env backend E))
      as (_ & items & _ & Hl & _).
    rewrite Hl. apply Forall_forall. intros loc. apply kept_In.
  - destruct (loadReportLocations_disconnected env backend render st apply E)
      as [_ R].
    rewrite R. exact F.
  - rewrite checkConnection_result in E. discriminate.
Qed.

Lemma filterEffect_filtered (backend : string -> FetchOutcome)
  (before st : State) :
  filtered st -> filtered (result (filterEffect env backend before st)).
Proof.
  intros F. unfold filterEffect.
  destruct (sameSelection before st); [exact F|].
  destruct (isConnected st); [|exact F].
  apply loadReportLocations_filtered, F.
Qed.

Lemma handle_filtered (i : Instance)
  (be : (string -> FetchOutcome) * Event) :
  filtered (current i) -> filtered (current (result (handle env i be))).
Proof.
  intros F. destruct be as [backend e]. unfold handle.
  rewrite result_bind. cbn [result ret snd fst current].
  destruct e; try (apply filterEffect_filtered; exact F).
  - unfold refreshLocations. destruct (loading (current i)); [exact F|].
    apply loadReportLocations_filtered, F.
  - apply loadReportLocations_filtered, F.
Qed.

Lemma run_filtered (events : list ((string -> FetchOutcome) * Event))
  (i : Instance) :
  filtered (current i) -> filtered (current (result (run env i events))).
Proof.
  revert i. induction events as [| e rest IH]; intros i F; [exact F|].
  cbn [run]. rewrite result_bind. apply IH, handle_filtered, F.
Qed.

Lemma mounted_filtered (backend : string -> FetchOutcome) :
  filtered (current (result (mounted env backend initial))).
Proof.
  unfold mounted, mount. rewrite !result_bind.
  cbn [isConnected initial result ret snd current].
  apply loadReportLocations_filtered. apply Forall_nil.
Qed.

(** Whatever the backends answer and whatever the operator does, every
    element of [locations] has passed the coordinate filter. *)
Lemma reachable_filtered (backend : string -> FetchOutcome)
  (events : list ((string -> FetchOutcome) * Event)) :
  filtered
    (current (result (run env (result (mounted env backend initial)) events))).
Proof. apply run_filtered, mounted_filtered. Qed.

End InvariantFacts.

(** C5 (amended). In every state that the view reaches after mount,
    whatever the backends answer, no location whose latitude or longitude
    is missing, not a number or NaN is among [locations] or the markers;
    and when a fetch against a reachable backend returns locations whose
    two coordinates are numbers other than NaN and other than zero, plus
    one location whose [lat] is NaN, [locations] is the array without
    that one, so the number of markers is the number of the others. *)
Theorem invalid_coordinates_are_not_rendered :
  forall env : option string,
    (forall (backend : string -> Api.FetchOutcome)
            (events : list ((string -> Api.FetchOutcome)
                            * JharkhandHeatmap.Event))
            (loc : Js.JsValue),
        let st :=
          JharkhandHeatmap.current
            (Api.result
               (JharkhandHeatmap.run env
                  (Api.result (JharkhandHeatmap.mounted env backend
                                 JharkhandHeatmap.initial))
                  events)) in
        Properties.badCoordinate (Properties.latOf loc)
        \/ Properties.badCoordinate (Properties.lngOf loc) ->
        ~ In loc (JharkhandHeatmap.locations st)
        /\ ~ In loc (map snd (JharkhandHeatmap.markers st)))
    /\ (forall (backend : string -> Api.FetchOutcome)
               (render st : JharkhandHeatmap.State) (apply : bool)
               (before after : list Js.JsValue) (bad : Js.JsValue),
           Properties.healthy env backend ->
           Properties.answers env backend
             (JharkhandHeatmap.filtersArgument
                (JharkhandHeatmap.buildFilters render apply))
             (before ++ bad :: after) ->
           Forall Properties.plotted (before ++ after) ->
           Properties.latOf bad = Js.JsNumber S754_nan ->
           let st' :=
             Api.result
               (JharkhandHeatmap.loadReportLocations env backend render
                  apply st) in
           JharkhandHeatmap.locations st' = (before ++ after)%list
           /\ List.length (JharkhandHeatmap.markers st')
              = List.length (before ++ after)).
Proof.
  intros env. split.
  - intros backend events loc st Hbad.
    rewrite markers_locations.
    assert (G : ~ In loc (JharkhandHeatmap.locations st)).
    { intros Hin.
      pose proof (reachable_filtered env backend events) as F.
      unfold Properties.filtered in F. fold st in F.
      rewrite Forall_forall in F.
      apply F, validLocation_true in Hin.
      destruct Hin as [Hlat Hlng].
      destruct Hbad as [Hbad | Hbad];
        [ exact (nonZeroNumber_not_bad _ Hlat Hbad)
        | exact (nonZeroNumber_not_bad _ Hlng Hbad) ]. }
    split; exact G.
  - intros backend render st apply before after bad H Ha Hp Hnan st'.
    destruct (loadReportLocations_connected env backend render st apply H)
      as (_ & items & Hi & Hl & _).
    fold st' in Hl.
    rewrite (getReportsByLocation_answers _ _ _ _ Ha) in Hi.
    injection Hi as <-.
    assert (K : Properties.kept (before ++ bad :: after)
                = (before ++ after)%list).
    { unfold Properties.kept.
      apply Forall_app in Hp. destruct Hp as [Hb Haf].
      rewrite filterThrowing_app. simpl.
      rewrite (validLocation_nan_lat bad Hnan).
      rewrite !filterThrowing_all; [reflexivity | |].
      - eapply Forall_impl; [|exact Haf]. apply validLocation_plotted.
      - eapply Forall_impl; [|exact Hb]. apply validLocation_plotted. }
    rewrite markers_length, Hl, K. split; reflexivity.
Qed.

(** Two plotted locations and one whose latitude is NaN: two markers. *)
Lemma invalid_coordinates_are_not_rendered_witness :
  let broken := Properties.location (Js.JsNumber S754_nan)
                  (Js.JsNumber Js.num_77_25) "Broken" in
  let items := [Properties.pin; broken; Properties.pin] in
  let backend :=
    Properties.backendWith None Properties.up
      (Properties.serves (Js.JsArray items)) in
  Properties.healthy None backend
  /\ Forall Properties.plotted ([Properties.pin] ++ [Properties.pin])
  /\ List.length
       (JharkhandHeatmap.markers
          (Api.result
             (JharkhandHeatmap.loadReportLocations None backend
                JharkhandHeatmap.initial false JharkhandHeatmap.initial)))
     = 2.
Proof.
  intros broken items backend.
  assert (H : Properties.healthy None backend).
  { exists 200%Z, (Api.JsonBody Js.JsNull). split; reflexivity. }
  assert (P : Properties.plotted Properties.pin).
  { split; [eexists; reflexivity|].
    split; eexists; (split; [reflexivity | split; [reflexivity | discriminate]]). }
  assert (F : Forall Properties.plotted ([Properties.pin] ++ [Properties.pin])).
  { simpl. apply Forall_cons; [exact P|].
    apply Forall_cons; [exact P|]. apply Forall_nil. }
  split; [exact H|]. split; [exact F|].
  assert (A : Properties.answers None backend
                (JharkhandHeatmap.filtersArgument
                   (JharkhandHeatmap.buildFilters JharkhandHeatmap.initial
                      false))
                ([Properties.pin] ++ broken :: [Properties.pin])).
  { exists 200%Z, (Properties.successEnvelope (Js.JsArray items)).
    repeat split. }
  destruct (invalid_coordinates_are_not_rendered None) as [_ G].
  exact (proj2 (G backend JharkhandHeatmap.initial JharkhandHeatmap.initial
                  false [Properties.pin] [Properties.pin] broken
                  H A F eq_refl)).
Defined.

(** The claim of C5 as it stands fails for a location on the equator: its
    coordinates are numbers, none of them NaN, and yet it is dropped, so
    one such location and one with a NaN latitude give no marker at
    all. *)
Lemma equator_location_is_dropped :
  let equator := Properties.location (Js.JsNumber Js.zero)
                   (Js.JsNumber Js.num_77_25) "Equator" in
  let broken := Properties.location (Js.JsNumber S754_nan)
                  (Js.JsNumber Js.num_77_25) "Broken" in
  let backend :=
    Properties.backendWith None Properties.up
      (Properties.serves (Js.JsArray [equator; broken])) in
  ~ Properties.badCoordinate (Properties.latOf equator)
  /\ ~ Properties.badCoordinate (Properties.lngOf equator)
  /\ List.length
       (JharkhandHeatmap.markers
          (Api.result
             (JharkhandHeatmap.loadReportLocations None backend
                JharkhandHeatmap.initial false JharkhandHeatmap.initial)))
     = 0
  /\ List.length
       (JharkhandHeatmap.markers
          (Api.result
             (JharkhandHeatmap.loadReportLocations None backend
                JharkhandHeatmap.initial false JharkhandHeatmap.initial)))
     <> 1.
Proof.
  cbv zeta. split; [|split; [|split]].
  - cbn. discriminate.
  - cbn. discriminate.
  - vm_compute. reflexivity.
  - vm_compute. discriminate.
Qed.

(** C10. The coordinate filter tests [lat] and [lng] for truthiness
    before anything else, and the number zero is not truthy; so no
    location whose latitude or longitude is 0 (or -0) is among
    [locations] or the markers, neither after a location fetch against a
    reachable backend nor in any other state that the view reaches after
    mount. *)
Theorem zero_coordinates_are_not_rendered :
  (forall lat lng,
      JharkhandHeatmap.coordinatesPass lat lng = true ->
      Js.truthy lat = true /\ Js.truthy lng = true)
  /\ (forall s, Js.truthy (Js.JsNumber (S754_zero s)) = false)
  /\ (forall (env : option string) (backend : string -> Api.FetchOutcome)
             (render st : JharkhandHeatmap.State) (apply : bool)
             (loc : Js.JsValue),
         Properties.healthy env backend ->
         Properties.zeroCoordinate (Properties.latOf loc)
         \/ Properties.zeroCoordinate (Properties.lngOf loc) ->
         let st' :=
           Api.result
             (JharkhandHeatmap.loadReportLocations env backend render
                apply st) in
         ~ In loc (JharkhandHeatmap.locations st')
         /\ ~ In loc (map snd (JharkhandHeatmap.markers st')))
  /\ (forall (env : option string) (backend : string -> Api.FetchOutcome)
             (events : list ((string -> Api.FetchOutcome)
                             * JharkhandHeatmap.Event))
             (loc : Js.JsValue),
         let st :=
           JharkhandHeatmap.current
             (Api.result
                (JharkhandHeatmap.run env
                   (Api.result (JharkhandHeatmap.mounted env backend
                                  JharkhandHeatmap.initial))
                   events)) in
         Properties.zeroCoordinate (Properties.latOf loc)
         \/ Properties.zeroCoordinate (Properties.lngOf loc) ->
         ~ In loc (JharkhandHeatmap.locations st)
         /\ ~ In loc (map snd (JharkhandHeatmap.markers st))).
Proof.
  split; [apply coordinatesPass_truthy|]. split; [reflexivity|].
  assert (Z : forall loc,
             Properties.zeroCoordinate (Properties.latOf loc)
             \/ Properties.zeroCoordinate (Properties.lngOf loc) ->
             JharkhandHeatmap.validLocation loc <> Some true).
  { intros loc Hz Hv. apply validLocation_true in Hv.
    destruct Hv as [Hlat Hlng].
    destruct Hz as [Hz | Hz];
      [ exact (nonZeroNumber_not_zero _ Hlat Hz)
      | exact (nonZeroNumber_not_zero _ Hlng Hz) ]. }
  split.
  - intros env backend render st apply loc H Hz st'.
    destruct (loadReportLocations_connected env backend render st apply H)
      as (_ & items & Hi & Hl & _).
    fold st' in Hl. rewrite markers_locations, Hl.
    assert (G : ~ In loc (Properties.kept items)).
    { intros Hin. apply kept_In in Hin. exact (Z loc Hz Hin). }
    split; exact G.
  - intros env backend events loc st Hz.
    rewrite markers_locations.
    assert (G : ~ In loc (JharkhandHeatmap.locations st)).
    { intros Hin.
      pose proof (reachable_filtered env backend events) as F.
      unfold Properties.filtered in F. fold st in F.
      rewrite Forall_forall in F.
      exact (Z loc Hz (F loc Hin)). }
    split; exact G.
Qed.

(** A location on the equator among the fetched ones. *)
Lemma zero_coordinates_are_not_rendered_witness :
  let equator := Properties.location (Js.JsNumber Js.zero)
                   (Js.JsNumber Js.num_77_25) "Equator" in
  let backend :=
    Properties.backendWith None Properties.up
      (Properties.serves (Js.JsArray [Properties.pin; equator])) in
  Properties.healthy None backend
  /\ ~ In equator
         (JharkhandHeatmap.locations
            (Api.result
               (JharkhandHeatmap.loadReportLocations None backend
                  JharkhandHeatmap.initial true JharkhandHeatmap.initial))).
Proof.
  intros equator backend.
  assert (H : Properties.healthy None backend).
  { exists 200%Z, (Api.JsonBody Js.JsNull). split; reflexivity. }
  split; [exact H|].
  destruct zero_coordinates_are_not_rendered as (_ & _ & G & _).
  refine (proj1 (G None backend JharkhandHeatmap.initial
                   JharkhandHeatmap.initial true equator H _)).
  left. exists false. reflexivity.
Defined.

(** ** Failed fetches *)

(** The claim of C3 as it stands fails for the heatmap: the view is
    mounted against a backend that serves one location, then refreshed
    while the by-location request is rejected; the earlier location is
    gone. *)
Lemma failed_location_fetch_empties_heatmap :
  let good :=
    Properties.backendWith None Properties.up
      (Properties.serves (Js.JsArray [Properties.pin])) in
  let failing :=
    Properties.backendWith None Properties.up Properties.down in
  let before := Api.result (JharkhandHeatmap.mounted None good
                              JharkhandHeatmap.initial) in
  let after := Api.result (JharkhandHeatmap.handle None before
                             (failing, JharkhandHeatmap.Refresh)) in
  JharkhandHeatmap.locations (JharkhandHeatmap.current before)
  = [Properties.pin]
  /\ Properties.failureMode (failing (Api.locationUrl None None))
  /\ JharkhandHeatmap.locations (JharkhandHeatmap.current after) = []
  /\ JharkhandHeatmap.locations (JharkhandHeatmap.current after)
     <> JharkhandHeatmap.locations (JharkhandHeatmap.current before).
Proof.
  cbv zeta. split; [|split; [|split]].
  - vm_compute. reflexivity.
  - vm_compute. constructor.
  - vm_compute. reflexivity.
  - vm_compute. discriminate.
Qed.

(** C3 (amended). When the gateway request of a report hook
    ([useReports], [useReportStats]) or of the table view is rejected,
    the data held before stays as it is, [loading] ends [false] and an
    error text is stored: the thrown message for the hooks, a fixed text
    for the table.  The statistics view replaces what it held by the
    placeholder dataset.  The heatmap keeps its location list only when
    the health probe fails, and then shows the disconnected indicator;
    when the probe succeeds and the by-location request fails, the list
    is reset to the empty list. *)
Theorem failed_fetch_keeps_hook_data_and_empties_heatmap :
  forall (env : option string) (backend : string -> Api.FetchOutcome),
    (forall st e,
        Api.result (Api.getAllReports env backend) = Api.Rejected e ->
        let st' := Api.result (useReports.fetchReports env backend st) in
        useReports.reports st' = useReports.reports st
        /\ useReports.loading st' = false
        /\ useReports.error st'
           = Some (errorMessageOr "Failed to fetch reports" e))
    /\ (forall st e,
           Api.result (Api.getReportStats env backend) = Api.Rejected e ->
           let st' := Api.result (useReportStats.fetchStats env backend st) in
           useReportStats.stats st' = useReportStats.stats st
           /\ useReportStats.loading st' = false
           /\ useReportStats.error st'
              = Some (errorMessageOr "Failed to fetch statistics" e))
    /\ (forall st e,
           Api.result (Api.getAllReports env backend) = Api.Rejected e ->
           let st' := Api.result (ComplaintsTable.fetchReports env backend st) in
           ComplaintsTable.reports st' = ComplaintsTable.reports st
           /\ ComplaintsTable.loading st' = false
           /\ ComplaintsTable.error st'
              = "Failed to fetch complaints. Please try again.")
    /\ (forall st e,
           StatisticsSection.stats
             (StatisticsSection.fetchStats (Api.Rejected e) st)
           = Some StatisticsSection.fallbackStats)
    /\ (forall render st apply,
           Api.result (Api.checkConnection env backend) = Api.Resolved false ->
           let st' :=
             Api.result (JharkhandHeatmap.loadReportLocations
                           env backend render apply st) in
           JharkhandHeatmap.locations st' = JharkhandHeatmap.locations st
           /\ JharkhandHeatmap.isConnected st' = false
           /\ JharkhandHeatmap.loading st' = false)
    /\ (forall render st apply,
           Properties.healthy env backend ->
           Properties.failureMode
             (backend
                (Api.locationUrl env
                   (JharkhandHeatmap.filtersArgument
                      (JharkhandHeatmap.buildFilters render apply)))) ->
           let st' :=
             Api.result (JharkhandHeatmap.loadReportLocations
                           env backend render apply st) in
           JharkhandHeatmap.locations st' = []
           /\ JharkhandHeatmap.isConnected st' = true
           /\ JharkhandHeatmap.loading st' = false).
Proof.
  intros env backend. repeat apply conj.
  - intros st e H st'. subst st'.
    unfold useReports.fetchReports. rewrite !result_bind, H.
    repeat split.
  - intros st e H st'. subst st'.
    unfold useReportStats.fetchStats. rewrite !result_bind, H.
    repeat split.
  - intros st e H st'. subst st'.
    unfold ComplaintsTable.fetchReports. rewrite !result_bind, H.
    repeat split.
  - reflexivity.
  - intros render st apply H st'. subst st'.
    destruct (loadReportLocations_disconnected env backend render st apply H)
      as [_ R].
    rewrite R. repeat split.
  - intros render st apply H F st'.
    destruct (loadReportLocations_connected env backend render st apply H)
      as (_ & items & Hi & Hl & Hc & Hload).
    rewrite (getReportsByLocation_failure _ _ _ F) in Hi.
    injection Hi as <-.
    fold st' in Hl, Hc, Hload. repeat split; assumption.
Qed.

(** A backend that is down except for its health endpoint: the hook keeps
    the reports it holds, the heatmap loses its location. *)
Lemma failed_fetch_keeps_hook_data_and_empties_heatmap_witness :
  let failing :=
    Properties.backendWith None Properties.up Properties.down in
  let held :=
    useReports.setLoading false
      (useReports.setReports (Js.JsArray [Js.JsString "report-1"])
         useReports.initial) in
  let shown :=
    JharkhandHeatmap.setLocations [Properties.pin] JharkhandHeatmap.initial in
  Api.result (Api.getAllReports None failing)
  = Api.Rejected (Api.ThrownError (Api.MsgEngine "Failed to fetch"))
  /\ useReports.reports
       (Api.result (useReports.fetchReports None failing held))
     = Js.JsArray [Js.JsString "report-1"]
  /\ Properties.healthy None failing
  /\ JharkhandHeatmap.locations
       (Api.result (JharkhandHeatmap.loadReportLocations None failing
                      shown true shown))
     = [].
Proof.
  intros failing held shown.
  assert (R : Api.result (Api.getAllReports None failing)
              = Api.Rejected (Api.ThrownError (Api.MsgEngine "Failed to fetch")))
    by reflexivity.
  assert (H : Properties.healthy None failing).
  { exists 200%Z, (Api.JsonBody Js.JsNull). split; reflexivity. }
  assert (F : Properties.failureMode
                (failing
                   (Api.locationUrl None
                      (JharkhandHeatmap.filtersArgument
                         (JharkhandHeatmap.buildFilters shown true))))).
  { vm_compute. constructor. }
  destruct (failed_fetch_keeps_hook_data_and_empties_heatmap None failing)
    as (A & _ & _ & _ & _ & E).
  split; [exact R|].
  split; [exact (proj1 (A held _ R))|].
  split; [exact H|].
  exact (proj1 (E shown shown true H F)).
Defined.

(** ** The chat view: formatting a reply *)

Section SplitFacts.
Import JsString Js ChatbotPage.

Lemma splitHeading_from_nonempty (k : nat) (s : string) :
  splitHeading_from k s <> [].
Proof.
  revert k. induction s as [| c s IH]; intros k; simpl; [discriminate|].
  destruct k; [|apply IH].
  destruct (matchHeading (String c s)); [discriminate|].
  destruct (splitHeading_from 0 s) eqn:E; [exact (False_ind _ (IH 0 E))|].
  discriminate.
Qed.

Lemma prepend_empty (l : list string) : l <> [] -> prepend "" l = l.
Proof. destruct l; [contradiction | reflexivity]. Qed.

Lemma matchHeading_other (c : ascii) (s : string) :
  isnt star c = true -> matchHeading (String c s) = None.
Proof.
  intros H. unfold matchHeading. cbn [startsWith].
  fold star. rewrite (isnt_eqb star c H). reflexivity.
Qed.

Lemma inert_empty : inert "".
Proof.
  intros r. simpl. symmetry. apply prepend_empty, splitHeading_from_nonempty.
Qed.

Lemma inert_app (a b : string) : inert a -> inert b -> inert (a ++ b).
Proof.
  intros Ha Hb r.
  rewrite append_assoc, Ha, Hb. apply prepend_prepend.
Qed.

Lemma inert_starless (v : string) :
  all_chars (isnt star) v = true -> inert v.
Proof.
  induction v as [| c v IH]; intros H; [apply inert_empty|].
  simpl in H. apply andb_true_iff in H. destruct H as [Hc Hv].
  intros r. cbn [String.append splitHeading_from].
  rewrite (matchHeading_other c (v ++ r) Hc), (IH Hv r).
  apply prepend_prepend.
Qed.

(** The bullet and the marker of a field line. *)
Lemma inert_bullet (l : Label) : inert (bullet l).
Proof.
  intros r.
  pose proof (splitHeading_from_nonempty 0 r) as N.
  destruct l; cbn; destruct (splitHeading_from 0 r);
    try contradiction; reflexivity.
Qed.

Lemma inert_NL : inert NL.
Proof.
  intros r. pose proof (splitHeading_from_nonempty 0 r) as N.
  cbn. destruct (splitHeading_from 0 r); [contradiction | reflexivity].
Qed.

Lemma inert_fieldLine (f : Label * string) :
  all_chars (isnt star) (snd f) = true -> inert (fieldLine f).
Proof.
  intros H. unfold fieldLine, bareLine.
  apply inert_app; [apply inert_app|].
  - apply inert_bullet.
  - apply inert_starless, H.
  - apply inert_NL.
Qed.

Lemma fieldLines_cons (f : Label * string) (fs : list (Label * string)) :
  fieldLines (f :: fs) = fieldLine f ++ fieldLines fs.
Proof.
  unfold fieldLines. destruct fs as [| g gs]; simpl.
  - now rewrite append_empty_r.
  - reflexivity.
Qed.

Lemma inert_fieldLines (fs : list (Label * string)) :
  Forall (fun f => all_chars (isnt star) (snd f) = true) fs ->
  inert (fieldLines fs).
Proof.
  induction 1 as [| f fs Hf _ IH].
  - apply inert_empty.
  - rewrite fieldLines_cons. apply inert_app; [apply inert_fieldLine, Hf | exact IH].
Qed.

Lemma digitRun_number (n r : string) :
  all_chars is_digit n = true ->
  digitRun (n ++ String ":" r) = String.length n.
Proof.
  induction n as [| c n IH]; intros H; [reflexivity|].
  simpl in H. apply andb_true_iff in H. destruct H as [Hc Hn].
  simpl. rewrite Hc, (IH Hn). reflexivity.
Qed.

Lemma drop_app (a r : string) : drop (String.length a) (a ++ r) = r.
Proof. induction a as [| c a IH]; simpl; [reflexivity | exact IH]. Qed.

Lemma matchHeading_heading (n r : string) :
  number n ->
  matchHeading (heading n ++ r) = Some (15 + String.length n).
Proof.
  intros [Hne Hd]. unfold heading, matchHeading.
  rewrite !append_assoc.
  rewrite startsWith_self.
  change 12 with (String.length "**Complaint ").
  rewrite drop_app.
  change (":**" ++ r) with (String ":" ("**" ++ r)).
  rewrite (digitRun_number n _ Hd), drop_app.
  destruct n as [| c n]; [contradiction|].
  cbn [String.length Nat.ltb Nat.leb andb startsWith String.append].
  rewrite !Ascii.eqb_refl. cbn [andb]. f_equal. simpl. lia.
Qed.

Lemma splitHeading_from_skip (a r : string) :
  splitHeading_from (String.length a) (a ++ r) = splitHeading_from 0 r.
Proof.
  induction a as [| c a IH]; [reflexivity|].
  cbn [String.length String.append splitHeading_from]. exact IH.
Qed.

(** A heading ends the current piece and is itself left out. *)
Lemma splitHeading_from_heading (n r : string) :
  number n ->
  splitHeading_from 0 (heading n ++ r) = "" :: splitHeading_from 0 r.
Proof.
  intros H.
  pose proof (matchHeading_heading n r H) as M.
  unfold heading in *. rewrite !append_assoc in *.
  change ("**Complaint " ++ n ++ ":**" ++ r)
    with (String "*" ("*Complaint " ++ n ++ ":**" ++ r)) in *.
  cbn [splitHeading_from]. rewrite M. f_equal.
  cbn [Nat.add pred].
  replace (S (S (S (S (S (S (S (S (S (S (S (S (S (S (String.length n)))))))))))))))
    with (String.length ("*Complaint " ++ n ++ ":**")).
  - rewrite <- (splitHeading_from_skip ("*Complaint " ++ n ++ ":**") r).
    now rewrite !append_assoc.
  - rewrite !length_append. simpl. lia.
Qed.

Lemma splitHeading_one (a : string) : inert a -> splitHeading a = [a].
Proof.
  intros H. unfold splitHeading.
  rewrite <- (append_empty_r a) at 1. rewrite H. simpl.
  now rewrite append_empty_r.
Qed.



End SplitFacts.

Section ParseFacts.
Import JsString Js ChatbotPage.

Lemma bullet_shape (l : Label) :
  bullet l = String "*" (String " " (marker l ++ " ")).
Proof. destruct l; reflexivity. Qed.

Lemma bullet_noLF (l : Label) : all_chars (isnt LF) (bullet l) = true.
Proof. destruct l; reflexivity. Qed.

Lemma bareLine_noLF (f : Label * string) :
  all_chars (isnt LF) (snd f) = true -> all_chars (isnt LF) (bareLine f) = true.
Proof.
  intros H. unfold bareLine. now rewrite all_chars_app, bullet_noLF, H.
Qed.

Lemma bareLine_trimEnd (f : Label * string) :
  plainValue (snd f) -> trimEnd (bareLine f) = bareLine f.
Proof.
  intros (Hne & Ht & _ & _).
  destruct (trim_fixed (snd f) Ht Hne) as (_ & He & _).
  unfold bareLine. rewrite trimEnd_app; rewrite He; [reflexivity | exact Hne].
Qed.

Lemma bareLine_nonEmpty (f : Label * string) : bareLine f <> "".
Proof. unfold bareLine. rewrite bullet_shape. discriminate. Qed.

Lemma fieldLines_trimEnd (fs : list (Label * string)) :
  Forall (fun f => plainValue (snd f)) fs ->
  forall f, plainValue (snd f) ->
    trimEnd (fieldLines (f :: fs)) = join NL (map bareLine (f :: fs)).
Proof.
  induction 1 as [| g gs Hg _ IH]; intros f Hf.
  - unfold fieldLines, fieldLine. cbn [map String.concat join].
    unfold NL. rewrite trimEnd_space_end by reflexivity.
    apply bareLine_trimEnd, Hf.
  - rewrite fieldLines_cons.
    assert (E : trimEnd (fieldLines (g :: gs))
                = join NL (map bareLine (g :: gs))) by (apply IH, Hg).
    rewrite trimEnd_app.
    + rewrite E. unfold fieldLine.
      cbn [map join]. now rewrite !append_assoc.
    + rewrite E. cbn [map join].
      pose proof (bareLine_nonEmpty g) as N.
      destruct (map bareLine gs); [exact N|].
      destruct (bareLine g); [contradiction | discriminate].
Qed.

Lemma splitChar_join (fs : list (Label * string)) :
  Forall (fun f => all_chars (isnt LF) (snd f) = true) fs ->
  forall f, all_chars (isnt LF) (snd f) = true ->
    splitChar LF (join NL (map bareLine (f :: fs))) = map bareLine (f :: fs).
Proof.
  induction 1 as [| g gs Hg _ IH]; intros f Hf.
  - cbn [map join]. apply splitChar_last, bareLine_noLF, Hf.
  - change (join NL (map bareLine (f :: g :: gs)))
      with (bareLine f ++ String LF (join NL (map bareLine (g :: gs)))).
    rewrite splitChar_line by (apply bareLine_noLF, Hf).
    rewrite (IH g Hg). reflexivity.
Qed.

Lemma bareLine_not_blank (f : Label * string) :
  nonEmpty (trim (bareLine f)) = true.
Proof.
  unfold bareLine. rewrite bullet_shape. unfold trim.
  cbn [String.append trimStart].
  change (is_space "*") with false. cbv iota.
  rewrite trimEnd_cons by reflexivity. reflexivity.
Qed.

Lemma stripBullet_bareLine (l : Label) (v : string) :
  stripBullet (bareLine (l, v)) = marker l ++ String " " v.
Proof.
  unfold bareLine. cbn [fst snd]. rewrite bullet_shape.
  cbn [String.append stripBullet].
  change (Ascii.eqb "*" star) with true. cbv iota.
  cbn [trimStart]. change (is_space " ") with true. cbv iota.
  rewrite append_assoc.
  destruct l; reflexivity.
Qed.

Lemma marker_shape (l : Label) : exists m, marker l = String "*" m.
Proof. destruct l; eexists; reflexivity. Qed.

Lemma cleanLine_bareLine (l : Label) (v : string) :
  plainValue v ->
  trim (stripBullet (bareLine (l, v))) = marker l ++ String " " v.
Proof.
  intros (Hne & Ht & _ & _).
  destruct (trim_fixed v Ht Hne) as (_ & He & _).
  rewrite stripBullet_bareLine. unfold trim.
  assert (S : trimStart (marker l ++ String " " v) = marker l ++ String " " v)
    by (destruct (marker_shape l) as [m ->]; reflexivity).
  rewrite S.
  replace (marker l ++ String " " v) with ((marker l ++ " ") ++ v)
    by (rewrite append_assoc; reflexivity).
  rewrite trimEnd_app; rewrite He; [reflexivity | exact Hne].
Qed.

Lemma labelOf_marker (l : Label) (v : string) :
  all_chars (isnt star) v = true ->
  labelOf (marker l ++ String " " v) = Some l.
Proof.
  intros H.
  assert (A : forall p, includes (String "*" p) v = false)
    by (intros p; apply (includes_absent "*" p v H)).
  destruct l; unfold labelOf, marker;
    cbn [String.append includes startsWith Ascii.eqb Bool.eqb andb orb];
    rewrite ?A; reflexivity.
Qed.

Lemma removeFirst_prefix (p r : string) : removeFirst p (p ++ r) = r.
Proof.
  destruct p as [| c p]; [destruct r; reflexivity|].
  cbn [String.append removeFirst].
  change (String c (p ++ r)) with (String c p ++ r).
  rewrite startsWith_self. apply drop_app.
Qed.

Lemma parseLine_bareLine (d : ComplaintData) (l : Label) (v : string) :
  plainValue v -> parseLine d (bareLine (l, v)) = assign l v d.
Proof.
  intros P. unfold parseLine. rewrite (cleanLine_bareLine l v P).
  destruct P as (Hne & Ht & Hs & _).
  rewrite (labelOf_marker l v Hs), removeFirst_prefix.
  f_equal. unfold trim. cbn [trimStart].
  change (is_space " ") with true. cbv iota. exact Ht.
Qed.

(** The bullet is part of the format: on a line that starts with the
    marker itself, [/^\*\s*/] removes the first asterisk of the marker and
    the line sets nothing; an indented marker is read. *)
Lemma parseLine_without_bullet (d : ComplaintData) :
  parseLine d "**Report ID:** RPT-1042" = d
  /\ parseLine d "  **Report ID:** RPT-1042" = assign ReportId "RPT-1042" d.
Proof. split; reflexivity. Qed.

Lemma fold_parseLine (fs : list (Label * string)) (d : ComplaintData) :
  Forall (fun f => plainValue (snd f)) fs ->
  fold_left parseLine (map bareLine fs) d
  = fold_left (fun d f => assign (fst f) (snd f) d) fs d.
Proof.
  intros H. revert d. induction H as [| [l v] fs Hf _ IH]; intros d.
  - reflexivity.
  - cbn [map fold_left fst snd]. rewrite (parseLine_bareLine d l v Hf).
    apply IH.
Qed.

Lemma parseLine_starless (d : ComplaintData) (line : string) :
  all_chars (isnt star) line = true -> parseLine d line = d.
Proof.
  intros H. unfold parseLine.
  set (cleanLine := trim (stripBullet line)).
  assert (I : inside cleanLine line).
  { unfold cleanLine. eapply inside_trans; [apply trim_inside|].
    unfold stripBullet. destruct line as [| c rest]; [apply inside_refl|].
    destruct (Ascii.eqb c star); [|apply inside_refl].
    apply inside_cons, trimStart_inside. }
  pose proof (all_chars_inside _ _ _ I H) as C.
  assert (A : forall p, includes (String "*" p) cleanLine = false)
    by (intros p; apply (includes_absent "*" p cleanLine C)).
  unfold labelOf, marker. rewrite !A. reflexivity.
Qed.

Lemma fold_parseLine_starless (lines : list string) (d : ComplaintData) :
  Forall (fun line => all_chars (isnt star) line = true) lines ->
  fold_left parseLine lines d = d.
Proof.
  intros H. revert d. induction H as [| line lines Hl _ IH]; intros d.
  - reflexivity.
  - cbn [fold_left]. rewrite (parseLine_starless d line Hl). apply IH.
Qed.

Lemma linesOf_starless (t complaint : string) :
  inside t complaint -> all_chars (isnt star) complaint = true ->
  Forall (fun line => all_chars (isnt star) line = true)
         (filter (fun line => nonEmpty (trim line)) (splitChar LF t)).
Proof.
  intros I H. apply Forall_forall. intros line Hin.
  apply filter_In in Hin. destruct Hin as [Hin _].
  apply splitChar_inside in Hin.
  apply (all_chars_inside _ line complaint); [|exact H].
  eapply inside_trans; [exact Hin | exact I].
Qed.

Lemma parseComplaint_starless (complaint : string) :
  all_chars (isnt star) complaint = true -> parseComplaint complaint = noData.
Proof.
  intros H. unfold parseComplaint, linesOf.
  apply fold_parseLine_starless.
  apply (linesOf_starless (trim complaint) complaint);
    [apply trim_inside | exact H].
Qed.

Lemma splitChar_fieldLines (fs : list (Label * string)) (t : string) :
  Forall (fun f => all_chars (isnt LF) (snd f) = true) fs ->
  splitChar LF (fieldLines fs ++ t)
  = (map bareLine fs ++ splitChar LF t)%list.
Proof.
  induction 1 as [| f fs Hf _ IH]; [reflexivity|].
  rewrite fieldLines_cons. unfold fieldLine, NL.
  rewrite !append_assoc. cbn [String.append].
  rewrite splitChar_line by (apply bareLine_noLF, Hf).
  rewrite IH. reflexivity.
Qed.

Lemma bareLines_kept (fs : list (Label * string)) :
  filter (fun line => nonEmpty (trim line)) (map bareLine fs)
  = map bareLine fs.
Proof.
  apply forallb_filter_id.
  apply forallb_forall. intros x Hx.
  apply in_map_iff in Hx. destruct Hx as (g & <- & _).
  apply bareLine_not_blank.
Qed.

(** The body of a section, from the end of its heading to the next
    heading or to the end of the reply, parses into the labelled values it
    lists; text without asterisks after the last line adds nothing. *)
Lemma parseComplaint_section (fs : list (Label * string)) (outro : string) :
  Forall (fun f => plainValue (snd f)) fs ->
  all_chars (isnt star) outro = true ->
  parseComplaint (NL ++ fieldLines fs ++ outro) = dataOf fs.
Proof.
  intros H Ho.
  destruct H as [| f fs Hf Hfs].
  - apply parseComplaint_starless.
    cbn [fieldLines map String.concat String.append NL all_chars].
    rewrite Ho. reflexivity.
  - unfold parseComplaint, dataOf.
    rewrite <- (fold_parseLine (f :: fs) noData (Forall_cons f Hf Hfs)).
    unfold linesOf, trim. unfold NL at 1.
    cbn [String.append trimStart]. change (is_space LF) with true. cbv iota.
    assert (S : trimStart (fieldLines (f :: fs) ++ outro)
                = fieldLines (f :: fs) ++ outro).
    { rewrite fieldLines_cons. unfold fieldLine, bareLine.
      rewrite bullet_shape. reflexivity. }
    rewrite S.
    assert (L : Forall (fun f => all_chars (isnt LF) (snd f) = true) (f :: fs)).
    { apply Forall_cons.
      - apply Hf.
      - eapply Forall_impl; [|exact Hfs]. intros a Pa. apply Pa. }
    destruct (trimEnd outro) as [| c t] eqn:E.
    + rewrite (trimEnd_app_blank _ _ E), (fieldLines_trimEnd fs Hfs f Hf).
      inversion L as [| ? ? Lf Lfs]; subst.
      rewrite (splitChar_join fs Lfs f Lf), bareLines_kept. reflexivity.
    + rewrite trimEnd_app by (rewrite E; discriminate).
      rewrite (splitChar_fieldLines (f :: fs) _ L).
      rewrite filter_app, bareLines_kept, fold_left_app.
      apply fold_parseLine_starless.
      apply (linesOf_starless (trimEnd outro) outro);
        [apply trimEnd_inside | exact Ho].
Qed.





Lemma fieldLines_inside (f : Label * string) (fs : list (Label * string)) :
  In f fs -> inside (fieldLine f) (fieldLines fs).
Proof.
  induction fs as [| g gs IH]; intros H; [contradiction|].
  rewrite fieldLines_cons. destruct H as [-> | H].
  - apply inside_app_l, inside_refl.
  - apply inside_app_r, IH, H.
Qed.

Lemma fieldLines_reportId (fs : list (Label * string)) :
  In ReportId (map fst fs) -> includes "Report ID:" (fieldLines fs) = true.
Proof.
  intros H. apply in_map_iff in H. destruct H as ([l v] & Hl & Hin).
  cbn in Hl. subst l.
  apply (includes_inside _ _ _ (fieldLines_inside _ _ Hin)).
  reflexivity.
Qed.

End ParseFacts.

Section ListingFacts.
Import JsString Js ChatbotPage.

Lemma assign_cardOf (l : Label) (v : string) (d : ComplaintData) :
  v <> "" -> cardOf d = d -> cardOf (assign l v d) = assign l v d.
Proof.
  intros Hv Hd. destruct d as [r c p de s cr].
  unfold cardOf in Hd. cbn in Hd. injection Hd as Hr Hc Hp Hde Hs Hcr.
  destruct v as [| a v]; [contradiction|].
  destruct l; unfold cardOf; cbn; congruence.
Qed.

Lemma cardOf_dataOf (fs : list (Label * string)) :
  Forall (fun f => plainValue (snd f)) fs -> cardOf (dataOf fs) = dataOf fs.
Proof.
  intros H. unfold dataOf.
  assert (G : forall d, cardOf d = d ->
                cardOf (fold_left (fun d f => assign (fst f) (snd f) d) fs d)
                = fold_left (fun d f => assign (fst f) (snd f) d) fs d).
  { induction H as [| f fs Hf _ IH]; intros d Hd; [exact Hd|].
    cbn [fold_left]. apply IH, assign_cardOf; [apply Hf | exact Hd]. }
  apply G. reflexivity.
Qed.


Lemma plain_starless (fs : list (Label * string)) :
  Forall (fun f => plainValue (snd f)) fs ->
  Forall (fun f => all_chars (isnt star) (snd f) = true) fs.
Proof.
  intros H. eapply Forall_impl; [|exact H]. intros a Pa. apply Pa.
Qed.


End ListingFacts.




(** ** The application shell *)

Section ShellFacts.
Import App.

Variable Complaint : Type.

Lemma navItems_pages (n : nat) (item : string * string) :
  nth_error navItems n = Some item ->
  In (fst item) ["home"; "map"; "complaints"; "chatbot"; "resources"].
Proof.
  intros H. apply nth_error_In in H.
  apply (in_map fst) in H. exact H.
Qed.

Lemma step_known_tab (st : State Complaint) (e : Event Complaint) :
  In (activeTab st) (map fst navItems) ->
  In (activeTab (step st e)) (map fst navItems).
Proof.
  intros H. destruct e as [n | c |]; cbn [step].
  - destruct (nth_error navItems n) as [item|] eqn:E; [|exact H].
    exact (navItems_pages n item E).
  - destruct (offersComplaints (renderContent st)); exact H.
  - destruct (renderContent st); try exact H. left. reflexivity.
Qed.

Lemma run_known_tab (events : list (Event Complaint)) (st : State Complaint) :
  In (activeTab st) (map fst navItems) ->
  In (activeTab (run st events)) (map fst navItems).
Proof.
  revert st. induction events as [| e es IH]; intros st H; [exact H|].
  cbn [run fold_left]. apply IH. apply step_known_tab. exact H.
Qed.

Lemma known_tab_has_page (st : State Complaint) :
  In (activeTab st) (map fst navItems) -> renderContent st <> PageNotFound.
Proof.
  intros H. unfold renderContent.
  destruct (selectedComplaint st); [discriminate|].
  cbn in H.
  destruct H as [H | [H | [H | [H | [H | []]]]]]; rewrite <- H;
    discriminate.
Qed.

End ShellFacts.

(** X1. Whatever the operator does from the first render (navigation
    clicks, opening a complaint, going back), the shell never shows "Page
    not found".  A navigation click always leads to the page of the
    clicked item with no complaint selected, also from a details page;
    opening a complaint shows its details, and going back from there
    leads to the home page, whichever page the complaint was opened
    from. *)
Theorem shell_navigation :
  forall (Complaint : Type) (events : list (App.Event Complaint)),
    let st := App.run (App.initial Complaint) events in
    App.renderContent st <> App.PageNotFound
    /\ (forall n id label,
           nth_error App.navItems n = Some (id, label) ->
           let st' := App.step st (App.NavClick n) in
           App.selectedComplaint st' = None
           /\ App.renderContent st' = App.pageOf Complaint id
           /\ App.offersComplaints (App.pageOf Complaint id)
              = negb (id =? "chatbot") && negb (id =? "resources"))
    /\ (forall complaint,
           App.offersComplaints (App.renderContent st) = true ->
           let st' := App.step st (App.ComplaintClick complaint) in
           App.renderContent st' = App.Details complaint
           /\ App.renderContent (App.step st' App.Back) = App.HomePage).
Proof.
  intros Complaint events st.
  assert (K : In (App.activeTab st) (map fst App.navItems)).
  { apply run_known_tab. left. reflexivity. }
  split; [apply known_tab_has_page; exact K|]. split.
  - intros n id label H st'. subst st'. cbn [App.step]. rewrite H.
    split; [reflexivity|]. split; [reflexivity|].
    pose proof (navItems_pages n (id, label) H) as I. cbn in I.
    destruct I as [I | [I | [I | [I | [I | []]]]]]; rewrite <- I;
      reflexivity.
  - intros complaint H st'. subst st'. cbn [App.step]. rewrite H.
    split; reflexivity.
Qed.

(** The complaints tab, a complaint opened from the table, and back. *)
Lemma shell_navigation_witness :
  let st := App.run (App.initial nat) [App.NavClick 2] in
  App.offersComplaints (App.renderContent st) = true
  /\ App.renderContent st = App.ComplaintsPage
  /\ App.renderContent
       (App.step (App.step st (App.ComplaintClick 7)) App.Back)
     = App.HomePage.
Proof.
  intros st.
  assert (O : App.offersComplaints (App.renderContent st) = true)
    by reflexivity.
  split; [exact O|]. split; [reflexivity|].
  destruct (shell_navigation nat [App.NavClick 2]) as (_ & _ & B).
  exact (proj2 (B 7 O)).
Defined.

(** ** The rows of the table view *)

Section RowFacts.
Import JsString Js ComplaintRows.

Lemma take_length (n : nat) (s : string) :
  String.length (take n s) = Nat.min n (String.length s).
Proof.
  revert s. induction n as [| n IH]; intros s; [reflexivity|].
  destruct s as [| c s]; [reflexivity|]. cbn. now rewrite IH.
Qed.

Lemma take_drop (n : nat) (s : string) : take n s ++ drop n s = s.
Proof.
  revert s. induction n as [| n IH]; intros s; [reflexivity|].
  destruct s as [| c s]; [reflexivity|]. cbn. now rewrite IH.
Qed.

Lemma drop_length (n : nat) (s : string) :
  String.length (drop n s) = String.length s - n.
Proof.
  revert s. induction n as [| n IH]; intros s; cbn [drop]; [lia|].
  destruct s as [| c s]; [reflexivity|]. cbn. apply IH.
Qed.

Lemma splitWhere_plain (s : string) :
  all_chars plain s = true -> splitWhere isSeparator s = [s].
Proof.
  induction s as [| c s IH]; intros H; [reflexivity|].
  cbn [all_chars] in H. apply andb_true_iff in H. destruct H as [Hc Hs].
  cbn [splitWhere]. unfold plain in Hc. apply negb_true_iff in Hc.
  rewrite Hc, (IH Hs). reflexivity.
Qed.

Lemma splitWhere_last (s : string) :
  all_chars plain s = false ->
  exists front dir c name,
    splitWhere isSeparator s = (front ++ [name])%list /\ front <> []
    /\ s = dir ++ String c name /\ isSeparator c = true
    /\ all_chars plain name = true.
Proof.
  induction s as [| c s IH]; intros H; [discriminate|].
  cbn [splitWhere]. cbn [all_chars] in H.
  destruct (isSeparator c) eqn:Hc.
  - destruct (all_chars plain s) eqn:Hs.
    + exists [""], "", c, s. rewrite (splitWhere_plain s Hs).
      repeat split; try assumption. discriminate.
    + destruct (IH eq_refl) as (front & dir & c' & name & E & _ & S & C & P).
      exists ("" :: front), (String c dir), c', name. rewrite E, S.
      repeat split; try assumption. discriminate.
  - unfold plain at 1 in H. rewrite Hc in H. cbn in H.
    destruct (IH H) as (front & dir & c' & name & E & F & S & C & P).
    destruct front as [| f fs]; [contradiction|].
    exists ((String c "" ++ f) :: fs), (String c dir), c', name.
    rewrite E, S. repeat split; try assumption. discriminate.
Qed.

Lemma pop_last (front : list string) (name : string) :
  pop (front ++ [name]) = Some name.
Proof. unfold pop. rewrite rev_app_distr. reflexivity. Qed.

Lemma fileName_segment (path : string) :
  path <> "" ->
  (all_chars plain path = true /\ fileName (Some path) = Some path)
  \/ (exists dir c name,
         path = dir ++ String c name /\ isSeparator c = true
         /\ all_chars plain name = true
         /\ fileName (Some path) = Some name).
Proof.
  intros H. unfold fileName.
  assert (N : nonEmpty path = true) by (destruct path; [contradiction | reflexivity]).
  rewrite N. destruct (all_chars plain path) eqn:P.
  - left. split; [reflexivity|]. rewrite (splitWhere_plain path P).
    reflexivity.
  - right.
    destruct (splitWhere_last path P) as (front & dir & c & name & E & _ & S & C & Q).
    exists dir, c, name. rewrite E, pop_last. repeat split; assumption.
Qed.

Lemma fileName_facts (path : string) :
  path <> "" ->
  exists dir name,
    fileName (Some path) = Some name
    /\ path = dir ++ name
    /\ all_chars plain name = true
    /\ (dir = "" \/ exists d c, dir = d ++ String c "" /\ isSeparator c = true).
Proof.
  intros H.
  destruct (fileName_segment path H)
    as [[P E] | (dir & c & name & S & C & P & E)].
  - exists "", path. repeat split; try assumption. left. reflexivity.
  - exists (dir ++ String c ""), name. split; [exact E|].
    split; [rewrite append_assoc; exact S|]. split; [exact P|].
    right. exists dir, c. split; [reflexivity | exact C].
Qed.

Lemma app_last_unit (a n d : string) (b c : ascii) :
  a ++ String b n = d ++ String c "" ->
  exists n', String b n = n' ++ String c "".
Proof.
  revert d. induction a as [| x a IH]; intros d H.
  - exists d. exact H.
  - destruct d as [| y d].
    + cbn in H. injection H as _ H. destruct a; discriminate.
    + cbn in H. injection H as _ H. exact (IH d H).
Qed.

End RowFacts.

(** X2. The title of a table row is the description itself when that
    has at most 50 code units, and otherwise its first 50 code units
    followed by three dots: a title never has more than 53 code units,
    and a description of 51 or 52 code units gets a title longer than
    itself. *)
Theorem row_title_is_bounded :
  forall description : string,
    let title := ComplaintRows.titleOf description in
    (String.length title <= 53)%nat
    /\ ((String.length description <= 50)%nat -> title = description)
    /\ ((50 < String.length description)%nat ->
        exists cut rest,
          description = cut ++ rest /\ String.length cut = 50%nat
          /\ rest <> "" /\ title = cut ++ "..."
          /\ String.length title = 53%nat).
Proof.
  intros description title. subst title. unfold ComplaintRows.titleOf.
  destruct (50 <? String.length description)%nat eqn:E.
  - apply Nat.ltb_lt in E.
    assert (L : String.length (ComplaintRows.take 50 description) = 50%nat)
      by (rewrite take_length; lia).
    assert (T : String.length (ComplaintRows.take 50 description ++ "...")
                = 53%nat) by (rewrite length_append, L; reflexivity).
    split; [rewrite T; lia|]. split; [lia|].
    intros _.
    exists (ComplaintRows.take 50 description), (JsString.drop 50 description).
    split; [symmetry; apply take_drop|]. split; [exact L|].
    split; [|split; [reflexivity | exact T]].
    intros D. pose proof (drop_length 50 description) as G.
    rewrite D in G. cbn in G. lia.
  - apply Nat.ltb_ge in E. split; [lia|]. split; [reflexivity | lia].
Qed.

(** A description of 51 code units. *)
Lemma row_title_is_bounded_witness :
  let description := "Street light not working near the main market road." in
  (50 < String.length description)%nat
  /\ ComplaintRows.titleOf description
     = "Street light not working near the main market road...".
Proof.
  intros description.
  assert (L : (50 < String.length description)%nat) by (cbn; lia).
  split; [exact L|].
  destruct (row_title_is_bounded description) as (_ & _ & T).
  destruct (T L) as (cut & rest & _ & _ & _ & E & _).
  reflexivity.
Defined.

(** X3. The image file name of a table row is the part of the image
    path behind its last slash or backslash (the whole path when it has
    neither): it holds no separator itself, and it is empty when the path
    ends in a separator.  A report without an image path, or with an
    empty one, has no file name. *)
Theorem row_image_is_last_path_segment :
  forall path : string,
    ComplaintRows.fileName None = None
    /\ ComplaintRows.fileName (Some "") = None
    /\ (path <> "" ->
        exists dir name,
          ComplaintRows.fileName (Some path) = Some name
          /\ path = dir ++ name
          /\ JsString.all_chars
               ComplaintRows.plain name = true
          /\ (dir = ""
              \/ exists d c, dir = d ++ String c ""
                             /\ ComplaintRows.isSeparator c = true)).
Proof.
  intros path. split; [reflexivity|]. split; [reflexivity|].
  apply fileName_facts.
Qed.

(** A path as a Windows backend stores it. *)
Lemma row_image_is_last_path_segment_witness :
  "uploads\reports/photo_17.jpg" <> ""
  /\ ComplaintRows.fileName (Some "uploads\reports/photo_17.jpg")
     = Some "photo_17.jpg".
Proof.
  assert (N : "uploads\reports/photo_17.jpg" <> "") by discriminate.
  split; [exact N|].
  destruct (row_image_is_last_path_segment "uploads\reports/photo_17.jpg")
    as (_ & _ & S).
  destruct (S N) as (dir & name & E & _). reflexivity.
Defined.

(** X4. The details page of a complaint opened from the table shows an
    evidence image exactly when the report has an image path that is
    not empty and does not end in a slash or backslash; its address is
    the uploads directory of the local backend followed by the file
    name alone, so the directories of the stored path play no part. *)
Theorem evidence_image_of_row :
  forall report : ComplaintRows.Report,
    let shownImage :=
      ComplaintDetails.evidenceImage
        (ComplaintRows.imagePath (ComplaintRows.toComplaint report)) in
    (forall src, shownImage = Some src ->
       exists dir name,
         ComplaintRows.image_path report = Some (dir ++ name)
         /\ name <> ""
         /\ JsString.all_chars
              ComplaintRows.plain name = true
         /\ src = "http://localhost:8000/api/uploads/" ++ name)
    /\ (shownImage = None <->
        ComplaintRows.image_path report = None
        \/ ComplaintRows.image_path report = Some ""
        \/ exists dir c,
             ComplaintRows.image_path report = Some (dir ++ String c "")
             /\ ComplaintRows.isSeparator c = true).
Proof.
  intros report shownImage. subst shownImage.
  unfold ComplaintDetails.evidenceImage, ComplaintRows.toComplaint.
  cbn [ComplaintRows.imagePath].
  destruct (ComplaintRows.image_path report) as [path |].
  2:{ split; [discriminate|]. split; [tauto | reflexivity]. }
  destruct path as [| a p].
  { split; [discriminate|]. split; [tauto | reflexivity]. }
  assert (N : String a p <> "") by discriminate.
  destruct (fileName_facts (String a p) N) as (dir & name & E & S & P & D).
  rewrite E. destruct name as [| b name].
  - cbn [Js.nonEmpty String.eqb negb]. split; [discriminate|].
    split; [intros _ | reflexivity].
    right. right. rewrite append_empty_r in S.
    destruct D as [D | (d & c & D & C)].
    + rewrite D in S. discriminate.
    + exists d, c. rewrite S, D. split; [reflexivity | exact C].
  - cbn [Js.nonEmpty String.eqb negb]. split.
    + intros src H. injection H as <-.
      exists dir, (String b name). rewrite S.
      repeat split; try assumption. discriminate.
    + split; [discriminate|].
      intros [H | [H | (d & c & H & C)]]; try discriminate.
      exfalso. injection H as H. rewrite S in H.
      destruct (app_last_unit dir name d b c H) as (n' & G).
      rewrite G, all_chars_app in P. cbn [JsString.all_chars] in P.
      unfold ComplaintRows.plain at 2 in P. rewrite C in P.
      cbn in P. rewrite andb_false_r in P. discriminate.
Qed.

(** A report whose image is stored under a directory. *)
Lemma evidence_image_of_row_witness :
  let report :=
    {| ComplaintRows.report_id := "RPT-31";
       ComplaintRows.citizen_phone := "+910000000000";
       ComplaintRows.description := "Garbage not collected";
       ComplaintRows.image_path := Some "uploads/2024/RPT-31.jpg";
       ComplaintRows.category := "sanitation";
       ComplaintRows.priority := "high";
       ComplaintRows.status := "submitted";
       ComplaintRows.location_lat := Js.num_28_5;
       ComplaintRows.location_lon := Js.num_77_25;
       ComplaintRows.address_extracted := None;
       ComplaintRows.created_at := "2024-06-15" |} in
  ComplaintDetails.evidenceImage
    (ComplaintRows.imagePath (ComplaintRows.toComplaint report))
  = Some "http://localhost:8000/api/uploads/RPT-31.jpg".
Proof.
  intros report.
  destruct (evidence_image_of_row report) as [S _].
  destruct (S _ eq_refl) as (dir & name & _ & _ & _ & E).
  reflexivity.
Defined.

(** ** The gateway: what resolves and what is thrown *)

Section EnvelopeFacts.
Import JsString Js Api.

Variable backend : string -> FetchOutcome.

Lemma unwrapEnvelope_resolved (data payload : JsValue) :
  unwrapEnvelope data = Resolved payload
  <-> exists success,
        getProp data "success" = Some success /\ truthy success = true
        /\ payload = prop data "data".
Proof.
  unfold unwrapEnvelope.
  destruct (getProp data "success") as [success |] eqn:G.
  - destruct (truthy success) eqn:T; cbn [negb]; split.
    + intros H. injection H as <-. exists success. repeat split. exact T.
    + intros (s & Hs & _ & ->). reflexivity.
    + discriminate.
    + intros (s & Hs & Ht & _). injection Hs as <-. congruence.
  - split; [discriminate|]. intros (s & Hs & _). discriminate.
Qed.

Lemma unwrapEnvelope_rejected (data : JsValue) (e : Thrown) :
  unwrapEnvelope data = Rejected e -> exists m, e = ThrownError m.
Proof.
  unfold unwrapEnvelope.
  destruct (getProp data "success") as [success |].
  - destruct (truthy success); cbn [negb]; [discriminate|].
    intros H. injection H as <-. eauto.
  - intros H. injection H as <-. eauto.
Qed.

Lemma fetchWithErrorHandling_result (url : string) :
  result (fetchWithErrorHandling backend url)
  = match backend url with
    | NetworkError m => Rejected (ThrownError m)
    | HttpResponse status body =>
        if ok status then
          match body with
          | MalformedBody m => Rejected (ThrownError m)
          | JsonBody data => unwrapEnvelope data
          end
        else Rejected (ThrownError (MsgHttpStatus status))
    end.
Proof.
  unfold fetchWithErrorHandling, fetch.
  cbn [bind ret fst snd result requests].
  destruct (backend url) as [m | status body]; [reflexivity|].
  destruct (ok status); reflexivity.
Qed.

Lemma fetchWithErrorHandling_throws_errors (url : string) (e : Thrown) :
  result (fetchWithErrorHandling backend url) = Rejected e ->
  exists m, e = ThrownError m.
Proof.
  rewrite fetchWithErrorHandling_result.
  destruct (backend url) as [m | status body].
  - intros H. injection H as <-. eauto.
  - destruct (ok status).
    + destruct body as [data | m].
      * apply unwrapEnvelope_rejected.
      * intros H. injection H as <-. eauto.
    + intros H. injection H as <-. eauto.
Qed.

End EnvelopeFacts.

(** X5. A gateway request resolves exactly when the response has a 2xx
    status, its body parses, and the [success] property of the parsed
    body is truthy (any truthy value, not only [true]); it then resolves
    to the [data] property, which is [undefined] when the envelope has
    none.  In every other case it rejects, and always with an [Error]
    instance.  It sends one request, to the URL it is given. *)
Theorem gateway_resolves_on_truthy_success :
  forall (backend : string -> Api.FetchOutcome) (url : string),
    Api.requests (Api.fetchWithErrorHandling backend url) = [url]
    /\ (forall payload,
           Api.result (Api.fetchWithErrorHandling backend url)
           = Api.Resolved payload
           <-> exists status data success,
                 backend url = Api.HttpResponse status (Api.JsonBody data)
                 /\ (200 <= status <= 299)%Z
                 /\ Js.getProp data "success" = Some success
                 /\ Js.truthy success = true
                 /\ payload = Js.prop data "data")
    /\ (forall e,
           Api.result (Api.fetchWithErrorHandling backend url)
           = Api.Rejected e ->
           exists m, e = Api.ThrownError m).
Proof.
  intros backend url. split; [reflexivity|]. split.
  - intros payload. rewrite fetchWithErrorHandling_result.
    destruct (backend url) as [m | status body].
    + split; [discriminate|]. intros (s & d & x & H & _). discriminate.
    + assert (O : Api.ok status = true <-> (200 <= status <= 299)%Z).
      { unfold Api.ok. rewrite andb_true_iff, !Z.leb_le. tauto. }
      destruct (Api.ok status) eqn:K.
      * destruct body as [data | m].
        -- rewrite unwrapEnvelope_resolved. split.
           ++ intros (success & G & T & P).
              exists status, data, success.
              repeat split; try assumption; apply O; reflexivity.
           ++ intros (s & d & success & H & _ & G & T & P).
              injection H; intros; subst d s.
              exists success. repeat split; assumption.
        -- split; [discriminate|].
           intros (s & d & x & H & _). discriminate.
      * split; [discriminate|].
        intros (s & d & x & H & R & _). injection H; intros; subst s.
        apply O in R. discriminate.
  - apply fetchWithErrorHandling_throws_errors.
Qed.

(** An envelope whose [success] is the string "false" and that carries
    no [data]: the request resolves, to [undefined]. *)
Lemma gateway_resolves_on_truthy_success_witness :
  let envelope := Js.JsObject [("success", Js.JsString "false")] in
  let backend := fun _ : string => Api.HttpResponse 200 (Api.JsonBody envelope) in
  Api.result (Api.fetchWithErrorHandling backend "http://localhost:8000/api/reports")
  = Api.Resolved Js.JsUndefined.
Proof.
  intros envelope backend.
  destruct (gateway_resolves_on_truthy_success backend
              "http://localhost:8000/api/reports") as (_ & R & _).
  apply R. exists 200%Z, envelope, (Js.JsString "false").
  repeat split; try reflexivity; lia.
Defined.

(** ** The fetch-state hooks *)

(** X6. A fetch of [useReports] or [useReportStats] sends one request
    and ends with [loading] false, whatever the state was.  When the
    gateway resolves, the payload replaces the data and the error is
    cleared, so an error of an earlier fetch does not outlive a
    successful refetch.  When it rejects, the stored error is the
    message of the thrown error (for a status outside 2xx the text built
    from the status): the fallback texts of the hooks are never
    stored. *)
Theorem hook_fetch_outcomes :
  forall (env : option string) (backend : string -> Api.FetchOutcome),
    (forall st,
        let run := useReports.fetchReports env backend st in
        Api.requests run = [Api.API_BASE_URL env ++ "/reports"]
        /\ useReports.loading (Api.result run) = false
        /\ (forall payload,
               Api.result (Api.getAllReports env backend)
               = Api.Resolved payload ->
               useReports.reports (Api.result run) = payload
               /\ useReports.error (Api.result run) = None)
        /\ (forall e,
               Api.result (Api.getAllReports env backend) = Api.Rejected e ->
               exists m, e = Api.ThrownError m
                         /\ useReports.error (Api.result run) = Some m)
        /\ (forall status body,
               backend (Api.API_BASE_URL env ++ "/reports")
               = Api.HttpResponse status body ->
               Api.ok status = false ->
               useReports.error (Api.result run)
               = Some (Api.MsgHttpStatus status)))
    /\ (forall st,
           let run := useReportStats.fetchStats env backend st in
           Api.requests run = [Api.API_BASE_URL env ++ "/reports/stats"]
           /\ useReportStats.loading (Api.result run) = false
           /\ (forall payload,
                  Api.result (Api.getReportStats env backend)
                  = Api.Resolved payload ->
                  useReportStats.stats (Api.result run) = payload
                  /\ useReportStats.error (Api.result run) = None)
           /\ (forall e,
                  Api.result (Api.getReportStats env backend)
                  = Api.Rejected e ->
                  exists m, e = Api.ThrownError m
                            /\ useReportStats.error (Api.result run) = Some m)
           /\ (forall status body,
                  backend (Api.API_BASE_URL env ++ "/reports/stats")
                  = Api.HttpResponse status body ->
                  Api.ok status = false ->
                  useReportStats.error (Api.result run)
                  = Some (Api.MsgHttpStatus status))).
Proof.
  intros env backend. split; intros st run; subst run.
  - unfold useReports.fetchReports.
    split; [reflexivity|]. split; [reflexivity|].
    cbv zeta. rewrite !result_bind, !result_ret.
    split; [|split].
    + intros payload H. rewrite H. split; reflexivity.
    + intros e H. rewrite H.
      destruct (fetchWithErrorHandling_throws_errors backend _ e H) as [m ->].
      exists m. split; reflexivity.
    + intros status body B K.
      unfold Api.getAllReports. rewrite fetchWithErrorHandling_result, B, K.
      reflexivity.
  - unfold useReportStats.fetchStats.
    split; [reflexivity|]. split; [reflexivity|].
    cbv zeta. rewrite !result_bind, !result_ret.
    split; [|split].
    + intros payload H. rewrite H. split; reflexivity.
    + intros e H. rewrite H.
      destruct (fetchWithErrorHandling_throws_errors backend _ e H) as [m ->].
      exists m. split; reflexivity.
    + intros status body B K.
      unfold Api.getReportStats. rewrite fetchWithErrorHandling_result, B, K.
      reflexivity.
Qed.

(** A fetch that fails with status 503, then a refetch that succeeds. *)
Lemma hook_fetch_outcomes_witness :
  let failing := fun _ : string =>
                   Api.HttpResponse 503 (Api.JsonBody Js.JsNull) in
  let serving := fun _ : string => Properties.serves (Js.JsArray []) in
  let st1 := Api.result (useReports.fetchReports None failing
                           useReports.initial) in
  let st2 := Api.result (useReports.fetchReports None serving st1) in
  useReports.error st1 = Some (Api.MsgHttpStatus 503)
  /\ useReports.error st2 = None.
Proof.
  intros failing serving st1 st2.
  destruct (hook_fetch_outcomes None failing) as [F _].
  destruct (F useReports.initial) as (_ & _ & _ & _ & E).
  destruct (hook_fetch_outcomes None serving) as [S _].
  destruct (S st1) as (_ & _ & R & _).
  split.
  - exact (E 503%Z (Api.JsonBody Js.JsNull) eq_refl eq_refl).
  - exact (proj2 (R (Js.JsArray []) eq_refl)).
Defined.

(** ** The address of the health endpoint *)

Section HealthFacts.
Import JsString Js Api.

Lemma startsWith_app_long (p o r : string) :
  (String.length p <= String.length o)%nat ->
  startsWith p (o ++ r) = startsWith p o.
Proof.
  revert o. induction p as [| a p IH]; intros o H; [reflexivity|].
  destruct o as [| b o]; [cbn in H; lia|].
  cbn [String.append startsWith]. rewrite IH; [reflexivity|].
  cbn in H. lia.
Qed.

Lemma startsWith_length (p s : string) :
  startsWith p s = true -> (String.length p <= String.length s)%nat.
Proof.
  revert s. induction p as [| a p IH]; intros s H; [cbn; lia|].
  destruct s as [| b s]; [discriminate|].
  cbn [startsWith] in H. apply andb_true_iff in H.
  cbn. apply le_n_S. apply IH. apply H.
Qed.

Lemma includes_length (p s : string) :
  includes p s = true -> (String.length p <= String.length s)%nat.
Proof.
  induction s as [| c s IH]; intros H; rewrite includes_unfold in H.
  - rewrite orb_false_r in H. exact (startsWith_length p "" H).
  - apply orb_true_iff in H. destruct H as [H | H].
    + exact (startsWith_length p _ H).
    + specialize (IH H). cbn. lia.
Qed.

Lemma drop_app_long (n : nat) (o r : string) :
  (n <= String.length o)%nat -> drop n (o ++ r) = drop n o ++ r.
Proof.
  revert o. induction n as [| n IH]; intros o H; [reflexivity|].
  destruct o as [| c o]; [cbn in H; lia|].
  cbn [String.append drop]. apply IH. cbn in H. lia.
Qed.

(** The text behind the first occurrence of the pattern stays as it
    is. *)
Lemma removeFirst_app (p o r : string) :
  includes p o = true -> removeFirst p (o ++ r) = removeFirst p o ++ r.
Proof.
  induction o as [| c o IH]; intros H.
  - rewrite includes_unfold, orb_false_r in H.
    destruct p; [destruct r; reflexivity | discriminate].
  - pose proof (includes_length p _ H) as L.
    change (removeFirst p (String c o ++ r))
      with (if startsWith p (String c o ++ r)
            then drop (String.length p) (String c o ++ r)
            else String c (removeFirst p (o ++ r))).
    change (removeFirst p (String c o))
      with (if startsWith p (String c o)
            then drop (String.length p) (String c o)
            else String c (removeFirst p o)).
    rewrite (startsWith_app_long p (String c o) r L).
    destruct (startsWith p (String c o)) eqn:S.
    + apply drop_app_long. exact L.
    + rewrite includes_unfold, S in H. cbn [orb] in H.
      rewrite (IH H). reflexivity.
Qed.

Lemma removeFirst_absent (p s : string) :
  includes p s = false -> removeFirst p s = s.
Proof.
  induction s as [| c s IH]; intros H; rewrite includes_unfold in H;
    apply orb_false_iff in H; destruct H as [S H].
  - destruct p; [discriminate | reflexivity].
  - change (removeFirst p (String c s))
      with (if startsWith p (String c s)
            then drop (String.length p) (String c s)
            else String c (removeFirst p s)).
    rewrite S, (IH H). reflexivity.
Qed.

(** No occurrence of [/api] starts in a text without one and runs into a
    following slash. *)
Lemma startsWith_api_straddle (c : ascii) (o r : string) :
  startsWith "/api" (String c o) = false ->
  startsWith "/api" (String c o ++ String "/" r) = false.
Proof.
  intros H. cbn [String.append startsWith] in *.
  destruct (Ascii.eqb "/" c); [|reflexivity]. cbn [andb] in *.
  destruct o as [| c2 o]; [reflexivity|]. cbn [String.append] in *.
  destruct (Ascii.eqb "a" c2); [|reflexivity]. cbn [andb] in *.
  destruct o as [| c3 o]; [reflexivity|]. cbn [String.append] in *.
  destruct (Ascii.eqb "p" c3); [|reflexivity]. cbn [andb] in *.
  destruct o as [| c4 o]; [reflexivity|]. cbn [String.append] in *.
  exact H.
Qed.

Lemma removeFirst_api (o r : string) :
  includes "/api" o = false -> removeFirst "/api" (o ++ "/api" ++ r) = o ++ r.
Proof.
  induction o as [| c o IH]; intros H.
  - reflexivity.
  - rewrite includes_unfold in H. apply orb_false_iff in H.
    destruct H as [S H].
    change (removeFirst "/api" (String c o ++ "/api" ++ r))
      with (if startsWith "/api" (String c o ++ String "/" ("api" ++ r))
            then drop 4 (String c o ++ "/api" ++ r)
            else String c (removeFirst "/api" (o ++ "/api" ++ r))).
    rewrite (startsWith_api_straddle c o _ S), (IH H). reflexivity.
Qed.

End HealthFacts.

(** X7. The health endpoint is probed at the configured base address
    with its first [/api] removed and [/health] added: for a base of
    the form origin, [/api], rest, where the origin holds no [/api], the
    address is the origin, the rest and [/health]; a base without any
    [/api] just gets [/health] added.  Only the first occurrence goes, so
    an [/api] inside the origin is removed in place of the path
    prefix. *)
Theorem health_address_drops_first_api :
  forall (env : option string),
    (forall origin rest,
        Api.API_BASE_URL env = origin ++ "/api" ++ rest ->
        JsString.includes "/api" origin = false ->
        Api.healthUrl env = origin ++ rest ++ "/health")
    /\ (JsString.includes "/api" (Api.API_BASE_URL env) = false ->
        Api.healthUrl env = Api.API_BASE_URL env ++ "/health")
    /\ (forall origin,
           Api.API_BASE_URL env = origin ++ "/api" ->
           JsString.includes "/api" origin = true ->
           Api.healthUrl env
           = JsString.removeFirst "/api" origin ++ "/api/health").
Proof.
  intros env. unfold Api.healthUrl. split; [|split].
  - intros origin rest E H. rewrite E, (removeFirst_api origin rest H).
    apply append_assoc.
  - intros H. rewrite (removeFirst_absent _ _ H). reflexivity.
  - intros origin E H. rewrite E, (removeFirst_app "/api" origin "/api" H).
    apply append_assoc.
Qed.

(** The default base, and a base whose host name holds [/api]. *)
Lemma health_address_drops_first_api_witness :
  Api.healthUrl None = "http://localhost:8000/health"
  /\ Api.healthUrl (Some "http://10.0.0.5/api-gateway/api")
     = "http://10.0.0.5-gateway/api/health".
Proof.
  split.
  - destruct (health_address_drops_first_api None) as (A & _).
    exact (A "http://localhost:8000" "" eq_refl eq_refl).
  - destruct (health_address_drops_first_api
                (Some "http://10.0.0.5/api-gateway/api")) as (_ & _ & C).
    exact (C "http://10.0.0.5/api-gateway" eq_refl eq_refl).
Defined.

(** ** [useBackendConnection] *)

Section ConnectionFacts.
Import JsString Js Api useBackendConnection.

Variable env : option string.

Lemma hook_checkConnection (backend : string -> FetchOutcome) (st : State) :
  requests (checkConnection env backend st) = [healthUrl env]
  /\ result (checkConnection env backend st)
     = {| isConnected := answersHealth env backend; checking := false |}.
Proof.
  split; [reflexivity|].
  unfold checkConnection. cbv zeta. rewrite !result_bind, !result_ret.
  rewrite checkConnection_result. reflexivity.
Qed.

Lemma checks_app (st : State) (a b : list (string -> FetchOutcome)) :
  requests (checks env st (a ++ b))
  = (requests (checks env st a)
     ++ requests (checks env (result (checks env st a)) b))%list
  /\ result (checks env st (a ++ b))
     = result (checks env (result (checks env st a)) b).
Proof.
  revert st. induction a as [| x a IH]; intros st.
  - split; reflexivity.
  - cbn [List.app checks]. rewrite !requests_bind, !result_bind.
    destruct (IH (result (checkConnection env x st))) as [R S].
    rewrite R, S, app_assoc. split; reflexivity.
Qed.

Lemma checks_requests (st : State) (a : list (string -> FetchOutcome)) :
  requests (checks env st a) = repeat (healthUrl env) (List.length a).
Proof.
  revert st. induction a as [| x a IH]; intros st; [reflexivity|].
  cbn [checks]. rewrite requests_bind, IH. reflexivity.
Qed.

End ConnectionFacts.

(** ** The query string identifies the selection *)

Section UrlFacts.
Import JsString Js Api JharkhandHeatmap Properties QueryText.

Lemma decodeOne_encodeOne (c : ascii) (r : string) :
  decodeOne (encodeOne c ++ r) = Some (c, r).
Proof.
  destruct c as [[] [] [] [] [] [] [] []]; vm_compute; reflexivity.
Qed.

Lemma urlencode_cons (c : ascii) (s : string) :
  urlencode (String c s) = encodeOne c ++ urlencode s.
Proof. reflexivity. Qed.

Lemma urlencode_injective (s t : string) :
  urlencode s = urlencode t -> s = t.
Proof.
  revert t. induction s as [| c s IH]; intros [| d t] H.
  - reflexivity.
  - apply (f_equal decodeOne) in H.
    rewrite urlencode_cons, decodeOne_encodeOne in H. discriminate.
  - apply (f_equal decodeOne) in H.
    rewrite urlencode_cons, decodeOne_encodeOne in H. discriminate.
  - apply (f_equal decodeOne) in H.
    rewrite !urlencode_cons, !decodeOne_encodeOne in H.
    injection H as -> H. now rewrite (IH t H).
Qed.

Lemma encodeOne_no_amp (c : ascii) :
  all_chars (isnt "&") (encodeOne c) = true.
Proof.
  destruct c as [[] [] [] [] [] [] [] []]; vm_compute; reflexivity.
Qed.

Lemma urlencode_no_amp (v : string) :
  all_chars (isnt "&") (urlencode v) = true.
Proof.
  induction v as [| c v IH]; [reflexivity|].
  rewrite urlencode_cons, all_chars_app, encodeOne_no_amp, IH. reflexivity.
Qed.

Lemma encodePair_no_amp (kv : string * string) :
  all_chars (isnt "&") (encodePair kv) = true.
Proof.
  unfold encodePair. rewrite !all_chars_app, !urlencode_no_amp. reflexivity.
Qed.

Lemma encodePair_split (kv : string * string) :
  splitChar "=" (encodePair kv) = [urlencode (fst kv); urlencode (snd kv)].
Proof.
  unfold encodePair.
  change (urlencode (fst kv) ++ "=" ++ urlencode (snd kv))
    with (urlencode (fst kv) ++ String "=" (urlencode (snd kv))).
  rewrite splitChar_line by apply urlencode_no_equals.
  rewrite splitChar_last by apply urlencode_no_equals. reflexivity.
Qed.

Lemma encodePair_injective (p q : string * string) :
  encodePair p = encodePair q -> p = q.
Proof.
  intros H. apply (f_equal (splitChar "=")) in H.
  rewrite !encodePair_split in H. injection H as K V.
  apply urlencode_injective in K, V.
  destruct p, q; cbn in *; congruence.
Qed.

(** Splitting the text of the parameters at [&] gives back the encoded
    pairs: no value adds or hides a parameter. *)
Lemma toString_split (p : string * string) (ps : URLSearchParams) :
  splitChar "&" (toString (p :: ps)) = map encodePair (p :: ps).
Proof.
  revert p. induction ps as [| q qs IH]; intros p.
  - cbn [toString map join]. apply splitChar_last, encodePair_no_amp.
  - change (toString (p :: q :: qs))
      with (encodePair p ++ String "&" (toString (q :: qs))).
    rewrite splitChar_line by apply encodePair_no_amp.
    rewrite IH. reflexivity.
Qed.

Lemma map_encodePair_injective (ps qs : URLSearchParams) :
  map encodePair ps = map encodePair qs -> ps = qs.
Proof.
  revert qs. induction ps as [| p ps IH]; intros [| q qs] H;
    try discriminate; [reflexivity|].
  cbn [map] in H. injection H as P R.
  now rewrite (encodePair_injective p q P), (IH qs R).
Qed.

Lemma queryString_cons (p : string * string) (ps : URLSearchParams) :
  queryString (p :: ps) = String "?" (toString (p :: ps)).
Proof. unfold queryString. rewrite toString_cons_nonEmpty. reflexivity. Qed.

Lemma queryString_injective (ps qs : URLSearchParams) :
  queryString ps = queryString qs -> ps = qs.
Proof.
  destruct ps as [| p ps], qs as [| q qs]; rewrite ?queryString_cons;
    intros H; try reflexivity; try discriminate H.
  injection H as H. apply (f_equal (splitChar "&")) in H.
  rewrite !toString_split in H. exact (map_encodePair_injective _ _ H).
Qed.

Lemma append_cancel (a b c : string) : a ++ b = a ++ c -> b = c.
Proof.
  induction a as [| x a IH]; intros H; [exact H|].
  cbn in H. injection H as H. exact (IH H).
Qed.

Lemma locationUrl_injective (env : option string) (f g : option Filters) :
  locationUrl env f = locationUrl env g -> locationParams f = locationParams g.
Proof.
  unfold locationUrl. intros H.
  apply append_cancel, append_cancel in H.
  exact (queryString_injective _ _ H).
Qed.

Lemma activeDimensions_selection (a b : State) :
  activeDimensions a = activeDimensions b ->
  selectedCategory a = selectedCategory b
  /\ selectedPriority a = selectedPriority b
  /\ selectedDepartment a = selectedDepartment b
  /\ selectedStatus a = selectedStatus b.
Proof.
  destruct a as [l1 lo1 co1 fo1 c1 p1 d1 s1].
  destruct b as [l2 lo2 co2 fo2 c2 p2 d2 s2].
  unfold activeDimensions, dimensions.
  cbn [selectedCategory selectedPriority selectedDepartment selectedStatus].
  destruct c1, p1, d1, s1, c2, p2, d2, s2;
    cbn [filter nonEmpty snd String.eqb negb];
    intros H; try discriminate H;
    repeat split; try reflexivity; congruence.
Qed.

End UrlFacts.

(** X8. The by-location address identifies the filter selection: two
    calls of [getReportsByLocation] request the same address exactly when
    they build the same parameters, and two renders of the heatmap do so
    exactly when their four selections are equal.  Whatever code units a
    selected value holds (also [&], [=], [%], [+] or a space), it is never
    confused with another selection. *)
Theorem location_address_identifies_selection :
  forall (env : option string),
    (forall f g : option Api.Filters,
        Api.locationUrl env f = Api.locationUrl env g
        <-> Api.locationParams f = Api.locationParams g)
    /\ (forall a b : JharkhandHeatmap.State,
           Api.locationUrl env
             (JharkhandHeatmap.filtersArgument
                (JharkhandHeatmap.buildFilters a true))
           = Api.locationUrl env
               (JharkhandHeatmap.filtersArgument
                  (JharkhandHeatmap.buildFilters b true))
           <-> JharkhandHeatmap.selectedCategory a
               = JharkhandHeatmap.selectedCategory b
               /\ JharkhandHeatmap.selectedPriority a
                  = JharkhandHeatmap.selectedPriority b
               /\ JharkhandHeatmap.selectedDepartment a
                  = JharkhandHeatmap.selectedDepartment b
               /\ JharkhandHeatmap.selectedStatus a
                  = JharkhandHeatmap.selectedStatus b).
Proof.
  intros env. split.
  - intros f g. split; [apply locationUrl_injective|].
    intros H. unfold Api.locationUrl. now rewrite H.
  - intros a b. split.
    + intros H. apply locationUrl_injective in H.
      rewrite !locationParams_active in H.
      exact (activeDimensions_selection a b H).
    + intros (C & P & D & S). unfold Api.locationUrl.
      rewrite !locationParams_active.
      unfold Properties.activeDimensions, Properties.dimensions.
      now rewrite C, P, D, S.
Qed.

(** A category that holds [&status=resolved] and the selection of that
    status: two addresses. *)
Lemma location_address_identifies_selection_witness :
  let a := Properties.firstRenderWith "roads&status=resolved" "" "" "" in
  let b := Properties.firstRenderWith "roads" "" "" "resolved" in
  Api.locationUrl None
    (JharkhandHeatmap.filtersArgument (JharkhandHeatmap.buildFilters a true))
  <> Api.locationUrl None
       (JharkhandHeatmap.filtersArgument (JharkhandHeatmap.buildFilters b true)).
Proof.
  intros a b H.
  destruct (location_address_identifies_selection None) as [_ S].
  apply S in H. destruct H as [C _]. discriminate C.
Defined.

(** X9. The connection hook shows the outcome of its latest probe
    alone: after the mount check and any number of interval checks,
    [isConnected] is true exactly when the health endpoint answered the
    last of them with a 2xx status, [checking] is false, and each check
    has sent one request, to the health address. *)
Theorem connection_hook_follows_last_probe :
  forall (env : option string) (st : useBackendConnection.State)
         (earlier : list (string -> Api.FetchOutcome))
         (latest : string -> Api.FetchOutcome),
    let run := useBackendConnection.checks env st (earlier ++ [latest]) in
    Api.requests run
    = repeat (Api.healthUrl env) (List.length earlier + 1)
    /\ useBackendConnection.checking (Api.result run) = false
    /\ (useBackendConnection.isConnected (Api.result run) = true
        <-> exists status body,
              latest (Api.healthUrl env) = Api.HttpResponse status body
              /\ (200 <= status <= 299)%Z).
Proof.
  intros env st earlier latest run. subst run.
  rewrite checks_requests, length_app. split; [reflexivity|].
  destruct (checks_app env st earlier [latest]) as [_ R]. rewrite R.
  cbn [useBackendConnection.checks]. rewrite result_bind, result_ret.
  destruct (hook_checkConnection env latest
              (Api.result (useBackendConnection.checks env st earlier)))
    as [_ E].
  rewrite E. cbn [useBackendConnection.checking
                    useBackendConnection.isConnected].
  split; [reflexivity|].
  unfold useBackendConnection.answersHealth.
  destruct (latest (Api.healthUrl env)) as [m | status body].
  - split; [discriminate|]. intros (s & b & H & _). discriminate.
  - unfold Api.ok. rewrite andb_true_iff, !Z.leb_le. split.
    + intros H. exists status, body. split; [reflexivity | lia].
    + intros (s & b & H & K). injection H; intros; subst. lia.
Qed.

(** The backend is down at mount and up at the first interval check. *)
Lemma connection_hook_follows_last_probe_witness :
  let down := fun _ : string => Properties.down in
  let up := fun _ : string => Properties.up in
  useBackendConnection.isConnected
    (Api.result (useBackendConnection.checks None
                   useBackendConnection.initial [down; up]))
  = true.
Proof.
  intros down up.
  destruct (connection_hook_follows_last_probe None
              useBackendConnection.initial [down] up) as (_ & _ & C).
  apply C. exists 200%Z, (Api.JsonBody Js.JsNull).
  split; [reflexivity | lia].
Defined.

(** ** The heatmap view: filter options, filter controls, the interval *)

Section FilterBarFacts.
Import JsString Js Api JharkhandHeatmap Properties HeatmapBar.

Variable env : option string.

(** A run of [loadReportLocations] leaves the four selections of the
    component as they are. *)
Lemma loadReportLocations_selection (backend : string -> FetchOutcome)
  (render st : State) (apply : bool) :
  let st' := result (loadReportLocations env backend render apply st) in
  selectedCategory st' = selectedCategory st
  /\ selectedPriority st' = selectedPriority st
  /\ selectedDepartment st' = selectedDepartment st
  /\ selectedStatus st' = selectedStatus st.
Proof.
  unfold loadReportLocations, loadReportLocations_try.
  cbn [bind ret fst snd result requests].
  destruct (result (checkConnection env backend)) as [[|] | e];
    cbn [bind ret fst snd result requests]; try (repeat split; reflexivity).
  destruct (result (getReportsByLocation env backend
                      (filtersArgument (buildFilters render apply))))
    as [items | e]; cbn [bind ret fst snd result requests];
    destruct (negb (truthy (filterOptions render)));
    cbn [bind ret fst snd result requests];
    try destruct (result (getFilterOptions env backend));
    try destruct (0 <? Datatypes.length items)%nat;
    try destruct (filterThrowing validLocation items);
    repeat split; reflexivity.
Qed.

(** The filter options after a run against a reachable backend. *)
Lemma loadReportLocations_options (backend : string -> FetchOutcome)
  (render st : State) (apply : bool) :
  healthy env backend ->
  filterOptions (result (loadReportLocations env backend render apply st))
  = if truthy (filterOptions render) then filterOptions st
    else match result (getFilterOptions env backend) with
         | Resolved options => options
         | Rejected _ => filterOptions st
         end.
Proof.
  intros H. pose proof (checkConnection_healthy env backend H) as Hc.
  unfold loadReportLocations, loadReportLocations_try.
  cbn [bind ret fst snd result requests]. rewrite Hc.
  cbn [bind ret fst snd result requests].
  destruct (result (getReportsByLocation env backend
                      (filtersArgument (buildFilters render apply))))
    as [items | e]; cbn [bind ret fst snd result requests];
    destruct (truthy (filterOptions render)); cbn [negb];
    cbn [bind ret fst snd result requests];
    try destruct (result (getFilterOptions env backend));
    try destruct (0 <? Datatypes.length items)%nat;
    try destruct (filterThrowing validLocation items);
    reflexivity.
Qed.

Lemma selection_same (e : Event) (st st' : State) :
  selection e st = Some st' ->
  (sameSelection st st' = true <-> st' = st).
Proof.
  destruct st as [l lo co fo c p d s].
  destruct e; cbn; intros H; try discriminate H; injection H as <-;
    unfold sameSelection; cbn;
    rewrite !andb_true_iff, !String.eqb_eq;
    (split; [intros (((A & B) & C) & D); subst; reflexivity
            | intros H; injection H; intros; subst; tauto]).
Qed.

Lemma handle_selection (backend : string -> FetchOutcome) (i : Instance)
  (e : Event) (st' : State) :
  selection e (current i) = Some st' ->
  handle env i (backend, e)
  = bind (filterEffect env backend (current i) st')
         (fun s => ret {| firstRender := firstRender i; current := s |}).
Proof.
  destruct e; cbn [selection]; intros H; try discriminate H;
    injection H as <-; reflexivity.
Qed.

Lemma handle_firstRender (i : Instance)
  (be : (string -> FetchOutcome) * Event) :
  firstRender (result (handle env i be)) = firstRender i.
Proof. reflexivity. Qed.

Lemma run_firstRender (events : list ((string -> FetchOutcome) * Event))
  (i : Instance) :
  firstRender (result (run env i events)) = firstRender i.
Proof.
  revert i. induction events as [| e es IH]; intros i; [reflexivity|].
  cbn [run]. rewrite result_bind, IH. apply handle_firstRender.
Qed.

End FilterBarFacts.

(** X10. Against a reachable backend, [loadReportLocations] requests
    the filter options only when its render holds none.  A render that
    has them sends the health probe and the by-location request alone
    and leaves the options as they are.  A failed options request is not
    fatal: the options stay as they were and the by-location request is
    still sent and its answer stored. *)
Theorem filter_options_are_loaded_when_missing :
  forall (env : option string) (backend : string -> Api.FetchOutcome)
         (render st : JharkhandHeatmap.State) (apply : bool),
    Properties.healthy env backend ->
    let run :=
      JharkhandHeatmap.loadReportLocations env backend render apply st in
    let filters :=
      JharkhandHeatmap.filtersArgument
        (JharkhandHeatmap.buildFilters render apply) in
    (Js.truthy (JharkhandHeatmap.filterOptions render) = true ->
     Api.requests run = [Api.healthUrl env; Api.locationUrl env filters]
     /\ JharkhandHeatmap.filterOptions (Api.result run)
        = JharkhandHeatmap.filterOptions st)
    /\ (Js.truthy (JharkhandHeatmap.filterOptions render) = false ->
        Api.requests run
        = [Api.healthUrl env; Api.API_BASE_URL env ++ "/filter-options";
           Api.locationUrl env filters]
        /\ (forall options,
               Api.result (Api.getFilterOptions env backend)
               = Api.Resolved options ->
               JharkhandHeatmap.filterOptions (Api.result run) = options)
        /\ (forall e,
               Api.result (Api.getFilterOptions env backend)
               = Api.Rejected e ->
               JharkhandHeatmap.filterOptions (Api.result run)
               = JharkhandHeatmap.filterOptions st
               /\ exists items,
                    Api.result (Api.getReportsByLocation env backend filters)
                    = Api.Resolved items
                    /\ JharkhandHeatmap.locations (Api.result run)
                       = Properties.kept items)).
Proof.
  intros env backend render st apply H run filters. subst run filters.
  destruct (loadReportLocations_connected env backend render st apply H)
    as (R & items & Hi & Hl & _).
  pose proof (loadReportLocations_options env backend render st apply H) as O.
  unfold Properties.filterOptionsRequest in R.
  split; intros T; rewrite T in R, O.
  - split; [exact R | exact O].
  - split; [exact R|]. split.
    + intros options G. rewrite G in O. exact O.
    + intros e G. rewrite G in O. split; [exact O|].
      exists items. split; assumption.
Qed.

(** The first load of a view: the options request fails, the location
    is still shown. *)
Lemma filter_options_are_loaded_when_missing_witness :
  let backend := fun url : string =>
    if url =? "http://localhost:8000/api/filter-options"
    then Properties.down
    else Properties.serves (Js.JsArray [Properties.pin]) in
  let run :=
    JharkhandHeatmap.loadReportLocations None backend
      JharkhandHeatmap.initial false JharkhandHeatmap.initial in
  Properties.healthy None backend
  /\ JharkhandHeatmap.filterOptions (Api.result run) = Js.JsNull
  /\ JharkhandHeatmap.locations (Api.result run) = [Properties.pin].
Proof.
  intros backend run.
  assert (H : Properties.healthy None backend).
  { exists 200%Z, (Api.JsonBody
                     (Properties.successEnvelope (Js.JsArray [Properties.pin]))).
    split; reflexivity. }
  split; [exact H|].
  destruct (filter_options_are_loaded_when_missing None backend
              JharkhandHeatmap.initial JharkhandHeatmap.initial false H)
    as [_ F].
  destruct (F eq_refl) as (_ & _ & G).
  destruct (G (Api.ThrownError (Api.MsgEngine "Failed to fetch")) eq_refl)
    as (O & items & Hi & Hl).
  split; [exact O|]. reflexivity.
Defined.

(** X11. A change of the filter controls (one of the four selects, or
    "Clear All Filters") refetches only when it changes the selection
    and the view is connected.  A change that leaves the four selections
    as they are sends nothing and changes nothing; a change while the
    view is disconnected is recorded and sends nothing, not even a
    health probe; a change while connected runs the fetch of the new
    render, which against a reachable backend asks for the new selection
    and keeps it. *)
Theorem filter_change_refetches_when_connected :
  forall (env : option string) (backend : string -> Api.FetchOutcome)
         (i : JharkhandHeatmap.Instance) (e : JharkhandHeatmap.Event)
         (st' : JharkhandHeatmap.State),
    HeatmapBar.selection e (JharkhandHeatmap.current i) = Some st' ->
    let st := JharkhandHeatmap.current i in
    let run := JharkhandHeatmap.handle env i (backend, e) in
    (st' = st -> Api.requests run = [] /\ Api.result run = i)
    /\ (JharkhandHeatmap.isConnected st = false ->
        Api.requests run = []
        /\ JharkhandHeatmap.current (Api.result run) = st')
    /\ (st' <> st -> JharkhandHeatmap.isConnected st = true ->
        Properties.healthy env backend ->
        Api.requests run
        = (Api.healthUrl env
             :: Properties.filterOptionsRequest env st'
             ++ [(Api.API_BASE_URL env ++ "/reports/by-location"
                    ++ Properties.queryOf
                         (Properties.activeDimensions st'))%string])%list
        /\ Properties.activeDimensions
             (JharkhandHeatmap.current (Api.result run))
           = Properties.activeDimensions st').
Proof.
  intros env backend i e st' S st run. subst run.
  rewrite (handle_selection env backend i e st' S).
  rewrite requests_bind, result_bind, requests_ret, result_ret, app_nil_r.
  pose proof (selection_same e (JharkhandHeatmap.current i) st' S) as Q.
  fold st in Q.
  assert (C : JharkhandHeatmap.isConnected st'
              = JharkhandHeatmap.isConnected st).
  { subst st. destruct (JharkhandHeatmap.current i).
    destruct e; cbn in S; try discriminate S; injection S as <-;
      reflexivity. }
  unfold JharkhandHeatmap.filterEffect. fold st.
  split; [|split].
  - intros E. rewrite (proj2 Q E). split; [reflexivity|].
    cbn [Api.ret Api.result snd]. rewrite E. subst st.
    destruct i; reflexivity.
  - intros D. rewrite C, D.
    destruct (JharkhandHeatmap.sameSelection st st'); split; reflexivity.
  - intros N K H.
    destruct (JharkhandHeatmap.sameSelection st st') eqn:E;
      [exfalso; apply N, Q; reflexivity|].
    rewrite C, K.
    destruct (loadReportLocations_connected env backend st' st' true H)
      as [R _].
    rewrite R. unfold Api.locationUrl.
    rewrite queryString_queryOf, locationParams_active.
    split; [reflexivity|].
    destruct (loadReportLocations_selection env backend st' st' true)
      as (A & B & D & G).
    cbn [JharkhandHeatmap.current].
    unfold Properties.activeDimensions, Properties.dimensions.
    now rewrite A, B, D, G.
Qed.

(** A status is selected while the view is connected and holds its
    options. *)
Lemma filter_change_refetches_when_connected_witness :
  let backend :=
    Properties.backendWith None Properties.up
      (Properties.serves (Js.JsArray [Properties.pin])) in
  let i := Api.result (JharkhandHeatmap.mounted None backend
                         JharkhandHeatmap.initial) in
  let e := JharkhandHeatmap.SelectStatus "resolved" in
  Api.requests (JharkhandHeatmap.handle None i (backend, e))
  = [ "http://localhost:8000/health";
      "http://localhost:8000/api/reports/by-location?status=resolved" ].
Proof.
  intros backend i e.
  assert (H : Properties.healthy None backend).
  { exists 200%Z, (Api.JsonBody Js.JsNull). split; reflexivity. }
  destruct (filter_change_refetches_when_connected None backend i e
              (JharkhandHeatmap.setSelectedStatus "resolved"
                 (JharkhandHeatmap.current i)) eq_refl)
    as (_ & _ & F).
  assert (N : JharkhandHeatmap.setSelectedStatus "resolved"
                (JharkhandHeatmap.current i)
              <> JharkhandHeatmap.current i).
  { intros E.
    apply (f_equal JharkhandHeatmap.selectedStatus) in E.
    vm_compute in E. discriminate E. }
  destruct (F N eq_refl H) as [R _].
  rewrite R. reflexivity.
Defined.

(** X12. The interval callback belongs to the first render for the
    whole life of a mounted view: after any sequence of filter changes,
    refreshes and earlier ticks, a tick against a reachable backend sends
    the health probe, a request for the filter options (also when the
    view holds them already) and the by-location request without any
    parameter, and it leaves the selections of the view as they are. *)
Theorem interval_fetch_is_that_of_first_render :
  forall (env : option string)
         (atMount backend : string -> Api.FetchOutcome)
         (events : list ((string -> Api.FetchOutcome)
                         * JharkhandHeatmap.Event)),
    Properties.healthy env backend ->
    let i :=
      Api.result
        (JharkhandHeatmap.run env
           (Api.result (JharkhandHeatmap.mounted env atMount
                          JharkhandHeatmap.initial))
           events) in
    let run := JharkhandHeatmap.handle env i (backend, JharkhandHeatmap.Tick) in
    Api.requests run
    = [ Api.healthUrl env; Api.API_BASE_URL env ++ "/filter-options";
        Api.API_BASE_URL env ++ "/reports/by-location" ]
    /\ Properties.activeDimensions
         (JharkhandHeatmap.current (Api.result run))
       = Properties.activeDimensions (JharkhandHeatmap.current i).
Proof.
  intros env atMount backend events H i run.
  assert (F : JharkhandHeatmap.firstRender i = JharkhandHeatmap.initial).
  { subst i. rewrite run_firstRender. reflexivity. }
  subst run. unfold JharkhandHeatmap.handle.
  cbn [fst snd]. rewrite requests_bind, result_bind, requests_ret, result_ret.
  rewrite app_nil_r, F. split.
  - apply tick_is_unfiltered. exact H.
  - cbn [JharkhandHeatmap.current]. unfold JharkhandHeatmap.tick.
    destruct (loadReportLocations_selection env backend
                JharkhandHeatmap.initial (JharkhandHeatmap.current i) true)
      as (A & B & D & G).
    unfold Properties.activeDimensions, Properties.dimensions.
    now rewrite A, B, D, G.
Qed.

(** Mounted, a priority selected, then the interval fires. *)
Lemma interval_fetch_is_that_of_first_render_witness :
  let backend :=
    Properties.backendWith None Properties.up
      (Properties.serves (Js.JsArray [Properties.pin])) in
  let i :=
    Api.result
      (JharkhandHeatmap.run None
         (Api.result (JharkhandHeatmap.mounted None backend
                        JharkhandHeatmap.initial))
         [(backend, JharkhandHeatmap.SelectPriority "high")]) in
  Properties.healthy None backend
  /\ Properties.activeDimensions (JharkhandHeatmap.current i)
     = [("priority", "high")]
  /\ Api.requests
       (JharkhandHeatmap.handle None i (backend, JharkhandHeatmap.Tick))
     = [ "http://localhost:8000/health";
         "http://localhost:8000/api/filter-options";
         "http://localhost:8000/api/reports/by-location" ].
Proof.
  intros backend i.
  assert (H : Properties.healthy None backend).
  { exists 200%Z, (Api.JsonBody Js.JsNull). split; reflexivity. }
  split; [exact H|]. split; [reflexivity|].
  exact (proj1 (interval_fetch_is_that_of_first_render None backend backend
                  [(backend, JharkhandHeatmap.SelectPriority "high")] H)).
Defined.

(** ** The markers and the popup *)

Section MarkerFacts.
Import JsString Js JharkhandHeatmap Properties MapboxMap.

Lemma validLocation_report_id (loc : JsValue) :
  validLocation loc = Some true ->
  getProp loc "report_id" = Some (prop loc "report_id").
Proof.
  unfold validLocation, prop.
  destruct loc; cbn; try discriminate; reflexivity.
Qed.

Lemma sameReport_valid (s : string) (loc : JsValue) :
  validLocation loc = Some true ->
  sameReport s loc
  = Some match prop loc "report_id" with
         | JsString t => t =? s
         | _ => false
         end.
Proof.
  intros H. unfold sameReport. rewrite (validLocation_report_id loc H).
  destruct (prop loc "report_id"); reflexivity.
Qed.

Lemma clickedLocation_first (ls : list JsValue) (loc : JsValue) (s : string) :
  Forall (fun l => validLocation l = Some true) ls ->
  In loc ls -> prop loc "report_id" = JsString s ->
  exists before first after,
    ls = (before ++ first :: after)%list
    /\ clickedLocation ls s = Some (Some first)
    /\ prop first "report_id" = JsString s
    /\ Forall (fun l => prop l "report_id" <> JsString s) before
    /\ (NoDup (reportIds ls) -> first = loc).
Proof.
  induction 1 as [| x rest Hx Hrest IH]; intros I P; [contradiction|].
  unfold clickedLocation. cbn [findThrowing].
  rewrite (sameReport_valid s x Hx).
  destruct (prop x "report_id") as [| | | | t | |] eqn:E;
    try (destruct I as [-> | I]; [congruence|];
         destruct (IH I P) as (before & first & after & L & C & Q & B & U);
         exists (x :: before), first, after; subst rest;
         split; [reflexivity|]; split; [exact C|]; split; [exact Q|];
         split; [apply Forall_cons; [congruence | exact B]|];
         intros N; apply U; cbn in N; inversion N; subst; assumption).
  destruct (String.eqb_spec t s) as [-> | D].
  - exists [], x, rest. split; [reflexivity|]. split; [reflexivity|].
    split; [exact E|]. split; [apply Forall_nil|].
    intros N. destruct I as [I | I]; [exact I|].
    exfalso. cbn in N. inversion N as [| ? ? Nx _]; subst.
    apply Nx. rewrite E, <- P. unfold reportIds.
    apply (in_map (fun l => prop l "report_id")). exact I.
  - destruct I as [-> | I]; [congruence|].
    destruct (IH I P) as (before & first & after & L & C & Q & B & U).
    exists (x :: before), first, after. subst rest.
    split; [reflexivity|]. split; [exact C|]. split; [exact Q|].
    split; [apply Forall_cons; [congruence | exact B]|].
    intros N. apply U. cbn in N. inversion N; subst. assumption.
Qed.

End MarkerFacts.

(** X13. A click on the marker of a location with a string report id
    opens the first location of the list with that report id: the one
    clicked when the report ids of the list are distinct, an earlier one
    when they are not.  On the list a heatmap holds, whose elements have
    all passed the coordinate filter, the search never throws. *)
Theorem marker_click_finds_first_report_with_id :
  forall (st : JharkhandHeatmap.State) (loc : Js.JsValue) (id : string),
    Properties.filtered st ->
    In loc (JharkhandHeatmap.locations st) ->
    Js.prop loc "report_id" = Js.JsString id ->
    exists before first after,
      JharkhandHeatmap.locations st = (before ++ first :: after)%list
      /\ MapboxMap.clickedLocation (JharkhandHeatmap.locations st) id
         = Some (Some first)
      /\ Js.prop first "report_id" = Js.JsString id
      /\ Forall (fun l => Js.prop l "report_id" <> Js.JsString id) before
      /\ (NoDup (MapboxMap.reportIds (JharkhandHeatmap.locations st)) ->
          first = loc).
Proof.
  intros st loc id F I P.
  exact (clickedLocation_first (JharkhandHeatmap.locations st) loc id F I P).
Qed.

(** Two reports at different places that carry the same id: the click on
    the second marker opens the first report. *)
Lemma marker_click_finds_first_report_with_id_witness :
  let here :=
    Js.JsObject [("lng", Js.JsNumber Js.num_77_25);
                 ("lat", Js.JsNumber Js.num_28_5);
                 ("report_id", Js.JsString "RPT-7")] in
  let there :=
    Js.JsObject [("lng", Js.JsNumber Js.num_28_5);
                 ("lat", Js.JsNumber Js.num_77_25);
                 ("report_id", Js.JsString "RPT-7")] in
  let st :=
    JharkhandHeatmap.setLocations [here; there] JharkhandHeatmap.initial in
  Properties.filtered st
  /\ MapboxMap.clickedLocation (JharkhandHeatmap.locations st) "RPT-7"
     = Some (Some here).
Proof.
  intros here there st.
  assert (F : Properties.filtered st).
  { apply Forall_cons; [reflexivity|].
    apply Forall_cons; [reflexivity | apply Forall_nil]. }
  split; [exact F|].
  destruct (marker_click_finds_first_report_with_id st there "RPT-7" F
              (or_intror (or_introl eq_refl)) eq_refl)
    as (before & first & after & L & C & _).
  reflexivity.
Defined.

Section ChipFacts.
Import JsString Js Api JharkhandHeatmap Properties HeatmapBar.

Lemma underscoresToSpaces_length (s : string) :
  String.length (underscoresToSpaces s) = String.length s.
Proof. induction s as [| c s IH]; cbn; [reflexivity | now rewrite IH]. Qed.

Lemma underscoresToSpaces_clean (s : string) :
  all_chars (isnt "_") (underscoresToSpaces s) = true.
Proof.
  induction s as [| c s IH]; [reflexivity|].
  cbn [underscoresToSpaces all_chars]. rewrite IH, andb_true_r.
  unfold isnt. destruct (Ascii.eqb c "_") eqn:E; [reflexivity|].
  rewrite E. reflexivity.
Qed.

Lemma underscoresToSpaces_fixed (s : string) :
  all_chars (isnt "_") s = true -> underscoresToSpaces s = s.
Proof.
  induction s as [| c s IH]; intros H; [reflexivity|].
  cbn [all_chars] in H. apply andb_true_iff in H. destruct H as [Hc Hs].
  cbn [underscoresToSpaces]. unfold isnt in Hc. apply negb_true_iff in Hc.
  rewrite Hc, (IH Hs). reflexivity.
Qed.

End ChipFacts.

(** X14. The chips under "Active filters" name exactly the parameters
    that a refresh of the same render sends, in the same order, and show
    the selected values as they are, except that the category chip shows
    the category with every underscore turned into a space (the request
    carries it unchanged).  The chips are on screen only while the view
    is connected and holds filter options. *)
Theorem filter_chips_match_request_parameters :
  forall (st : JharkhandHeatmap.State),
    let chips := HeatmapBar.activeFilterChips st in
    let params :=
      Api.locationParams
        (JharkhandHeatmap.filtersArgument
           (JharkhandHeatmap.buildFilters st true)) in
    map (fun chip => HeatmapBar.parameterOf (fst chip)) chips = map fst params
    /\ map snd chips
       = map (fun kv => if fst kv =? "category"
                        then HeatmapBar.underscoresToSpaces (snd kv)
                        else snd kv) params
    /\ (forall text, In ("Category", text) chips ->
          String.length text
          = String.length (JharkhandHeatmap.selectedCategory st)
          /\ JsString.all_chars (JsString.isnt "_") text = true)
    /\ (HeatmapBar.chipsShown st <> [] ->
        JharkhandHeatmap.isConnected st = true
        /\ Js.truthy (JharkhandHeatmap.filterOptions st) = true
        /\ params <> []).
Proof.
  intros st chips params. subst chips params.
  rewrite locationParams_active.
  unfold HeatmapBar.chipsShown, HeatmapBar.filterBarShown.
  destruct st as [l lo co fo c p d s].
  unfold HeatmapBar.activeFilterChips, HeatmapBar.chip,
    Properties.activeDimensions, Properties.dimensions.
  cbn [JharkhandHeatmap.selectedCategory JharkhandHeatmap.selectedPriority
       JharkhandHeatmap.selectedDepartment JharkhandHeatmap.selectedStatus
       JharkhandHeatmap.isConnected JharkhandHeatmap.filterOptions].
  split; [|split; [|split]].
  - destruct c, p, d, s; reflexivity.
  - destruct c, p, d, s; reflexivity.
  - intros text H.
    assert (E : text = HeatmapBar.underscoresToSpaces c).
    { destruct c, p, d, s; cbn in H;
        repeat match goal with
               | H : _ \/ _ |- _ => destruct H
               | H : (_, _) = (_, _) |- _ => injection H; clear H; intros
               | H : False |- _ => contradiction
               end; try discriminate; subst; reflexivity. }
    rewrite E. split.
    + apply underscoresToSpaces_length.
    + apply underscoresToSpaces_clean.
  - destruct (Js.truthy fo); [|cbn; intros H; contradiction].
    destruct co; [|cbn; intros H; contradiction].
    cbn [andb]. intros H. split; [reflexivity|]. split; [reflexivity|].
    destruct c, p, d, s; cbn in *; try discriminate; contradiction.
Qed.

(** The category [water_sanitation] selected. *)
Lemma filter_chips_match_request_parameters_witness :
  let st :=
    JharkhandHeatmap.setFilterOptions (Js.JsObject [])
      (JharkhandHeatmap.setIsConnected true
         (Properties.firstRenderWith "water_sanitation" "" "" "")) in
  HeatmapBar.chipsShown st <> []
  /\ HeatmapBar.chipsShown st = [("Category", "water sanitation")]
  /\ Api.locationParams
       (JharkhandHeatmap.filtersArgument
          (JharkhandHeatmap.buildFilters st true))
     = [("category", "water_sanitation")].
Proof.
  intros st.
  assert (N : HeatmapBar.chipsShown st <> []) by discriminate.
  split; [exact N|]. split; [reflexivity|].
  destruct (filter_chips_match_request_parameters st) as (_ & _ & _ & S).
  destruct (S N) as (_ & _ & P). reflexivity.
Defined.

(** X15. "View Full Details" in the popup hands a complaint to the
    shell exactly when the location has a non-empty report id.  The
    complaint then carries that id, a severity that is never empty
    ("medium" when the location has no priority), and as its image the
    report id followed by [.jpg], so the details page always shows an
    evidence image for it, at that name in the uploads directory. *)
Theorem popup_details_need_report_id :
  forall (l : HeatmapPopup.Location),
    (HeatmapPopup.handleViewFullDetails l = None
     <-> HeatmapPopup.report_id l = None
         \/ HeatmapPopup.report_id l = Some "")
    /\ (forall c,
           HeatmapPopup.handleViewFullDetails l = Some c ->
           HeatmapPopup.report_id l = Some (HeatmapPopup.id c)
           /\ HeatmapPopup.id c <> ""
           /\ HeatmapPopup.severity c <> ""
           /\ (HeatmapPopup.priority l = None ->
               HeatmapPopup.severity c = "medium")
           /\ ComplaintDetails.evidenceImage (HeatmapPopup.imagePath c)
              = Some ("http://localhost:8000/api/uploads/"
                        ++ HeatmapPopup.id c ++ ".jpg")).
Proof.
  intros l. unfold HeatmapPopup.handleViewFullDetails.
  destruct (HeatmapPopup.report_id l) as [[| a rid] |].
  - split; [split; [right; reflexivity | reflexivity] | discriminate].
  - cbn [Js.nonEmpty String.eqb negb]. split.
    + split; [discriminate|]. intros [H | H]; discriminate H.
    + intros c H. injection H as <-. cbn.
      split; [reflexivity|]. split; [discriminate|].
      split; [|split; [|reflexivity]].
      * destruct (HeatmapPopup.priority l) as [[| b p] |]; discriminate.
      * intros ->. reflexivity.
  - split; [split; [left; reflexivity | reflexivity] | discriminate].
Qed.

(** A location with a report id and no priority. *)
Lemma popup_details_need_report_id_witness :
  let l :=
    {| HeatmapPopup.lng := Js.num_77_25; HeatmapPopup.lat := Js.num_28_5;
       HeatmapPopup.name := "Pothole"; HeatmapPopup.info := "";
       HeatmapPopup.category := None; HeatmapPopup.priority := None;
       HeatmapPopup.department := None; HeatmapPopup.status := None;
       HeatmapPopup.report_id := Some "RPT-9";
       HeatmapPopup.description := None; HeatmapPopup.created_at := None;
       HeatmapPopup.phone_number := None;
       HeatmapPopup.resolution_days := None |} in
  exists c,
    HeatmapPopup.handleViewFullDetails l = Some c
    /\ HeatmapPopup.severity c = "medium"
    /\ ComplaintDetails.evidenceImage (HeatmapPopup.imagePath c)
       = Some "http://localhost:8000/api/uploads/RPT-9.jpg".
Proof.
  intros l. eexists. split; [reflexivity|].
  destruct (popup_details_need_report_id l) as [_ D].
  destruct (D _ eq_refl) as (_ & _ & _ & S & E).
  split; [exact (S eq_refl) | exact E].
Defined.

(** ** The chat view: the transcript *)

Section TranscriptFacts.
Import JsString Js ChatbotPage ChatTranscript.

Lemma step_extends (w : World) (e : Event) :
  exists suffix,
    messages (view (step w e)) = (messages (view w) ++ suffix)%list.
Proof.
  destruct e as [s | now | now outcome]; cbn [step].
  - exists []. cbn. now rewrite app_nil_r.
  - unfold sendMessage.
    destruct (negb (nonEmpty (trim (inputMessage (view w))))
              || isLoading (view w)); cbn.
    + exists []. now rewrite app_nil_r.
    + eexists. reflexivity.
  - destruct (outstanding w); cbn.
    + exists []. now rewrite app_nil_r.
    + eexists. reflexivity.
Qed.

Lemma runEvents_extends (events : list Event) (w : World) :
  exists suffix,
    messages (view (runEvents w events)) = (messages (view w) ++ suffix)%list.
Proof.
  revert w. induction events as [| e es IH]; intros w.
  - exists []. cbn. now rewrite app_nil_r.
  - cbn [runEvents fold_left].
    destruct (IH (step w e)) as [s2 H2]. destruct (step_extends w e) as [s1 H1].
    exists (s1 ++ s2)%list. unfold runEvents in H2.
    rewrite H2, H1, app_assoc. reflexivity.
Qed.

Lemma exchanges_snoc (k : nat) :
  (exchanges k ++ [user; bot])%list = exchanges (S k).
Proof.
  induction k as [| k IH]; [reflexivity|].
  cbn [exchanges List.app]. rewrite IH. reflexivity.
Qed.

Lemma turns_reply (k : nat) :
  (turns k true ++ [bot])%list = turns (S k) false.
Proof.
  unfold turns. cbn [List.app]. rewrite <- app_assoc. cbn [List.app].
  rewrite exchanges_snoc, app_nil_r. reflexivity.
Qed.

Lemma turns_question (k : nat) :
  (turns k false ++ [user])%list = turns k true.
Proof.
  unfold turns. cbn [List.app]. rewrite <- app_assoc. reflexivity.
Qed.

Lemma reachable_turns (t0 : Z) (w : World) :
  reachable t0 w ->
  exists k, map sender (messages (view w)) = turns k (isLoading (view w)).
Proof.
  induction 1 as [| w e Hr [k IH]].
  - exists 0%nat. reflexivity.
  - pose proof (single_flight t0 w Hr) as F.
    destruct e as [s | now | now outcome]; cbn [step].
    + exists k. exact IH.
    + unfold sendMessage.
      destruct (negb (nonEmpty (trim (inputMessage (view w))))
                || isLoading (view w)) eqn:G; cbn.
      * exists k. exact IH.
      * apply orb_false_iff in G. destruct G as [_ G]. rewrite G in IH.
        exists k. rewrite map_app, IH. apply turns_question.
    + destruct F as [[Hl (r & Ho)] | [Hl Ho]]; rewrite Ho.
      * cbn. exists (S k). rewrite map_app, IH, Hl. apply turns_reply.
      * exists k. exact IH.
Qed.

End TranscriptFacts.

(** X16. The transcript of the chat only grows: whatever is typed,
    submitted or answered, the messages shown before stay as they are,
    in place, and new ones are added behind them. *)
Theorem chat_transcript_only_grows :
  forall (w : ChatbotPage.World) (events : list ChatbotPage.Event),
    exists added,
      ChatbotPage.messages
        (ChatbotPage.view (ChatTranscript.runEvents w events))
      = (ChatbotPage.messages (ChatbotPage.view w) ++ added)%list.
Proof. intros w events. apply runEvents_extends. Qed.

(** X17. In every state the chat can reach, the transcript is the
    greeting of the assistant followed by alternating user and assistant
    messages; it ends with a user message exactly while a request is
    pending.  The assistant never speaks twice in a row after the
    greeting, and no user message is left without an answer or an
    apology once its request has settled. *)
Theorem chat_transcript_alternates :
  forall (t0 : Z) (w : ChatbotPage.World),
    ChatbotPage.reachable t0 w ->
    exists k,
      map ChatbotPage.sender (ChatbotPage.messages (ChatbotPage.view w))
      = ChatTranscript.turns k (ChatbotPage.isLoading (ChatbotPage.view w))
      /\ (ChatbotPage.isLoading (ChatbotPage.view w) = true
          <-> ChatbotPage.outstanding w <> []).
Proof.
  intros t0 w R. destruct (reachable_turns t0 w R) as [k H].
  exists k. split; [exact H|].
  destruct (single_flight t0 w R) as [[Hl (r & Ho)] | [Hl Ho]];
    rewrite Hl, Ho; split; try discriminate; try reflexivity.
  intros N. contradiction.
Qed.

(** A question asked and answered, and a second one pending. *)
Lemma chat_transcript_alternates_witness :
  let w :=
    ChatTranscript.runEvents (ChatbotPage.start 0)
      [ ChatbotPage.TypeInput "How many complaints?";
        ChatbotPage.Submit 10;
        ChatbotPage.Settle 20 (ChatbotPage.Reply "42");
        ChatbotPage.TypeInput "And by category?";
        ChatbotPage.Submit 30 ] in
  ChatbotPage.reachable 0 w
  /\ map ChatbotPage.sender (ChatbotPage.messages (ChatbotPage.view w))
     = [ ChatbotPage.bot; ChatbotPage.user; ChatbotPage.bot;
         ChatbotPage.user ].
Proof.
  intros w.
  assert (R : ChatbotPage.reachable 0 w).
  { subst w. unfold ChatTranscript.runEvents. cbn [fold_left].
    repeat apply ChatbotPage.reach_step. apply ChatbotPage.reach_start. }
  split; [exact R|].
  destruct (chat_transcript_alternates 0 w R) as (k & H & _).
  reflexivity.
Defined.

(** X18. One exchange: when nothing is pending and the input is not
    blank, a submission sends one request that carries the input as
    typed (not trimmed) and the transcript before it as history, and it
    clears the input; when the request settles, the transcript is the
    earlier one followed by the user message and by the reply, or by the
    apology if the request failed, and the view accepts input again. *)
Theorem chat_exchange_appends_question_and_answer :
  forall (t0 now later : Z) (w : ChatbotPage.World)
         (outcome : ChatbotPage.ChatOutcome),
    ChatbotPage.reachable t0 w ->
    ChatbotPage.outstanding w = [] ->
    JsString.trim (ChatbotPage.inputMessage (ChatbotPage.view w)) <> "" ->
    let typed := ChatbotPage.inputMessage (ChatbotPage.view w) in
    let before := ChatbotPage.messages (ChatbotPage.view w) in
    let sent := ChatbotPage.step w (ChatbotPage.Submit now) in
    let settled := ChatbotPage.step sent (ChatbotPage.Settle later outcome) in
    ChatbotPage.outstanding sent
    = [ {| ChatbotPage.message := typed;
           ChatbotPage.chat_history :=
             map (fun m => (ChatbotPage.text m, ChatbotPage.sender m))
                 before |} ]
    /\ ChatbotPage.inputMessage (ChatbotPage.view sent) = ""
    /\ ChatbotPage.isLoading (ChatbotPage.view sent) = true
    /\ ChatbotPage.messages (ChatbotPage.view settled)
       = (before
          ++ [ {| ChatbotPage.id := now; ChatbotPage.text := typed;
                  ChatbotPage.sender := ChatbotPage.user;
                  ChatbotPage.timestamp := now |};
               {| ChatbotPage.id := later + 1;
                  ChatbotPage.text := ChatTranscript.replyText outcome;
                  ChatbotPage.sender := ChatbotPage.bot;
                  ChatbotPage.timestamp := later |} ])%list
    /\ ChatbotPage.outstanding settled = []
    /\ ChatbotPage.isLoading (ChatbotPage.view settled) = false.
Proof.
  intros t0 now later w outcome R O T typed before sent settled.
  assert (L : ChatbotPage.isLoading (ChatbotPage.view w) = false).
  { destruct (single_flight t0 w R) as [[_ (r & Ho)] | [Hl _]];
      [congruence | exact Hl]. }
  assert (N : Js.nonEmpty
                (JsString.trim (ChatbotPage.inputMessage (ChatbotPage.view w)))
              = true).
  { destruct (JsString.trim (ChatbotPage.inputMessage (ChatbotPage.view w)));
      [contradiction | reflexivity]. }
  subst settled sent. cbn [ChatbotPage.step].
  unfold ChatbotPage.sendMessage. rewrite N, L, O.
  cbn. rewrite <- app_assoc.
  destruct outcome; repeat split; reflexivity.
Qed.

(** A question with a trailing space, and a failed request. *)
Lemma chat_exchange_appends_question_and_answer_witness :
  let w := ChatbotPage.step (ChatbotPage.start 0)
             (ChatbotPage.TypeInput "Show pending complaints ") in
  let settled :=
    ChatbotPage.step (ChatbotPage.step w (ChatbotPage.Submit 10))
      (ChatbotPage.Settle 20 ChatbotPage.Failure) in
  ChatbotPage.reachable 0 w
  /\ map ChatbotPage.text
       (ChatbotPage.messages (ChatbotPage.view settled))
     = [ ChatbotPage.greeting; "Show pending complaints ";
         "Sorry, I encountered an error. Please try again." ].
Proof.
  intros w settled.
  assert (R : ChatbotPage.reachable 0 w).
  { apply ChatbotPage.reach_step, ChatbotPage.reach_start. }
  split; [exact R|].
  assert (T : JsString.trim (ChatbotPage.inputMessage (ChatbotPage.view w))
              <> "") by discriminate.
  destruct (chat_exchange_appends_question_and_answer 0 10 20 w
              ChatbotPage.Failure R eq_refl T) as (_ & _ & _ & M & _).
  subst settled. rewrite M. reflexivity.
Defined.

(** ** The chat view: listings of any length *)

Section ListingLengthFacts.
Import JsString Js ChatbotPage ChatTranscript.

Lemma sectionsText_cons (s : string * list (Label * string))
  (ss : list (string * list (Label * string))) :
  sectionsText (s :: ss) = complaintSection (fst s) (snd s) ++ sectionsText ss.
Proof.
  unfold sectionsText. destruct ss as [| t ts]; cbn [map String.concat].
  - now rewrite append_empty_r.
  - reflexivity.
Qed.

Lemma inert_body (fs : list (Label * string)) :
  Forall (fun f => plainValue (snd f)) fs -> inert (NL ++ fieldLines fs).
Proof.
  intros F. apply inert_app; [apply inert_NL|].
  apply inert_fieldLines, plain_starless, F.
Qed.

(** The pieces behind the intro: one per section, and each parses into
    the values of its section. *)
Lemma splitHeading_from_sectionsText
  (ss : list (string * list (Label * string))) (outro : string) :
  Forall wellFormed ss -> all_chars (isnt star) outro = true ->
  exists first rest,
    splitHeading_from 0 (sectionsText ss ++ outro) = first :: rest
    /\ match ss with
       | [] => first = outro /\ rest = []
       | _ :: _ =>
           first = ""
           /\ map parseComplaint rest = map (fun s => dataOf (snd s)) ss
       end.
Proof.
  intros W Ho. induction W as [| s ss [Hn Hf] W IH].
  - exists outro, []. split; [|split; reflexivity].
    apply (splitHeading_one outro), inert_starless, Ho.
  - destruct IH as (first & rest & E & M).
    rewrite sectionsText_cons. unfold complaintSection.
    rewrite !append_assoc, (splitHeading_from_heading (fst s) _ Hn).
    rewrite <- (append_assoc NL), (inert_body (snd s) Hf), E.
    cbn [prepend].
    exists "", (((NL ++ fieldLines (snd s)) ++ first) :: rest).
    split; [reflexivity|]. split; [reflexivity|].
    cbn [map]. rewrite append_assoc.
    destruct ss as [| t ts].
    + destruct M as [-> ->].
      rewrite (parseComplaint_section (snd s) outro Hf Ho). reflexivity.
    + destruct M as [-> M].
      rewrite (parseComplaint_section (snd s) "" Hf eq_refl), M. reflexivity.
Qed.

Lemma sectionsText_reportId (ss : list (string * list (Label * string))) :
  Exists (fun s => In ReportId (map fst (snd s))) ss ->
  includes "Report ID:" (sectionsText ss) = true.
Proof.
  induction 1 as [s ss H | s ss _ IH]; rewrite sectionsText_cons.
  - apply includes_app_l. unfold complaintSection.
    apply (includes_inside _ (fieldLines (snd s))).
    + apply inside_app_r, inside_app_r, inside_refl.
    + apply fieldLines_reportId, H.
  - apply includes_app_r, IH.
Qed.

Lemma startsWith_split (p s : string) :
  startsWith p s = true -> s = p ++ drop (String.length p) s.
Proof.
  revert s. induction p as [| a p IH]; intros s H; [reflexivity|].
  destruct s as [| b s]; [discriminate|].
  cbn [startsWith] in H. apply andb_true_iff in H. destruct H as [E H].
  apply Ascii.eqb_eq in E. subst b. cbn. now rewrite <- (IH s H).
Qed.

Lemma digitRun_digitless (s : string) : digitless s = true -> digitRun s = 0%nat.
Proof.
  destruct s as [| c s]; [reflexivity|].
  unfold digitless. cbn [all_chars digitRun]. intros H.
  apply andb_true_iff in H. destruct H as [Hc _].
  apply negb_true_iff in Hc. rewrite Hc. reflexivity.
Qed.

Lemma matchHeading_digitless (s : string) :
  digitless s = true -> matchHeading s = None.
Proof.
  intros H. unfold matchHeading.
  destruct (startsWith "**Complaint " s) eqn:S; [|reflexivity].
  pose proof (startsWith_split _ _ S) as E.
  change (String.length "**Complaint ") with 12%nat in E.
  unfold digitless in H. rewrite E, all_chars_app in H.
  apply andb_true_iff in H. destruct H as [_ H].
  rewrite (digitRun_digitless _ H). reflexivity.
Qed.

Lemma splitHeading_digitless (s : string) :
  digitless s = true -> splitHeading s = [s].
Proof.
  unfold splitHeading. induction s as [| c s IH]; intros H; [reflexivity|].
  cbn [splitHeading_from]. rewrite (matchHeading_digitless _ H).
  unfold digitless in *. cbn [all_chars] in H.
  apply andb_true_iff in H. destruct H as [_ H].
  rewrite (IH H). reflexivity.
Qed.

End ListingLengthFacts.

(** X19. A reply made of an intro, one or more sections, each a
    heading [**Complaint N:**] followed by bulleted lines
    [* **Label:** value] with plain values, and a closing text, where the
    intro and the closing text hold no asterisk and one section at least
    has a Report ID line, is formatted into one entry per heading, in
    the order of the reply, each with the values of its own section; the
    trimmed intro is shown above the entries and the closing text is
    ignored.  Without the text [Report ID:] anywhere in it, a reply is
    returned as it is and shown as preformatted text, whatever headings
    and fields it holds. *)
Theorem listing_has_one_card_per_heading :
  (forall (intro outro : string)
          (sections : list (string * list (ChatbotPage.Label * string))),
      sections <> [] ->
      Forall ChatTranscript.wellFormed sections ->
      Exists (fun s => In ChatbotPage.ReportId (map fst (snd s))) sections ->
      JsString.all_chars (JsString.isnt JsString.star) intro = true ->
      JsString.all_chars (JsString.isnt JsString.star) outro = true ->
      let text := intro ++ ChatTranscript.sectionsText sections ++ outro in
      ChatbotPage.formatComplaintText text
      = ChatbotPage.Listing (JsString.trim intro)
          (map (fun s => ChatbotPage.dataOf (snd s)) sections)
          (JsString.includes "For more details" text)
      /\ ChatbotPage.botBubble text
         = ChatbotPage.Cards
             (if Js.nonEmpty (JsString.trim intro)
              then Some (JsString.trim intro) else None)
             (map (fun s => ChatbotPage.dataOf (snd s)) sections)
             (JsString.includes "For more details" text))
  /\ (forall text : string,
         JsString.includes "Report ID:" text = false ->
         ChatbotPage.formatComplaintText text = ChatbotPage.Text text
         /\ ChatbotPage.botBubble text = ChatbotPage.Preformatted text).
Proof.
  split.
  - intros intro outro sections N W R Hi Ho text.
    assert (D : JsString.includes "**Complaint" text
                && JsString.includes "Report ID:" text = true).
    { apply andb_true_iff. unfold text. split.
      - destruct sections as [| s ss]; [contradiction|].
        rewrite sectionsText_cons. unfold ChatbotPage.complaintSection.
        apply (includes_inside _ (ChatbotPage.heading (fst s))).
        + apply inside_app_r, inside_app_l, inside_app_l, inside_app_l,
            inside_refl.
        + reflexivity.
      - apply includes_app_r, includes_app_l, sectionsText_reportId, R. }
    assert (E : ChatbotPage.formatComplaintText text
                = ChatbotPage.Listing (JsString.trim intro)
                    (map (fun s => ChatbotPage.dataOf (snd s)) sections)
                    (JsString.includes "For more details" text)).
    { unfold ChatbotPage.formatComplaintText. rewrite D.
      destruct (splitHeading_from_sectionsText sections outro W Ho)
        as (first & rest & S & M).
      destruct sections as [| s ss]; [contradiction|]. destruct M as [-> M].
      unfold ChatbotPage.splitHeading, text.
      rewrite (inert_starless intro Hi), S.
      cbn [JsString.prepend hd tl]. rewrite append_empty_r, M. reflexivity. }
    split; [exact E|].
    unfold ChatbotPage.botBubble. rewrite E, map_map. f_equal.
    apply map_ext_in. intros s I. apply cardOf_dataOf.
    rewrite Forall_forall in W. apply (W s I).
  - intros text R.
    unfold ChatbotPage.botBubble, ChatbotPage.formatComplaintText.
    rewrite R, andb_false_r. split; reflexivity.
Qed.

(** A reply with one complaint, and the same reply with its Report ID
    line left out. *)
Lemma listing_has_one_card_per_heading_witness :
  let sections :=
    [ ("3", [ (ChatbotPage.ReportId, "RPT-2207");
              (ChatbotPage.Status, "submitted") ]) ] in
  let text := ("Latest complaint:" ++ ChatbotPage.NL)
              ++ ChatTranscript.sectionsText sections ++ "" in
  let bare := ("Latest complaint:" ++ ChatbotPage.NL)
              ++ ChatTranscript.sectionsText
                   [ ("3", [ (ChatbotPage.Status, "submitted") ]) ] in
  ChatbotPage.formatComplaintText text
  = ChatbotPage.Listing "Latest complaint:"
      [ {| ChatbotPage.reportId := Some "RPT-2207";
           ChatbotPage.category := None;
           ChatbotPage.priority := None;
           ChatbotPage.description := None;
           ChatbotPage.status := Some "submitted";
           ChatbotPage.createdAt := None |} ]
      false
  /\ ChatbotPage.formatComplaintText bare = ChatbotPage.Text bare.
Proof.
  intros sections text bare.
  assert (P : forall v, v <> "" -> JsString.trim v = v ->
                JsString.all_chars (JsString.isnt JsString.star) v = true ->
                JsString.all_chars (JsString.isnt JsString.LF) v = true ->
                ChatbotPage.plainValue v).
  { intros v A B C D. repeat split; assumption. }
  assert (N : sections <> []) by discriminate.
  assert (W : Forall ChatTranscript.wellFormed sections).
  { apply Forall_cons; [|apply Forall_nil]. split.
    - split; [discriminate | reflexivity].
    - repeat (apply Forall_cons;
              [apply P; [discriminate | reflexivity | reflexivity
                         | reflexivity]|]).
      apply Forall_nil. }
  assert (R : Exists (fun s => In ChatbotPage.ReportId (map fst (snd s)))
                sections).
  { apply Exists_cons_hd. left. reflexivity. }
  destruct listing_has_one_card_per_heading as [A B].
  destruct (A ("Latest complaint:" ++ ChatbotPage.NL) ""
              sections N W R eq_refl eq_refl) as [E _].
  split.
  - etransitivity; [exact E | reflexivity].
  - exact (proj1 (B bare eq_refl)).
Defined.

(** X20. A reply that holds the words [**Complaint] and [Report ID:]
    but no digit has no numbered heading: it is still taken for a
    listing, so it is shown as its trimmed text in the layout of a
    listing, with no card, and not as preformatted text. *)
Theorem listing_without_numbered_heading_has_no_card :
  forall text : string,
    JsString.includes "**Complaint" text = true ->
    JsString.includes "Report ID:" text = true ->
    ChatTranscript.digitless text = true ->
    ChatbotPage.formatComplaintText text
    = ChatbotPage.Listing (JsString.trim text) []
        (JsString.includes "For more details" text)
    /\ ChatbotPage.botBubble text
       = ChatbotPage.Cards
           (if Js.nonEmpty (JsString.trim text)
            then Some (JsString.trim text) else None)
           [] (JsString.includes "For more details" text)
    /\ ChatbotPage.botBubble text <> ChatbotPage.Preformatted text.
Proof.
  intros text C R D.
  assert (E : ChatbotPage.formatComplaintText text
              = ChatbotPage.Listing (JsString.trim text) []
                  (JsString.includes "For more details" text)).
  { unfold ChatbotPage.formatComplaintText.
    rewrite C, R, (splitHeading_digitless text D). reflexivity. }
  split; [exact E|].
  unfold ChatbotPage.botBubble. rewrite E.
  split; [reflexivity | discriminate].
Qed.

(** A reply that names the pattern without using it. *)
Lemma listing_without_numbered_heading_has_no_card_witness :
  let text := "  **Complaint** not found. Check the Report ID: field." in
  ChatbotPage.botBubble text
  = ChatbotPage.Cards
      (Some "**Complaint** not found. Check the Report ID: field.") [] false.
Proof.
  intros text.
  destruct (listing_without_numbered_heading_has_no_card text
              eq_refl eq_refl eq_refl) as (_ & B & _).
  rewrite B. reflexivity.
Defined.

(** ** The statistics view after a successful fetch *)

(** X21. Once the mount fetch of the statistics view has settled,
    the skeleton is gone.  The dashboard is shown exactly when the fetch
    resolved to a statistics object; it then shows the four cards in the
    order total, resolved this month, pending review and average
    resolution time with the values and changes of the payload, and the
    monthly and category data of the payload in its two charts.  A fetch
    that resolved to no data (the envelope had no [data], or [null])
    shows the error panel, with no message. *)
Theorem statistics_dashboard_shows_payload :
  forall outcome : Api.Settled (option StatisticsSection.ComprehensiveStats),
    StatisticsSection.mountedView outcome <> StatisticsSection.Skeleton
    /\ ((exists cards bars pie,
            StatisticsSection.mountedView outcome
            = StatisticsSection.Dashboard cards bars pie)
        <-> exists data, outcome = Api.Resolved (Some data))
    /\ (outcome = Api.Resolved None ->
        StatisticsSection.mountedView outcome
        = StatisticsSection.ErrorPanel None)
    /\ (forall data,
           outcome = Api.Resolved (Some data) ->
           exists cards,
             StatisticsSection.mountedView outcome
             = StatisticsSection.Dashboard cards
                 (StatisticsSection.monthly_data data)
                 (StatisticsSection.category_data data)
             /\ map StatisticsSection.title cards
                = [ "Total Complaints"; "Resolved This Month";
                    "Pending Review"; "Average Resolution Time" ]
             /\ map (fun c => (StatisticsSection.shownValue c,
                               StatisticsSection.shownChange c,
                               StatisticsSection.changeType c)) cards
                = map (fun c => (StatisticsSection.value c,
                                 StatisticsSection.change c,
                                 StatisticsSection.change_type c))
                    [ StatisticsSection.total_complaints
                        (StatisticsSection.cards data);
                      StatisticsSection.resolved_this_month
                        (StatisticsSection.cards data);
                      StatisticsSection.pending_review
                        (StatisticsSection.cards data);
                      StatisticsSection.avg_resolution_time
                        (StatisticsSection.cards data) ]).
Proof.
  intros [[data |] | e]; cbn.
  - split; [discriminate|]. split; [|split].
    + split; intros _; eauto.
    + discriminate.
    + intros d H. injection H as <-. eexists. split; [reflexivity|].
      split; reflexivity.
  - split; [discriminate|]. split; [|split].
    + split; [intros (c & b & p & H); discriminate H
             | intros (d & H); discriminate H].
    + reflexivity.
    + intros d H. discriminate H.
  - split; [discriminate|]. split; [|split].
    + split; [intros (c & b & p & H); discriminate H
             | intros (d & H); discriminate H].
    + discriminate.
    + intros d H. discriminate H.
Qed.

(** A payload with the values of the placeholder, and an envelope
    without data. *)
Lemma statistics_dashboard_shows_payload_witness :
  (exists cards,
      StatisticsSection.mountedView
        (Api.Resolved (Some StatisticsSection.fallbackStats))
      = StatisticsSection.Dashboard cards
          (StatisticsSection.monthly_data StatisticsSection.fallbackStats)
          (StatisticsSection.category_data StatisticsSection.fallbackStats)
      /\ map StatisticsSection.title cards
         = [ "Total Complaints"; "Resolved This Month";
             "Pending Review"; "Average Resolution Time" ])
  /\ StatisticsSection.mountedView (Api.Resolved None)
     = StatisticsSection.ErrorPanel None.
Proof.
  split.
  - destruct (statistics_dashboard_shows_payload
                (Api.Resolved (Some StatisticsSection.fallbackStats)))
      as (_ & _ & _ & D).
    destruct (D StatisticsSection.fallbackStats eq_refl)
      as (cards & V & T & _).
    exists cards. split; [exact V | exact T].
  - destruct (statistics_dashboard_shows_payload (Api.Resolved None))
      as (_ & _ & E & _).
    exact (E eq_refl).
Defined.
